(** * Provider discovery: geocoding, distance, normalisation, radius search

  A shallow embedding of the proximity pipeline of the clinic pages
  [pages/2_find_a_doctor.py], [pages/6_labs_nearby.py] and
  [pages/4_book_appointment.py], and of the parts of [pages/1_symptoms.py]
  that feed them, followed by the properties the specification states
  about it and by further properties of the pages.

  Conventions of the embedding.
  - Python [str] is [string]; comparison of strings is by character code.
  - A Python [float] that is carried around as data (coordinates, distances)
    is a [pyfloat]: a rational (the exact value of the double) or one of
    the three special values.  Distances that reach the ranking step are
    rationals.
  - The distance formula itself is evaluated on IEEE-754 binary64, the
    primitive [float] of the kernel, with the checks that CPython's
    [math] module and [float.__pow__] put around the C library; the C
    library's [sin], [cos], [asin] and [pow] are the fields of a record
    [libm].
  - A function that can raise returns an [outcome].
  - External collaborators (the postal-code table, the registry HTTP API,
    the places HTTP API) are [Variable]s of a [Section]: every statement
    holds for every behaviour of theirs.  So is, where the search and
    the list of laboratories call the distance formula, the value that
    it returns.
  - The memoisation decorators ([st.cache_data], [st.cache_resource]) do
    not change what a call returns and are left out. *)

From Stdlib Require Import ZArith QArith Qround Qabs List String Ascii Bool.
From Stdlib Require Import Arith Lia Permutation Lqa.
From Stdlib Require Floats.
From Stdlib Require Import DecimalString.
From Equations Require Import Equations.
Import ListNotations.

Set Implicit Arguments.

(* ===================================================================== *)
(** ** Python values shared by the pages *)
(* ===================================================================== *)

Module Py.

Local Open Scope string_scope.

(** The exceptions the pages tell apart.  [requests.HTTPError] is a
    subclass of [requests.RequestException]; [RequestException] below
    stands for the request failures that are not [HTTPError]
    (connection errors, time-outs), [PyException] for every other
    [Exception]. *)
Inductive exn : Type :=
| HTTPError (msg : string)
| RequestException (msg : string)
| PyException (msg : string).

Inductive outcome (A : Type) : Type :=
| Return (a : A)
| Raise (e : exn).
Arguments Return {A} a.
Arguments Raise {A} e.

Definition bind {A B} (m : outcome A) (k : A -> outcome B) : outcome B :=
  match m with
  | Return a => k a
  | Raise e => Raise e
  end.

(** [str.isspace] on one ASCII character: TAB..CR, FS..US and the blank. *)
Definition is_space (c : ascii) : bool :=
  let n := nat_of_ascii c in
  ((9 <=? n)%nat && (n <=? 13)%nat) || ((28 <=? n)%nat && (n <=? 32)%nat).

Fixpoint lstrip (s : string) : string :=
  match s with
  | EmptyString => EmptyString
  | String c s' => if is_space c then lstrip s' else s
  end.

Fixpoint rev_append (s acc : string) : string :=
  match s with
  | EmptyString => acc
  | String c s' => rev_append s' (String c acc)
  end.

Definition rev (s : string) : string := rev_append s EmptyString.

Definition rstrip (s : string) : string := rev (lstrip (rev s)).

(** [s.strip()] *)
Definition strip (s : string) : string := rstrip (lstrip s).

Definition lower_char (c : ascii) : ascii :=
  let n := nat_of_ascii c in
  if ((65 <=? n)%nat && (n <=? 90)%nat) then ascii_of_nat (n + 32) else c.

(** [s.lower()] on ASCII text *)
Fixpoint lower (s : string) : string :=
  match s with
  | EmptyString => EmptyString
  | String c s' => String (lower_char c) (lower s')
  end.

(** Truth value of a [str]: the empty string is false. *)
Definition truthy (s : string) : bool :=
  match s with
  | EmptyString => false
  | String _ _ => true
  end.

(** [a or b] on strings *)
Definition or_str (a b : string) : string := if truthy a then a else b.

(** [d.get(k, default)] where [None] says the key is absent *)
Definition get_default (v : option string) (default : string) : string :=
  match v with
  | Some s => s
  | None => default
  end.

(** Truth value of [d.get(k)]: absent or empty is false. *)
Definition truthy_opt (v : option string) : bool :=
  match v with
  | Some s => truthy s
  | None => false
  end.

(** [a or b] where both are [d.get(k)] results *)
Definition or_opt (a b : option string) : option string :=
  if truthy_opt a then a else b.

(** [x or []] where [x] is a [d.get(k)] that holds a list, and
    [d.get(k, [])] *)
Definition or_nil {A} (v : option (list A)) : list A :=
  match v with
  | Some l => l
  | None => []
  end.

(** [s[:n]] *)
Definition prefix (n : nat) (s : string) : string := substring 0 n s.

(** A Python [float] as data. *)
Inductive pyfloat : Type :=
| Finite (q : Q)
| PosInf
| NegInf
| NaN.

(** [math.isnan] *)
Definition isnan (x : pyfloat) : bool :=
  match x with
  | NaN => true
  | _ => false
  end.

(** Round half to even, to the nearest integer. *)
Definition round_half_even (q : Q) : Z :=
  let f := Qfloor q in
  match Qcompare (q - inject_Z f) (1 # 2) with
  | Lt => f
  | Gt => (f + 1)%Z
  | Eq => if Z.even f then f else (f + 1)%Z
  end.

(** [round(x, 1)] on a finite float: the multiple of one tenth nearest to
    the exact value of [x], ties to the even tenth.  (CPython then takes
    the double nearest to that decimal; the order against an integer
    radius is the order of the decimals.) *)
Definition round1 (x : Q) : Q :=
  Qred (inject_Z (round_half_even (x * 10)) / 10).

(** [<] on the tuples [(number, str)] the pages sort by: the first
    components decide unless they are equal. *)
Definition key_lt (a b : Q * string) : bool :=
  match Qcompare (fst a) (fst b) with
  | Lt => true
  | Gt => false
  | Eq => String.ltb (snd a) (snd b)
  end.

(** [l.sort(key=key)].  The sort of Python lists is stable, and a stable
    sort by a total preorder has one possible result, computed here by
    insertion: an element goes after those whose key is below its own and
    before the rest. *)
Fixpoint insert_by_key {A} (key : A -> Q * string) (x : A) (l : list A) : list A :=
  match l with
  | [] => [x]
  | y :: l' =>
      if key_lt (key y) (key x) then y :: insert_by_key key x l'
      else x :: l
  end.

Fixpoint sort_by_key {A} (key : A -> Q * string) (l : list A) : list A :=
  match l with
  | [] => []
  | x :: l' => insert_by_key key x (sort_by_key key l')
  end.

End Py.

(* ===================================================================== *)
(** ** Python floats and the [math] module *)
(* ===================================================================== *)

Module PyMath.

Import Py.
Import PrimFloat.
Local Open Scope float_scope.

(** A Python [float] is an IEEE-754 binary64 number: the primitive
    [float] of the kernel, whose [+], [-], [*], [/] and [sqrt] round to
    nearest, ties to even, as the hardware does. *)

Definition ValueError : exn := PyException "ValueError".

Definition OverflowError : exn := PyException "OverflowError".

(** The functions of the C library that the distance formula reaches.
    Their values are the platform's and are not fixed here. *)
Record libm : Type := mkLibm {
  c_sin : float -> float;
  c_cos : float -> float;
  c_asin : float -> float;
  c_pow : float -> float -> float
}.

(** [math.radians(x)]: [x * (pi / 180.0)], the constant being the double
    0x1.1df46a2529d39p-6. *)
Definition radians (x : float) : float := x * 0x1.1df46a2529d39p-6.

(** [math_1] of CPython's mathmodule.c, through which [math.sin],
    [math.cos], [math.asin] and [math.sqrt] call the C library: a NaN
    that does not come from a NaN, and an infinity that comes from a
    finite number, are a ValueError.  (The [errno] of a finite result
    matters only for an underflow, which the wrapper ignores.) *)
Definition math_1 (func : float -> float) (x : float) : outcome float :=
  let r := func x in
  if is_nan r && negb (is_nan x) then Raise ValueError
  else if is_infinity r && is_finite x then Raise ValueError
  else Return r.

Definition math_sin (M : libm) : float -> outcome float := math_1 (c_sin M).

Definition math_cos (M : libm) : float -> outcome float := math_1 (c_cos M).

Definition math_asin (M : libm) : float -> outcome float := math_1 (c_asin M).

(** The square root of the C library is the correctly rounded one. *)
Definition math_sqrt : float -> outcome float := math_1 sqrt.

(** [x ** 2] on a float: [float_pow] of CPython's floatobject.c with the
    exponent 2.0.  The special values are settled before the C library
    is asked, a negative base is replaced by its negation (the exponent
    is an even integer), and an infinite result of the library is an
    OverflowError. *)
Definition pow_2 (M : libm) (iv : float) : outcome float :=
  if is_nan iv then Return iv
  else if is_infinity iv then Return (abs iv)
  else if iv =? 0 then Return 0
  else
    let iv := if iv <? 0 then - iv else iv in
    if iv =? 1 then Return 1
    else
      let ix := c_pow M iv 2 in
      if is_infinity ix then Raise OverflowError else Return ix.

(** What Annex F of the C standard fixes of these functions at zero,
    that a cosine is at most one in magnitude, and that the sine is odd,
    as the C libraries in use compute it (they reduce the argument by
    its magnitude and restore the sign). *)
Record libm_laws (M : libm) : Prop := mkLibmLaws {
  sin_zero : c_sin M 0 = 0;
  sin_odd : forall x, c_sin M (- x) = - c_sin M x;
  cos_bounded : forall x, is_finite x = true -> (abs (c_cos M x) <=? 1) = true;
  asin_zero : c_asin M 0 = 0
}.

(** The double nearest to an integer: exact below 2^53 in magnitude
    and on the powers of two of the format. *)
Definition float_of_Z (z : Z) : float :=
  FloatOps.SF2Prim
    (SpecFloat.binary_normalize FloatOps.prec FloatOps.emax z 0 false).

(** The double that a [pyfloat] stands for.  A [Finite q] holds the
    value of a double; the correctly rounded quotient of its numerator
    and denominator is that double whenever the two are doubles. *)
Definition to_float (x : pyfloat) : float :=
  match x with
  | Finite q => float_of_Z (Qnum q) / float_of_Z (Zpos (Qden q))
  | PosInf => infinity
  | NegInf => neg_infinity
  | NaN => nan
  end.


(** A number that is neither a NaN nor an infinity, on the specification
    of the format. *)
Definition finite_or_zero (x : SpecFloat.spec_float) : Prop :=
  match x with
  | SpecFloat.S754_zero _ | SpecFloat.S754_finite _ _ _ => True
  | _ => False
  end.

End PyMath.

(* ===================================================================== *)
(** ** [pages/2_find_a_doctor.py] *)
(* ===================================================================== *)

Module FindADoctor.

Import Py.

(** *** The distance formula *)

Section Formula.

Import PyMath.
Import PrimFloat.

(** Lines 50-56: the operations in the order Python evaluates them, each
    call of [math] and each [** 2] able to raise.  [r] is the double
    nearest to 3958.8. *)
Definition miles (M : libm) (lat1 lon1 lat2 lon2 : float) : outcome float :=
  (let r := 0x1.eed999999999ap+11 in
   let phi1 := radians lat1 in
   let phi2 := radians lat2 in
   let dphi := radians (lat2 - lat1) in
   let dlmb := radians (lon2 - lon1) in
   bind (math_sin M (dphi / 2)) (fun s1 =>
   bind (pow_2 M s1) (fun p1 =>
   bind (math_cos M phi1) (fun c1 =>
   bind (math_cos M phi2) (fun c2 =>
   bind (math_sin M (dlmb / 2)) (fun s2 =>
   bind (pow_2 M s2) (fun p2 =>
   let a := p1 + c1 * c2 * p2 in
   bind (math_sqrt a) (fun q =>
   bind (math_asin M q) (fun t =>
   Return (2 * r * t))))))))))%float.

End Formula.

Local Open Scope string_scope.

(** *** Postal-code lookup *)

(** What [float(...)] is applied to (line 43): a float of the postal
    table, or a value [float] rejects. *)
Inductive coord_field : Type :=
| FloatField (x : pyfloat)
| BadField.

(** [rec.state_code]: a string, [None], or the NaN that the table holds in
    an empty cell. *)
Inductive state_field : Type :=
| StateStr (s : string)
| StateNone
| StateNaN.

(** The row [query_postal_code] returns. *)
Record PostalRow : Type := mkPostalRow {
  latitude : coord_field;
  longitude : coord_field;
  state_code : state_field
}.

(** [float(v)] *)
Definition to_float (v : coord_field) : outcome pyfloat :=
  match v with
  | FloatField x => Return x
  | BadField => Raise (PyException "TypeError")
  end.

(** [(rec.state_code or "").strip()]: NaN is a true value without a
    [strip] method. *)
Definition state_text (v : state_field) : outcome string :=
  match v with
  | StateStr s => Return (strip (or_str s ""))
  | StateNone => Return (strip "")
  | StateNaN => Raise (PyException "AttributeError")
  end.

(** [try: ... except Exception: return None] *)
Definition try_except_none {A} (body : outcome (option A)) : outcome (option A) :=
  match body with
  | Return r => Return r
  | Raise _ => Return None
  end.

(** *** Registry records (the JSON of the NPI API)

    A field of type [option] is [None] when the key is absent.  Leaves are
    JSON strings (booleans for [primary]), as the registry sends them. *)

Record Address : Type := mkAddress {
  address_purpose : option string;
  postal_code : option string;
  telephone_number : option string;
  address_1 : option string;
  address_2 : option string;
  city : option string;
  state : option string
}.

Record Taxonomy : Type := mkTaxonomy {
  primary : option bool;
  desc : option string;
  code : option string
}.

Record Basic : Type := mkBasic {
  first_name : option string;
  last_name : option string;
  organization_name : option string
}.

Record RawRecord : Type := mkRawRecord {
  basic : option Basic;
  addresses : option (list Address);
  taxonomies : option (list Taxonomy);
  number : option string
}.

(** The body the registry answers with; [results] is [data.get("results")]. *)
Record NpiResponse : Type := mkNpiResponse {
  results : option (list RawRecord)
}.

(** The empty dict [{}] as an address, a name block. *)
Definition empty_address : Address :=
  mkAddress None None None None None None None.

Definition empty_basic : Basic := mkBasic None None None.

(** *** Candidates and the search result *)

(** One row of [rows] (lines 178-187). *)
Record Candidate : Type := mkCandidate {
  name : string;
  npi : option string;
  taxonomy : string;
  phone : string;
  address : string;
  zip : string;
  distance_mi : option Q
}.

Inductive meta_value : Type :=
| MStr (s : string)
| MInt (n : nat).

(** The [meta] dict, as its items in insertion order. *)
Definition Meta : Type := list (string * meta_value).

(** [a.get("address_purpose","").lower() == "location"] *)
Definition is_location (a : Address) : bool :=
  String.eqb (lower (get_default (address_purpose a) "")) "location".

(** Lines 160-161.  An address that matched has a key, so it is a true
    value and [or] keeps it. *)
Definition pick_loc (addr_list : list Address) : Address :=
  match find is_location addr_list with
  | Some a => a
  | None =>
      match addr_list with
      | a :: _ => a
      | [] => empty_address
      end
  end.

(** Lines 168-169, then [phone or ""] of line 182. *)
Definition pick_phone (loc : Address) (addr_list : list Address) : string :=
  let other :=
    match find (fun a => truthy_opt (telephone_number a)) addr_list with
    | Some a => telephone_number a
    | None => None
    end in
  match or_opt (telephone_number loc) other with
  | Some s => or_str s ""
  | None => ""
  end.

(** Truth value of [t.get("primary")] *)
Definition is_primary (t : Taxonomy) : bool :=
  match primary t with
  | Some b => b
  | None => false
  end.

(** Lines 171-173. *)
Definition pick_taxonomy (taxes : option (list Taxonomy)) : option Taxonomy :=
  match find is_primary (or_nil taxes) with
  | Some t => Some t
  | None =>
      match or_nil taxes with
      | t :: _ => Some t
      | [] => None
      end
  end.

(** Line 181: [(primary_tax or {}).get("desc") or (...).get("code") or ""] *)
Definition taxonomy_text (primary_tax : option Taxonomy) : string :=
  let d := match primary_tax with Some t => desc t | None => None end in
  let c := match primary_tax with Some t => code t | None => None end in
  match or_opt d c with
  | Some s => or_str s ""
  | None => ""
  end.

(** Lines 175-176. *)
Definition display_name (basic : Basic) : string :=
  or_str
    (strip (get_default (first_name basic) "" ++ " "
            ++ get_default (last_name basic) ""))
    (get_default (organization_name basic) "(Provider)").

(** Lines 183-184. *)
Definition address_text (loc : Address) (zip5 : string) : string :=
  strip (get_default (address_1 loc) "" ++ " "
         ++ get_default (address_2 loc) "" ++ ", "
         ++ get_default (city loc) "" ++ ", "
         ++ get_default (state loc) "" ++ " " ++ zip5).

(** The tuple the sort of line 193 compares:
    [(distance_mi if distance_mi is not None else 1e9, name)]. *)
Definition sort_key (x : Candidate) : Q * string :=
  (match distance_mi x with
   | Some d => d
   | None => inject_Z 1000000000
   end, name x).

(** The test of line 192. *)
Definition within_radius (radius : Z) (p : Candidate) : bool :=
  match distance_mi p with
  | Some d => Qle_bool d (inject_Z radius)
  | None => false
  end.

(** Lines 192-194: what is returned once [all_hits] is known. *)
Definition finish (radius : Z) (state : string) (all_hits : list Candidate)
  : list Candidate * Meta :=
  let in_radius := filter (within_radius radius) all_hits in
  let in_radius := sort_by_key sort_key in_radius in
  (match in_radius with
   | [] => all_hits
   | _ :: _ => in_radius
   end,
   [("state", MStr state); ("total_raw", MInt (List.length all_hits))]).

(** *** The registry calls and the orchestrator

    A computation of the search threads the log of registry queries it
    has issued (the [enumeration_type] of each, oldest first). *)

Definition fetch (A : Type) : Type := list string -> outcome A * list string.

Definition ret {A} (a : A) : fetch A := fun log => (Return a, log).

Definition bindf {A B} (m : fetch A) (k : A -> fetch B) : fetch B :=
  fun log =>
    match m log with
    | (Return a, log') => k a log'
    | (Raise e, log') => (Raise e, log')
    end.

(** A call that issues no registry query. *)
Definition lift {A} (m : outcome A) : fetch A := fun log => (m, log).

Notation "x <- m ;; k" := (bindf m (fun x => k))
  (at level 61, m at next level, right associativity).

Section Search.

(** [geocoder().query_postal_code]: the postal table, which may fail. *)
Variable query_postal_code : string -> outcome PostalRow.

(** [requests.get(NPI_API, params); raise_for_status(); r.json()], as a
    function of the parameters that vary: taxonomy description, state,
    enumeration type, limit. *)
Variable npi_api : string -> string -> string -> Z -> outcome NpiResponse.

(** The floating-point evaluation of [miles] on two geocoded points: the
    value of the double that [miles] returns there. *)
Variable miles_fp : pyfloat -> pyfloat -> pyfloat -> pyfloat -> Q.

(** Lines 40-48.  The lookup of line 41 is outside the [try]. *)
Definition geocode_zip (z : string) : outcome (option (pyfloat * pyfloat * string)) :=
  bind (query_postal_code z) (fun rec =>
    try_except_none
      (bind (to_float (latitude rec)) (fun lat =>
       bind (to_float (longitude rec)) (fun lon =>
         if isnan lat || isnan lon then Return None
         else bind (state_text (state_code rec)) (fun st =>
                Return (Some (lat, lon, st))))))).

(** Lines 125-137; the query is logged when it is issued. *)
Definition npi_search_state (taxonomy_desc state enum_type : string) (limit : Z)
  : fetch NpiResponse :=
  fun log =>
    (npi_api taxonomy_desc state enum_type (Z.min (Z.max limit 1) 1200),
     (log ++ [enum_type])%list).

(** Lines 158-187: one raw record to one row. *)
Definition row_of (u_lat u_lon : pyfloat) (rec : RawRecord) : outcome Candidate :=
  let basic := match basic rec with Some b => b | None => empty_basic end in
  let addr_list := or_nil (addresses rec) in
  let loc := pick_loc addr_list in
  let zip5 := prefix 5 (or_str (get_default (postal_code loc) "") "") in
  bind (if truthy zip5 then geocode_zip zip5 else Return None) (fun latlon =>
    let dist :=
      match latlon with
      | Some (lat, lon, _) => Some (miles_fp u_lat u_lon lat lon)
      | None => None
      end in
    Return (mkCandidate
              (display_name basic)
              (number rec)
              (taxonomy_text (pick_taxonomy (taxonomies rec)))
              (pick_phone loc addr_list)
              (address_text loc zip5)
              zip5
              (option_map round1 dist))).

(** Lines 156-187: [rows], built record by record. *)
Fixpoint rows_of (u_lat u_lon : pyfloat) (results : list RawRecord)
  : outcome (list Candidate) :=
  match results with
  | [] => Return []
  | rec :: rest =>
      bind (row_of u_lat u_lon rec) (fun row =>
      bind (rows_of u_lat u_lon rest) (fun rows =>
        Return (row :: rows)))
  end.

(** Lines 150-190: the [for enum in ...] loop, with [all_hits] so far. *)
Fixpoint sources_loop (specialty_text state : string) (u_lat u_lon : pyfloat)
  (enums : list string) (all_hits : list Candidate) : fetch (list Candidate) :=
  match enums with
  | [] => ret all_hits
  | enum :: rest =>
      data <- npi_search_state specialty_text state enum 1200 ;;
      match or_nil (results data) with
      | [] => sources_loop specialty_text state u_lat u_lon rest all_hits
      | rec :: recs =>
          rows <- lift (rows_of u_lat u_lon (rec :: recs)) ;;
          let all_hits' := (all_hits ++ rows)%list in
          match all_hits' with
          | [] => sources_loop specialty_text state u_lat u_lon rest all_hits'
          | _ :: _ => ret all_hits'
          end
      end
  end.

(** Lines 139-194. *)
Definition search_radius_by_state_then_filter
  (user_zip : string) (radius : Z) (specialty_text : string)
  : fetch (list Candidate * Meta) :=
  geo <- lift (geocode_zip user_zip) ;;
  match geo with
  | None => ret ([], [("reason", MStr "Could not geolocate ZIP.")])
  | Some (u_lat, u_lon, state) =>
      if negb (truthy state)
      then ret ([], [("reason", MStr "Could not infer state from ZIP.")])
      else
        all_hits <- sources_loop specialty_text state u_lat u_lon
                      ["NPI-1"; "NPI-2"] [] ;;
        ret (finish radius state all_hits)
  end.

End Search.

(** *** Session state and the page script *)

(** The keys of [st.session_state] the three pages exchange; [None] is an
    absent key. *)
Record Session : Type := mkSession {
  providers : option (list Candidate);
  providers_meta : option Meta;
  search_zip : option string;
  search_radius : option Z;
  search_specialty : option string;
  provider_radio : option nat;
  selected_doctor : option Candidate;
  symptoms_input : option string;
  condition_summary : option string
}.

(** Lines 201-208. *)
Definition _store_results (found : list Candidate) (meta : Meta)
  (zip_code : string) (radius : Z) (specialty : string) (s : Session) : Session :=
  mkSession (Some found) (Some meta) (Some zip_code) (Some radius)
            (Some specialty) (Some 0%nat) None
            (symptoms_input s) (condition_summary s).

(** Lines 232-233: [pop("providers")], [pop("providers_meta")]. *)
Definition pop_providers (s : Session) : Session :=
  mkSession None None (search_zip s) (search_radius s) (search_specialty s)
            (provider_radio s) (selected_doctor s)
            (symptoms_input s) (condition_summary s).

Inductive ui : Type :=
| Warning (msg : string)
| ErrorBox (msg : string)
| InfoBox (msg : string).

(** How a run of the script past the search button ends. *)
Inductive page : Type :=
| Stopped (shown : ui) (s : Session)
| Continues (s : Session)
| Crashed (e : exn).

Section SearchButton.

Variable query_postal_code : string -> outcome PostalRow.
Variable npi_api : string -> string -> string -> Z -> outcome NpiResponse.
Variable miles_fp : pyfloat -> pyfloat -> pyfloat -> pyfloat -> Q.

(** Lines 211-235, the branch [if go:]. *)
Definition search_clicked (zip_code specialty_in : string) (radius_mi : Z)
  (s : Session) : page :=
  if negb (truthy zip_code)
  then Stopped (Warning "Please enter a valid 5-digit ZIP.") s
  else if negb (truthy (strip specialty_in))
  then Stopped (Warning "Please enter a specialty.") s
  else
    match fst (search_radius_by_state_then_filter query_postal_code npi_api
                 miles_fp zip_code radius_mi (strip specialty_in) []) with
    | Raise (HTTPError msg) =>
        Stopped (ErrorBox ("NPI Registry error: " ++ msg)) s
    | Raise (RequestException msg) =>
        Stopped (ErrorBox ("Network error querying NPI Registry: " ++ msg)) s
    | Raise (PyException msg) => Crashed (PyException msg)
    | Return ([], _) =>
        Stopped (InfoBox "No matches found. Try another specialty or a larger radius.")
                (pop_providers s)
    | Return (found, meta) =>
        Continues (_store_results found meta zip_code radius_mi
                     (strip specialty_in) s)
    end.

End SearchButton.

(** Lines 263-268: the radio index [idx]; [0] is the "please select" row. *)
Definition select_provider (idx : nat) (s : Session) : outcome Session :=
  match providers s with
  | None => Return s
  | Some found =>
      match idx with
      | O =>
          Return (mkSession (providers s) (providers_meta s) (search_zip s)
                    (search_radius s) (search_specialty s) (Some idx) None
                    (symptoms_input s) (condition_summary s))
      | S i =>
          match nth_error found i with
          | Some selected =>
              Return (mkSession (providers s) (providers_meta s) (search_zip s)
                        (search_radius s) (search_specialty s) (Some idx)
                        (Some selected)
                        (symptoms_input s) (condition_summary s))
          | None => Raise (PyException "IndexError")
          end
      end
  end.

End FindADoctor.

(* ===================================================================== *)
(** ** [pages/4_book_appointment.py] *)
(* ===================================================================== *)

Module BookAppointment.

Import Py.
Import FindADoctor.
Local Open Scope string_scope.

(** The locals of lines 57-63. *)
Record Header : Type := mkHeader {
  doc_name : string;
  doc_taxonomy : string;
  doc_phone : string;
  doc_address : string;
  doc_npi : option string;
  doc_zip : string;
  doc_distance : option Q
}.

Inductive view : Type :=
| NeedProvider
| NeedSymptoms
| Booking (selected : Candidate) (h : Header).

(** Lines 39-63.  A stored candidate has all seven keys, so it is a true
    value, every [get] finds its key, and there is no ["specialty"]. *)
Definition book_appointment (s : Session) : view :=
  match selected_doctor s with
  | None => NeedProvider
  | Some d =>
      if negb (truthy_opt (condition_summary s))
         || negb (truthy_opt (symptoms_input s))
      then NeedSymptoms
      else Booking d
             (mkHeader (name d)
                       (or_str (taxonomy d) "Provider")
                       (phone d)
                       (address d)
                       (npi d)
                       (zip d)
                       (distance_mi d))
  end.

End BookAppointment.

(* ===================================================================== *)
(** ** [pages/6_labs_nearby.py] *)
(* ===================================================================== *)

Module LabsNearby.

Import Py.

Section Formula.

Import PyMath.
Import PrimFloat.

(** Lines 57-63: the same text as [miles] of the doctor page. *)
Definition haversine_miles (M : libm) (lat1 lon1 lat2 lon2 : float)
  : outcome float :=
  (let r := 0x1.eed999999999ap+11 in
   let phi1 := radians lat1 in
   let phi2 := radians lat2 in
   let dphi := radians (lat2 - lat1) in
   let dlmb := radians (lon2 - lon1) in
   bind (math_sin M (dphi / 2)) (fun s1 =>
   bind (pow_2 M s1) (fun p1 =>
   bind (math_cos M phi1) (fun c1 =>
   bind (math_cos M phi2) (fun c2 =>
   bind (math_sin M (dlmb / 2)) (fun s2 =>
   bind (pow_2 M s2) (fun p2 =>
   let a := p1 + c1 * c2 * p2 in
   bind (math_sqrt a) (fun q =>
   bind (math_asin M q) (fun t =>
   Return (2 * r * t))))))))))%float.

End Formula.

Local Open Scope string_scope.

(** A place of the nearby search.  [lat] and [lng] are
    [(p.get("geometry") or {}).get("location") or {}] read at ["lat"] and
    ["lng"]; [open_now] is [(p.get("opening_hours") or {}).get("open_now")]. *)
Record RawPlace : Type := mkRawPlace {
  place_id : option string;
  place_name : option string;
  lat : option pyfloat;
  lng : option pyfloat;
  vicinity : option string;
  formatted_address : option string;
  opening_now : option bool
}.

(** The dict [normalize_google_place] returns. *)
Record Item : Type := mkItem {
  item_place_id : option string;
  name : string;
  address : string;
  distance_mi : option Q;
  open_now : option bool;
  maps_url : string
}.

(** One page of the nearby search: [resp.get("results", [])] and
    [resp.get("next_page_token")]. *)
Record PlacesResponse : Type := mkPlacesResponse {
  results : option (list RawPlace);
  next_page_token : option string
}.

(** What the function does to the outside, in order. *)
Inductive event : Type :=
| Sleep (seconds : nat)
| Get (pagetoken : option string).

Section Places.

(** [requests.get(PLACES_NEARBY_URL, params, timeout=30).json()] as a
    function of the number of requests already made by this call and of
    the parameters that vary. *)
Variable places_get :
  Z -> pyfloat -> pyfloat -> Z -> option string -> outcome PlacesResponse.

(** The floating-point evaluation of [haversine_miles]. *)
Variable haversine_fp : pyfloat -> pyfloat -> pyfloat -> pyfloat -> Q.

(** [urllib.parse.quote_plus] *)
Variable quote_plus : string -> string.

(** Lines 125-135, the [while] loop.  [pagetoken] is [params["pagetoken"]]
    (absent at first); [sent] says whether this turn sets it and sleeps. *)
Equations? pages_loop (lat0 lon0 : pyfloat) (radius_m max_pages : Z)
  (found : list RawPlace) (page : Z) (token pagetoken : option string)
  (trace : list event) : outcome (list RawPlace) * list event
  by wf (Z.to_nat (max_pages - page)) lt :=
pages_loop lat0 lon0 radius_m max_pages found page token pagetoken trace
  with Z_lt_dec page max_pages => {
  | right _ => (Return found, trace)
  | left _ =>
      let sent := truthy_opt token in
      let pagetoken' := if sent then token else pagetoken in
      let trace' :=
        (trace ++ (if sent then [Sleep 2] else []) ++ [Get pagetoken'])%list in
      match places_get page lat0 lon0 radius_m pagetoken' with
      | Raise e => (Raise e, trace')
      | Return resp =>
          let found' := (found ++ or_nil (results resp))%list in
          let token' := next_page_token resp in
          if truthy_opt token'
          then pages_loop lat0 lon0 radius_m max_pages found' (page + 1)%Z
                 token' pagetoken' trace'
          else (Return found', trace')
      end }.
Proof. lia. Qed.

(** Lines 110-135. *)
Definition places_nearby_labs (lat0 lon0 : pyfloat) (radius_m max_pages : Z)
  : outcome (list RawPlace) * list event :=
  pages_loop lat0 lon0 radius_m max_pages [] 0%Z None None [].

(** Lines 179-199. *)
Definition normalize_google_place (p : RawPlace) (lat0 lon0 : pyfloat) : Item :=
  let pid := place_id p in
  let name := or_str (get_default (place_name p) "") "(Lab)" in
  let dist :=
    match lat p, lng p with
    | Some plat, Some plon => Some (round1 (haversine_fp plat plon lat0 lon0))
    | _, _ => None
    end in
  let addr :=
    match or_opt (vicinity p) (formatted_address p) with
    | Some s => or_str s ""
    | None => ""
    end in
  let map_url :=
    if truthy_opt pid
    then "https://www.google.com/maps/place/?q=place_id:" ++ get_default pid ""
    else "https://www.google.com/maps/search/?api=1&query=" ++ quote_plus name in
  mkItem pid name addr dist (opening_now p) map_url.

(** The key of line 223, on items that have a distance. *)
Definition item_key (x : Item) : Q * string :=
  (match distance_mi x with
   | Some d => d
   | None => 0
   end, name x).

(** Lines 221-223. *)
Definition base_items (raw : list RawPlace) (user_lat user_lon : pyfloat)
  : list Item :=
  let items := map (fun el => normalize_google_place el user_lat user_lon) raw in
  let items :=
    filter (fun x => match distance_mi x with Some _ => true | None => false end)
           items in
  sort_by_key item_key items.

End Places.

End LabsNearby.

(* ===================================================================== *)
(** ** Vocabulary of the specification *)
(* ===================================================================== *)

Module Spec.

Import Py.
Import FindADoctor.

(** [x] may stand before [y] in the ordering of section 4.4, step 6
    (ascending distance, a missing distance last, the name as tie-break),
    read off the keys. *)
Definition precedes {A} (key : A -> Q * string) (x y : A) : bool :=
  negb (key_lt (key y) (key x)).

(** A list is in that order. *)
Fixpoint ranked {A} (key : A -> Q * string) (l : list A) : bool :=
  match l with
  | [] => true
  | x :: l' => forallb (precedes key x) l' && ranked key l'
  end.

(** Two elements tie: neither key is below the other. *)
Definition ties {A} (key : A -> Q * string) (x y : A) : bool :=
  precedes key x y && precedes key y x.

(** A meta tells the caller that the radius was relaxed when no search
    that kept to its radius returns the same meta. *)
Definition indicates_fallback (m : Meta) : Prop :=
  forall (radius : Z) (state : string) (all_hits : list Candidate),
    filter (within_radius radius) all_hits <> [] ->
    snd (finish radius state all_hits) <> m.

(** The pagination sub-protocol of section 4.4, as a description of a run
    by the pages it fetched. *)

(** The records of one page. *)
Definition page_items (p : LabsNearby.PlacesResponse) : list LabsNearby.RawPlace :=
  or_nil (LabsNearby.results p).

(** The token the last of [pages] returned; [param] when there is none. *)
Definition last_token (param : option string)
  (pages : list LabsNearby.PlacesResponse) : option string :=
  last (map LabsNearby.next_page_token pages) param.

(** What a run that fetched [pages] does to the outside: one request a
    page, carrying the token of the page before, and the fixed wait before
    every request but the first ([wait] says whether the first waits too). *)
Fixpoint protocol_events (wait : bool) (param : option string)
  (pages : list LabsNearby.PlacesResponse) : list LabsNearby.event :=
  match pages with
  | [] => []
  | p :: ps =>
      (if wait then [LabsNearby.Sleep 2] else [])
      ++ LabsNearby.Get param
      :: protocol_events true (LabsNearby.next_page_token p) ps
  end.

(** [pages] are the answers to consecutive requests, the first numbered
    [page] and carrying [param], and every page but the last returned a
    continuation token. *)
Fixpoint answered
  (places_get : Z -> pyfloat -> pyfloat -> Z -> option string
                -> outcome LabsNearby.PlacesResponse)
  (lat0 lon0 : pyfloat) (radius_m : Z) (page : Z) (param : option string)
  (pages : list LabsNearby.PlacesResponse) : Prop :=
  match pages with
  | [] => True
  | p :: ps =>
      places_get page lat0 lon0 radius_m param = Return p
      /\ (ps <> [] -> truthy_opt (LabsNearby.next_page_token p) = true)
      /\ answered places_get lat0 lon0 radius_m (page + 1)
           (LabsNearby.next_page_token p) ps
  end.

End Spec.

(* ===================================================================== *)
(** ** A small world to run the pages in *)
(* ===================================================================== *)

Module Demo.

Import Py.
Import FindADoctor.
Local Open Scope string_scope.
Local Open Scope Q_scope.

(** The postal table: the user's ZIP at latitude 26, provider ZIPs north
    of it on the same meridian, and the all-NaN row the table gives for
    every other code. *)
Definition postal_row (z : string) : PostalRow :=
  if String.eqb z "33351" then
    mkPostalRow (FloatField (Finite 26)) (FloatField (Finite (-80))) (StateStr "FL")
  else if String.eqb z "33012" then
    mkPostalRow (FloatField (Finite (26 + (4 # 23)))) (FloatField (Finite (-80))) (StateStr "FL")
  else if String.eqb z "33075" then
    mkPostalRow (FloatField (Finite (26 + (5 # 46)))) (FloatField (Finite (-80))) (StateStr "FL")
  else if String.eqb z "33250" then
    mkPostalRow (FloatField (Finite (26 + (626 # 1725)))) (FloatField (Finite (-80))) (StateStr "FL")
  else
    mkPostalRow (FloatField NaN) (FloatField NaN) StateNaN.

Definition postal (z : string) : outcome PostalRow := Return (postal_row z).

(** A postal table that cannot be read (its data file failed to load). *)
Definition postal_down (z : string) : outcome PostalRow :=
  Raise (PyException "URLError").

(** A stand-in for the floating-point distance: 69 miles for each degree
    of latitude.  The statements below that are not about this world hold
    for every distance function. *)
Definition miles69 (lat1 lon1 lat2 lon2 : pyfloat) : Q :=
  match lat1, lat2 with
  | Finite a, Finite b => Qabs (b - a) * 69
  | _, _ => 0
  end.

Definition person (first : string) (zip9 : string) (npi : string) : RawRecord :=
  mkRawRecord
    (Some (mkBasic (Some first) None None))
    (Some [mkAddress (Some "MAILING") (Some "100010000") (Some "") None None None None;
           mkAddress (Some "LOCATION") (Some zip9) (Some "954-555-0100")
                     (Some "1 Main St") None (Some "Sunrise") (Some "FL")])
    (Some [mkTaxonomy (Some false) (Some "Internal Medicine") (Some "207R00000X");
           mkTaxonomy (Some true) (Some "Cardiology") (Some "207RC0000X")])
    (Some npi).

Definition organization (org : string) (zip9 : string) : RawRecord :=
  mkRawRecord (Some (mkBasic None None (Some org)))
              (Some [mkAddress (Some "LOCATION") (Some zip9) None None None None None])
              None None.

(** B at 12.0 miles, A and D at 7.5 miles, C with a ZIP the table does
    not know. *)
Definition individuals : list RawRecord :=
  [person "B" "330121234" "1000000001";
   person "A" "330751234" "1000000002";
   person "C" "99999" "1000000003";
   person "D" "33075" "1000000004"].

Definition organizations : list RawRecord :=
  [organization "Heart Clinic" "33075"].

(** The registry: individuals under NPI-1, organizations under NPI-2. *)
Definition registry (taxonomy_desc state enum_type : string) (limit : Z)
  : outcome NpiResponse :=
  if String.eqb enum_type "NPI-1" then Return (mkNpiResponse (Some individuals))
  else Return (mkNpiResponse (Some organizations)).

(** A registry with no individual for the specialty. *)
Definition registry_orgs_only (taxonomy_desc state enum_type : string) (limit : Z)
  : outcome NpiResponse :=
  if String.eqb enum_type "NPI-1" then Return (mkNpiResponse (Some []))
  else Return (mkNpiResponse (Some organizations)).

(** A registry without a record of either kind: an empty list for the
    individuals, no ["results"] key for the organizations. *)
Definition registry_empty (taxonomy_desc state enum_type : string) (limit : Z)
  : outcome NpiResponse :=
  if String.eqb enum_type "NPI-1" then Return (mkNpiResponse (Some []))
  else Return (mkNpiResponse None).

(** A registry that answers with an HTTP error status. *)
Definition registry_503 (taxonomy_desc state enum_type : string) (limit : Z)
  : outcome NpiResponse :=
  Raise (HTTPError "503 Server Error").

Definition row (nm npi zip5 : string) (d : option Q) : Candidate :=
  mkCandidate nm (Some npi) "Cardiology" "954-555-0100"
              ("1 Main St , Sunrise, FL " ++ zip5) zip5 d.

Definition cand_B : Candidate := row "B" "1000000001" "33012" (Some 12).
Definition cand_A : Candidate := row "A" "1000000002" "33075" (Some (15 # 2)).
Definition cand_C : Candidate := row "C" "1000000003" "99999" None.
Definition cand_D : Candidate := row "D" "1000000004" "33075" (Some (15 # 2)).

Definition hits : list Candidate := [cand_B; cand_A; cand_C; cand_D].

(** E lives 25.04 miles away: [person "E" "332501234" "1000000005"]. *)
Definition cand_E : Candidate := row "E" "1000000005" "33250" (Some 25).

(** The candidates of the specification's sorting example. *)
Definition spec_B : Candidate := mkCandidate "B" None "" "" "" "" (Some 12).
Definition spec_A : Candidate := mkCandidate "A" None "" "" "" "" (Some (7 # 2)).
Definition spec_C : Candidate := mkCandidate "C" None "" "" "" "" None.
Definition spec_D : Candidate := mkCandidate "D" None "" "" "" "" (Some (7 # 2)).

(** A record whose name block has an organization name that is empty. *)
Definition nameless : RawRecord :=
  mkRawRecord (Some (mkBasic None None (Some ""))) None None (Some "1000000009").

Definition lab (nm : string) : LabsNearby.RawPlace :=
  LabsNearby.mkRawPlace (Some nm) (Some nm) (Some (Finite 26)) (Some (Finite (-80)))
                        None None None.

(** A places service that always has one more page. *)
Definition endless_places (page : Z) (lat0 lon0 : pyfloat) (radius_m : Z)
  (pagetoken : option string) : outcome LabsNearby.PlacesResponse :=
  Return (LabsNearby.mkPlacesResponse
            (Some [lab (match pagetoken with Some t => t | None => "first" end)])
            (Some (match pagetoken with Some t => t ++ "+" | None => "t" end))).

(** A places service with two pages. *)
Definition two_page_places (page : Z) (lat0 lon0 : pyfloat) (radius_m : Z)
  (pagetoken : option string) : outcome LabsNearby.PlacesResponse :=
  match pagetoken with
  | None => Return (LabsNearby.mkPlacesResponse (Some [lab "a"; lab "b"]) (Some "t"))
  | Some _ => Return (LabsNearby.mkPlacesResponse (Some [lab "c"]) None)
  end.

Definition empty_session : Session :=
  mkSession None None None None None None None (Some "chest pain") (Some "angina").

(** The session after a search that stored [hits]. *)
Definition session_with_results : Session :=
  _store_results hits [("state", MStr "FL"); ("total_raw", MInt 4)]
                 "33351" 5 "Cardiology" empty_session.

End Demo.

(* ===================================================================== *)
(** ** Regular expressions, as the pages use them *)
(* ===================================================================== *)

Module Re.

Import Py.

(** The patterns of the pages read on ASCII text: a character class is a
    test on one character. *)
Inductive re : Type :=
| Void
| Eps
| Cls (p : ascii -> bool)
| Seq (a b : re)
| Alt (a b : re)
| Star (a : re).

Fixpoint nullable (r : re) : bool :=
  match r with
  | Void => false
  | Eps => true
  | Cls _ => false
  | Seq a b => nullable a && nullable b
  | Alt a b => nullable a || nullable b
  | Star _ => true
  end.

(** What is left of [r] after reading [c]. *)
Fixpoint deriv (c : ascii) (r : re) : re :=
  match r with
  | Void => Void
  | Eps => Void
  | Cls p => if p c then Eps else Void
  | Seq a b =>
      if nullable a then Alt (Seq (deriv c a) b) (deriv c b)
      else Seq (deriv c a) b
  | Alt a b => Alt (deriv c a) (deriv c b)
  | Star a => Seq (deriv c a) (Star a)
  end.

(** Whether the whole of [s] matches [r]. *)
Fixpoint matches (r : re) (s : string) : bool :=
  match s with
  | EmptyString => nullable r
  | String c s' => matches (deriv c r) s'
  end.

(** [r?], [r+], [r{n}] and [r{n,}] *)
Definition opt (r : re) : re := Alt Eps r.

Definition plus (r : re) : re := Seq r (Star r).

Fixpoint times (n : nat) (r : re) : re :=
  match n with
  | O => Eps
  | S n' => Seq r (times n' r)
  end.

Definition at_least (n : nat) (r : re) : re := Seq (times n r) (Star r).

(** [\d] and [\s] on ASCII, a single character, a letter, a letter or
    digit. *)
Definition digit (c : ascii) : bool :=
  let n := nat_of_ascii c in ((48 <=? n)%nat && (n <=? 57)%nat).

Definition space (c : ascii) : bool := is_space c.

Definition chr (x : ascii) (c : ascii) : bool := Ascii.eqb x c.

Definition letter (c : ascii) : bool :=
  let n := nat_of_ascii c in
  ((65 <=? n)%nat && (n <=? 90)%nat) || ((97 <=? n)%nat && (n <=? 122)%nat).

(** [$] without MULTILINE: the end of the string, or the newline that
    ends it. *)
Definition dollar : re := opt (Cls (chr "010"%char)).

(** The words of a pattern, for the statements. *)
Inductive lang : re -> string -> Prop :=
| lang_eps : lang Eps EmptyString
| lang_cls (p : ascii -> bool) (c : ascii) :
    p c = true -> lang (Cls p) (String c EmptyString)
| lang_seq (a b : re) (s t : string) :
    lang a s -> lang b t -> lang (Seq a b) (s ++ t)
| lang_alt_l (a b : re) (s : string) : lang a s -> lang (Alt a b) s
| lang_alt_r (a b : re) (s : string) : lang b s -> lang (Alt a b) s
| lang_star_nil (a : re) : lang (Star a) EmptyString
| lang_star_cons (a : re) (s t : string) :
    lang a s -> lang (Star a) t -> lang (Star a) (s ++ t).

(** Every character of [s] passes the test [p]. *)
Fixpoint all_chars (p : ascii -> bool) (s : string) : bool :=
  match s with
  | EmptyString => true
  | String c s' => p c && all_chars p s'
  end.

(** Every character of [s] is ASCII. *)
Definition ascii_text (s : string) : bool :=
  all_chars (fun c => (nat_of_ascii c <? 128)%nat) s.

End Re.

(* ===================================================================== *)
(** ** [pages/2_find_a_doctor.py], the rest of the page *)
(* ===================================================================== *)

Module FindADoctorPage.

Import Py.
Import FindADoctor.
Local Open Scope string_scope.

(** The pattern of line 32: [^\s*(\d{5})(?:-\d{4})?\s*$], with [\s] and
    [\d] as they are on ASCII text.  On a Python [str] the two classes
    also hold the digits and spaces of other scripts, so what is stated
    of this pattern is stated of ASCII input ([Re.ascii_text]). *)
Definition zip_pattern : Re.re :=
  Re.Seq (Re.Star (Re.Cls Re.space))
 (Re.Seq (Re.times 5 (Re.Cls Re.digit))
 (Re.Seq (Re.opt (Re.Seq (Re.Cls (Re.chr "-"%char))
                         (Re.times 4 (Re.Cls Re.digit))))
 (Re.Seq (Re.Star (Re.Cls Re.space))
         Re.dollar))).

(** Lines 29-33.  [raw] is [None] for Python's [None].  Group 1 of a
    match is the five characters that follow the leading white space: the
    first [\s*] cannot stop before a white-space character, since a digit
    has to follow it. *)
Definition _normalize_zip (raw : option string) : option string :=
  match raw with
  | None => None
  | Some s =>
      if negb (truthy s) then None
      else if Re.matches zip_pattern s then Some (prefix 5 (lstrip s))
      else None
  end.

(** Line 96: [zip_code = _normalize_zip(zip_input) or ""]. *)
Definition zip_of_input (zip_input : string) : string :=
  match _normalize_zip (Some zip_input) with
  | Some z => or_str z ""
  | None => ""
  end.

(** What [qp.get(key)] gives: nothing, one string ([st.query_params]),
    or the list of the values ([st.experimental_get_query_params]). *)
Inductive qp_value : Type :=
| QAbsent
| QStr (s : string)
| QList (l : list string).

(** [(qp.get(key) or [""])[0]]: the first element of a list and the first
    character of a string. *)
Definition first_of (v : qp_value) : string :=
  match v with
  | QAbsent => ""
  | QStr EmptyString => ""
  | QStr (String c _) => String c EmptyString
  | QList [] => ""
  | QList (x :: _) => x
  end.

(** Lines 71 and 75-76, then [value=zip_code or ""] of line 92: what the
    ZIP box holds before the user edits it.  [session_zip] is
    [st.session_state] at ["zip_code"]. *)
Definition initial_zip_box (session_zip : option string) (qp_zip : qp_value)
  : string :=
  if truthy_opt session_zip then get_default session_zip ""
  else match _normalize_zip (Some (first_of qp_zip)) with
       | Some z => or_str z ""
       | None => ""
       end.

(** Lines 70 and 78-79: [primary_spec].  [session_spec] is
    [st.session_state] at ["primary_specialty"]. *)
Definition primary_spec_of (session_spec : option string) (qp_spec : qp_value)
  : string :=
  if truthy_opt session_spec then get_default session_spec ""
  else strip (first_of qp_spec).

(** Lines 100-103: the prefill of the specialty box.  [stored] is
    [st.session_state] at ["specialty_input"], [None] when absent; the
    result is what the key holds afterwards. *)
Definition prefill_specialty (primary_spec : string) (stored : option string)
  : string :=
  match stored with
  | None => or_str primary_spec ""
  | Some typed =>
      if truthy primary_spec && negb (truthy typed) then primary_spec
      else typed
  end.

Section Button.

Variable query_postal_code : string -> outcome PostalRow.
Variable npi_api : string -> string -> string -> Z -> outcome NpiResponse.
Variable miles_fp : pyfloat -> pyfloat -> pyfloat -> pyfloat -> Q.

(** Lines 96 and 211-235 together: the click on Search with what the
    ZIP box holds. *)
Definition search_button (zip_input specialty_in : string) (radius_mi : Z)
  (s : Session) : page :=
  search_clicked query_postal_code npi_api miles_fp
    (zip_of_input zip_input) specialty_in radius_mi s.

End Button.

End FindADoctorPage.

(* ===================================================================== *)
(** ** Text helpers *)
(* ===================================================================== *)

Module Text.

Import Py.
Local Open Scope string_scope.

(** [s.startswith(p)] *)
Fixpoint starts_with (p s : string) : bool :=
  match p, s with
  | EmptyString, _ => true
  | String _ _, EmptyString => false
  | String a p', String b s' => Ascii.eqb a b && starts_with p' s'
  end.

(** [needle in hay] *)
Fixpoint contains (needle hay : string) : bool :=
  starts_with needle hay
  || match hay with
     | EmptyString => false
     | String _ hay' => contains needle hay'
     end.

(** [sep.join(parts)] *)
Fixpoint join (sep : string) (parts : list string) : string :=
  match parts with
  | [] => ""
  | [x] => x
  | x :: rest => x ++ sep ++ join sep rest
  end.

(** [re.sub(r"[^\d+]", "", s)] on ASCII text: the digits and plus signs of
    [s], in order. *)
Fixpoint keep_dial_chars (s : string) : string :=
  match s with
  | EmptyString => EmptyString
  | String c s' =>
      if Re.digit c || Re.chr "+"%char c then String c (keep_dial_chars s')
      else keep_dial_chars s'
  end.

End Text.

(* ===================================================================== *)
(** ** [pages/6_labs_nearby.py], the rest of the page *)
(* ===================================================================== *)

Module LabsPage.

Import Py.
Import LabsNearby.
Local Open Scope string_scope.

(** Lines 83-91: like the geocoder of the doctor page, without the state. *)
Definition geocode_zip
  (query_postal_code : string -> outcome FindADoctor.PostalRow) (z5 : string)
  : outcome (option (pyfloat * pyfloat)) :=
  bind (query_postal_code z5) (fun rec =>
    FindADoctor.try_except_none
      (bind (FindADoctor.to_float (FindADoctor.latitude rec)) (fun lat =>
       bind (FindADoctor.to_float (FindADoctor.longitude rec)) (fun lon =>
         if isnan lat || isnan lon then Return None
         else Return (Some (lat, lon)))))).

(** One end of an opening period: [p.get("open")], [p.get("close")].
    [endpoint_more] says that the dict has keys besides ["time"]. *)
Record Endpoint : Type := mkEndpoint {
  time : option string;
  endpoint_more : bool
}.

Record Period : Type := mkPeriod {
  period_open : option Endpoint;
  period_close : option Endpoint
}.

(** An opening-hours dict.  [opening_more] says that the dict has keys
    besides the four read here. *)
#[warnings="-register-all"] Inductive Opening : Type :=
| mkOpening (weekday_text : option (list string))
            (periods : option (list Period))
            (current_opening_hours : option Opening)
            (opening_open_now : option bool)
            (opening_more : bool).

Definition weekday_text (o : Opening) : option (list string) :=
  match o with mkOpening t _ _ _ _ => t end.

Definition periods (o : Opening) : option (list Period) :=
  match o with mkOpening _ p _ _ _ => p end.

Definition current_opening_hours (o : Opening) : option Opening :=
  match o with mkOpening _ _ c _ _ => c end.

Definition opening_open_now (o : Opening) : option bool :=
  match o with mkOpening _ _ _ n _ => n end.

(** Truth value of a dict: it has a key. *)
Definition endpoint_truthy (e : Endpoint) : bool :=
  match time e with Some _ => true | None => endpoint_more e end.

Definition opening_truthy (o : Opening) : bool :=
  match o with
  | mkOpening None None None None false => false
  | _ => true
  end.

(** The test of line 171 on one period. *)
Definition full_day (p : Period) : bool :=
  let o := match period_open p with
           | Some e => if endpoint_truthy e then e else mkEndpoint None false
           | None => mkEndpoint None false
           end in
  let c := match period_close p with
           | Some e => if endpoint_truthy e then e else mkEndpoint None false
           | None => mkEndpoint None false
           end in
  match time o with
  | Some t =>
      String.eqb t "0000"
      && ((match time c with
           | Some tc => String.eqb tc "0000" || String.eqb tc "2400"
           | None => false
           end)
          || negb (endpoint_truthy c))
  | None => false
  end.

(** Lines 161-177 on a dict. *)
Fixpoint is_24_hours_dict (opening : Opening) : bool :=
  if negb (opening_truthy opening) then false
  else if existsb (fun t => Text.contains "open 24 hours" (lower t))
                  (or_nil (weekday_text opening)) then true
  else if existsb full_day (or_nil (periods opening)) then true
  else match current_opening_hours opening with
       | Some curr => opening_truthy curr && is_24_hours_dict curr
       | None => false
       end.

(** Lines 155-177. *)
Definition is_24_hours (opening : option Opening) : bool :=
  match opening with
  | None => false
  | Some o => is_24_hours_dict o
  end.

(** [place_details(place_id)]: the ["result"] of the details request, the
    empty dict when the key is absent. *)
Record Details : Type := mkDetails {
  d_formatted_address : option string;
  d_formatted_phone_number : option string;
  d_website : option string;
  d_url : option string;
  d_current_opening_hours : option Opening;
  d_opening_hours : option Opening
}.

Definition no_details : Details := mkDetails None None None None None None.

(** The dict [enrich] returns: the item's keys, some replaced, and the
    new ones. *)
Record Enriched : Type := mkEnriched {
  e_place_id : option string;
  e_name : string;
  e_address : string;
  e_distance_mi : option Q;
  e_open_now : option bool;
  e_maps_url : string;
  phone_display : string;
  phone_tel : string;
  website : string;
  e_weekday_text : list string;
  is_24h : bool
}.

(** [details_by_id], the latest entry of a key first. *)
Definition details_dict : Type := list (string * Details).

Fixpoint dict_get (k : string) (d : details_dict) : option Details :=
  match d with
  | [] => None
  | (k', v) :: d' => if String.eqb k k' then Some v else dict_get k d'
  end.

Definition dict_set (k : string) (v : Details) (d : details_dict) : details_dict :=
  (k, v) :: d.

(** [d.get(k) or other] on dicts *)
Definition or_opening (a b : option Opening) : option Opening :=
  match a with
  | Some o => if opening_truthy o then a else b
  | None => b
  end.

Section Details.

(** [requests.get(PLACE_DETAILS_URL, ...).json().get("result", {})] *)
Variable place_details : string -> outcome Details.

(** Lines 229-234: the loop that fills [details_by_id]. *)
Fixpoint fetch_details (picked : list Item) (details_by_id : details_dict)
  : details_dict :=
  match picked with
  | [] => details_by_id
  | x :: rest =>
      if truthy_opt (item_place_id x) then
        let pid := get_default (item_place_id x) "" in
        match place_details pid with
        | Return d => fetch_details rest (dict_set pid d details_by_id)
        | Raise _ => fetch_details rest (dict_set pid no_details details_by_id)
        end
      else fetch_details rest details_by_id
  end.

(** Lines 236-256. *)
Definition enrich (details_by_id : details_dict) (item : Item) : Enriched :=
  let d := match item_place_id item with
           | Some pid => match dict_get pid details_by_id with
                         | Some d => d
                         | None => no_details
                         end
           | None => no_details
           end in
  let addr := if truthy_opt (d_formatted_address d)
              then get_default (d_formatted_address d) ""
              else address item in
  let phone := if truthy_opt (d_formatted_phone_number d)
               then get_default (d_formatted_phone_number d) "" else "" in
  let website := if truthy_opt (d_website d)
                 then get_default (d_website d) "" else "" in
  let open_struct :=
    match or_opening (d_current_opening_hours d) (d_opening_hours d) with
    | Some o => if opening_truthy o then o
                else mkOpening None None None None false
    | None => mkOpening None None None None false
    end in
  let open_texts := or_nil (weekday_text open_struct) in
  let open_now := match opening_open_now open_struct with
                  | Some b => Some b
                  | None => open_now item
                  end in
  let twenty_four :=
    is_24_hours (Some (mkOpening (Some open_texts)
                                 (Some (or_nil (periods open_struct)))
                                 None None false)) in
  let maps_url := if truthy_opt (d_url d) then get_default (d_url d) ""
                  else maps_url item in
  mkEnriched (item_place_id item) (name item) addr (distance_mi item) open_now
             maps_url phone
             (if truthy phone then "tel:" ++ Text.keep_dial_chars phone else "")
             website open_texts twenty_four.

(** Line 226. *)
Definition detail_take (n_items how_many : nat) : nat :=
  Nat.min n_items (Nat.max (how_many * 2) (how_many + 10)).

(** Lines 226-258: from the sorted list to [enriched]. *)
Definition enriched_of (base : list Item) (how_many : nat) : list Enriched :=
  let picked := firstn (detail_take (List.length base) how_many) base in
  let details_by_id := fetch_details picked [] in
  map (enrich details_by_id) picked.

(** Line 264: the cards a tab shows. *)
Definition shown (items : list Enriched) (limit : nat) : list Enriched :=
  firstn limit items.

(** Lines 298-313: the three tabs. *)
Definition tab_all (enriched : list Enriched) (how_many : nat) : list Enriched :=
  shown enriched how_many.

Definition tab_open (enriched : list Enriched) (how_many : nat) : list Enriched :=
  shown (filter (fun p => match e_open_now p with
                          | Some true => true
                          | _ => false
                          end) enriched) how_many.

Definition tab_24 (enriched : list Enriched) (how_many : nat) : list Enriched :=
  shown (filter is_24h enriched) how_many.

End Details.

(** The key of line 223, read off an enriched item. *)
Definition enriched_key (x : Enriched) : Q * string :=
  (match e_distance_mi x with
   | Some d => d
   | None => 0
   end, e_name x).

End LabsPage.

(* ===================================================================== *)
(** ** Vocabulary for the labs page *)
(* ===================================================================== *)

Module LabsSpec.

Import Py.
Import LabsNearby.
Import LabsPage.
Local Open Scope string_scope.

(** The seconds a run waited, and the requests it made. *)
Fixpoint seconds_slept (trace : list event) : nat :=
  match trace with
  | [] => 0
  | Sleep n :: trace' => n + seconds_slept trace'
  | Get _ :: trace' => seconds_slept trace'
  end.

Fixpoint requests_made (trace : list event) : nat :=
  match trace with
  | [] => 0
  | Sleep _ :: trace' => requests_made trace'
  | Get _ :: trace' => S (requests_made trace')
  end.

(** An opening-hours dict and the dicts nested in it under
    ["current_opening_hours"], outermost first. *)
Fixpoint levels (o : Opening) : list Opening :=
  match o with
  | mkOpening _ _ c _ _ =>
      o :: match c with
           | Some c' => levels c'
           | None => []
           end
  end.

(** One dict says "open around the clock": a line of its weekday text
    does, or one of its periods. *)
Definition says_24 (o : Opening) : bool :=
  existsb (fun t => Text.contains "open 24 hours" (lower t))
          (or_nil (weekday_text o))
  || existsb full_day (or_nil (periods o)).

(** What [place_details] gives the page for an id: the result, or the
    empty dict of the [except] branch. *)
Definition details_or_empty (place_details : string -> outcome Details)
  (pid : string) : Details :=
  match place_details pid with
  | Return d => d
  | Raise _ => no_details
  end.

(** The item is one of [picked] whose details were requested as [pid]. *)
Definition requested (pid : string) (x : Item) : bool :=
  truthy_opt (item_place_id x)
  && String.eqb pid (get_default (item_place_id x) "").

End LabsSpec.

(* ===================================================================== *)
(** ** A small world for the labs page *)
(* ===================================================================== *)

Module DemoLabs.

Import Py.
Import LabsNearby.
Import LabsPage.
Local Open Scope string_scope.

Definition quest : Item :=
  mkItem (Some "p1") "Quest" "1 Main St" (Some (12 # 10)) (Some true)
         "https://www.google.com/maps/place/?q=place_id:p1".

Definition labcorp : Item :=
  mkItem (Some "p2") "LabCorp" "2 Oak Ave" (Some (25 # 10)) None
         "https://www.google.com/maps/place/?q=place_id:p2".

Definition always_open : Opening :=
  mkOpening (Some ["Monday: Open 24 hours"])
            (Some [mkPeriod (Some (mkEndpoint (Some "0000") true)) None])
            None (Some true) false.

(** A details service that knows one place and fails for the others. *)
Definition details_p1_only (pid : string) : outcome Details :=
  if String.eqb pid "p1"
  then Return (mkDetails (Some "1 Main Street, Sunrise, FL") (Some "(954) 555-0100")
                         None None (Some always_open) None)
  else Raise (RequestException "timeout").

End DemoLabs.

(* ===================================================================== *)
(** ** [pages/1_symptoms.py] *)
(* ===================================================================== *)

Module Symptoms.

Import Py.
Local Open Scope string_scope.

(** Lines 162-163, the pattern
    [^[A-Za-z0-9._%+-]+@[A-Za-z0-9.-]+\.[A-Za-z]{2,}$]. *)
Definition local_char (c : ascii) : bool :=
  Re.letter c || Re.digit c || Re.chr "."%char c || Re.chr "_"%char c
  || Re.chr "%"%char c || Re.chr "+"%char c || Re.chr "-"%char c.

Definition domain_char (c : ascii) : bool :=
  Re.letter c || Re.digit c || Re.chr "."%char c || Re.chr "-"%char c.

Definition email_pattern : Re.re :=
  Re.Seq (Re.plus (Re.Cls local_char))
    (Re.Seq (Re.Cls (Re.chr "@"%char))
       (Re.Seq (Re.plus (Re.Cls domain_char))
          (Re.Seq (Re.Cls (Re.chr "."%char))
             (Re.Seq (Re.at_least 2 (Re.Cls Re.letter)) Re.dollar)))).

Definition _valid_email (s : string) : bool :=
  truthy s && Re.matches email_pattern s.

(** Lines 166-175. *)
Definition CONDITION_TO_SPECIALTIES : list (list string * list string) :=
  [ (["heart"; "chest pain"; "arrhythmia"; "angina"],
     ["Cardiology"; "Emergency Medicine"; "Internal Medicine"]);
    (["shortness of breath"; "wheezing"; "pneumonia"; "bronchitis"],
     ["Pulmonary Disease"; "Internal Medicine"]);
    (["covid"; "influenza"; "flu"; "infection"; "malaria"],
     ["Infectious Disease"; "Internal Medicine"]);
    (["migraine"; "headache"; "seizure"; "numbness"],
     ["Neurology"; "Emergency Medicine"]);
    (["anxiety"; "depression"; "panic"], ["Psychiatry"; "Psychology"]);
    (["rash"; "acne"; "eczema"; "psoriasis"], ["Dermatology"]);
    (["stomach"; "abdominal pain"; "gastro"; "ulcer"; "diarrhea"],
     ["Gastroenterology"; "Internal Medicine"]);
    (["uti"; "urinary"; "kidney stone"], ["Urology"]) ].

(** [s in l] on a list of strings *)
Definition mem (s : string) (l : list string) : bool :=
  existsb (String.eqb s) l.

(** Line 181: [any(k in text for k in keywords)] *)
Definition any_keyword (text : string) (keywords : list string) : bool :=
  existsb (fun k => Text.contains k text) keywords.

(** Lines 180-182: the loop over the table.  The comprehension of line
    182 is evaluated against the list as it was before the [+=]. *)
Fixpoint groups_loop (text : string) (table : list (list string * list string))
  (suggestions : list string) : list string :=
  match table with
  | [] => suggestions
  | (keywords, specs) :: rest =>
      groups_loop text rest
        (if any_keyword text keywords
         then (suggestions
               ++ filter (fun s => negb (mem s suggestions)) specs)%list
         else suggestions)
  end.

(** Lines 183-185. *)
Fixpoint generalists_loop (gens : list string) (suggestions : list string)
  : list string :=
  match gens with
  | [] => suggestions
  | gen :: rest =>
      generalists_loop rest
        (if negb (mem gen suggestions) then (suggestions ++ [gen])%list
         else suggestions)
  end.

(** Lines 177-186.  [summary] is [None] for the JSON [null]. *)
Definition suggest_specialties (summary : option string) : list string :=
  let text := lower (match summary with
                     | Some s => or_str s ""
                     | None => ""
                     end) in
  let suggestions := groups_loop text CONDITION_TO_SPECIALTIES [] in
  generalists_loop ["Family Medicine"; "Internal Medicine"; "General Practice"]
                   suggestions.

(** [s.split(sep)] for a separator of one character *)
Fixpoint split_on (sep : ascii) (s : string) : list string :=
  match s with
  | EmptyString => [EmptyString]
  | String c s' =>
      if Ascii.eqb c sep then EmptyString :: split_on sep s'
      else match split_on sep s' with
           | w :: ws => String c w :: ws
           | [] => [String c EmptyString]
           end
  end.

(** Lines 251-252: [int(s) if s.isdigit() else None] on ASCII text, and
    [str] of such an integer. *)
Definition int_if_digits (s : string) : option N :=
  match NilZero.uint_of_string s with
  | Some u => Some (N.of_uint u)
  | None => None
  end.

Definition str_of_int (n : N) : string := NilZero.string_of_uint (N.to_uint n).

(** Truth value of an [int] or [None]. *)
Definition truthy_int (v : option N) : bool :=
  match v with
  | Some n => negb (N.eqb n 0)
  | None => false
  end.

(** Lines 269 and 328. *)
Definition symptoms_list_of (symptoms_text : string) : list string :=
  map strip (filter (fun s => truthy (strip s)) (split_on ","%char symptoms_text)).

(** Lines 328-342. *)
Definition constructed_symptoms (symptoms_text sex_input : string)
  (age_val dur_val : option N) : string :=
  let symptoms_list := symptoms_list_of (or_str symptoms_text "") in
  let age_part := match age_val with
                  | Some a => ["Age " ++ str_of_int a]
                  | None => []
                  end in
  let days_part := match dur_val with
                   | Some d => [str_of_int d ++ " days of symptoms"]
                   | None => []
                   end in
  let parts :=
    ((match symptoms_list with
      | [] => []
      | _ :: _ => [Text.join ", " symptoms_list]
      end)
     ++ age_part
     ++ (if truthy sex_input then [sex_input] else [])
     ++ days_part)%list in
  or_str (strip (Text.join ", " parts))
         "No free-text symptoms provided; AI summary only.".

(** One diagnosis of the model's answer; a field is [None] when its key
    is absent, and a string otherwise. *)
Record Diagnosis : Type := mkDiagnosis {
  diagnosis_name : option string;
  explanation : option string
}.

(** What lines 271-272 read off the answer: [summary_markdown] ([None]
    for [null], the empty string when absent) and [diagnoses]. *)
Record Analysis : Type := mkAnalysis {
  summary_markdown : option string;
  diagnoses : list Diagnosis
}.

(** The keys lines 345-349 write to the session. *)
Record Stored : Type := mkStored {
  symptoms_input : string;
  condition_summary : option string;
  stored_diagnoses : list Diagnosis;
  suggested_specialties : list string;
  primary_specialty : option string
}.

Inductive analyzed : Type :=
| NothingEntered
| ModelFailed (e : exn)
| Analyzed (stored : Stored).

Section Analyze.

(** Lines 204-230, the call of the model with its arguments. *)
Variable get_conditions_from_gpt :
  list string -> option N -> option string -> string -> outcome Analysis.

(** Lines 251-253 and 264-349: a click on Analyze, as far as the session
    is concerned.  The emergency banner of lines 275-306 and the database
    writes of lines 351-365 (whose errors are caught and shown) change none
    of the keys below and are left out. *)
Definition analyze (symptoms_text age_input sex_input days_input : string)
  : analyzed :=
  let age_val := int_if_digits age_input in
  let dur_val := int_if_digits days_input in
  let duration_input :=
    if truthy_int dur_val
    then match dur_val with
         | Some d => str_of_int d ++ " days"
         | None => ""
         end
    else "" in
  if negb (truthy symptoms_text || truthy_int age_val || truthy sex_input
           || truthy_int dur_val)
  then NothingEntered
  else
    match get_conditions_from_gpt (symptoms_list_of symptoms_text) age_val
            (if truthy sex_input then Some sex_input else None)
            duration_input with
    | Raise e => ModelFailed e
    | Return result =>
        let summary := summary_markdown result in
        let suggested := suggest_specialties summary in
        Analyzed (mkStored
                    (constructed_symptoms symptoms_text sex_input age_val dur_val)
                    summary
                    (firstn 5 (diagnoses result))
                    suggested
                    (hd_error suggested))
    end.

End Analyze.

End Symptoms.

(* ===================================================================== *)
(** ** A small world for the symptom page *)
(* ===================================================================== *)

Module DemoSymptoms.

Import Py.
Import Symptoms.
Local Open Scope string_scope.

(** A model that answers every question the same way. *)
Definition angina_model (symptoms : list string) (age : option N)
  (sex : option string) (duration : string) : outcome Analysis :=
  Return (mkAnalysis (Some "- **Angina**: Chest Pain on exertion.")
                     [mkDiagnosis (Some "Angina") (Some "chest pain on exertion")]).

End DemoSymptoms.

(* ===================================================================== *)
(** ** [pages/6_labs_nearby.py], before the search *)
(* ===================================================================== *)

Module LabsStart.

Import Py.
Local Open Scope string_scope.

(** Lines 51-55, the pattern of [_normalize_zip]. *)
Definition _zip5 (z : option string) : option string :=
  match z with
  | None => None
  | Some s =>
      if negb (truthy s) then None
      else if Re.matches FindADoctorPage.zip_pattern s
           then Some (prefix 5 (lstrip s))
           else None
  end.

(** How far the page gets before its controls. *)
Inductive start : Type :=
| NeedZip
| NotLocated
| NoApiKey
| Ready (zip5_user : string) (user_lat user_lon : pyfloat).

(** Lines 66-104.  [session_zip] is [st.session_state] at ["zip_code"].
    [secrets_get] is [st.secrets.get("GOOGLE_MAPS_API_KEY")], which raises
    when the application has no secrets file; [env_key] is the variable
    of the environment, read only when the secrets gave no key. *)
Definition labs_page
  (query_postal_code : string -> outcome FindADoctor.PostalRow)
  (secrets_get : outcome (option string))
  (session_zip env_key : option string) : outcome start :=
  match _zip5 session_zip with
  | None => Return NeedZip
  | Some zip5_user =>
      if negb (truthy zip5_user) then Return NeedZip
      else
        bind (LabsPage.geocode_zip query_postal_code zip5_user) (fun geo =>
          match geo with
          | None => Return NotLocated
          | Some (user_lat, user_lon) =>
              bind secrets_get (fun secret_key =>
                if truthy_opt (or_opt secret_key env_key)
                then Return (Ready zip5_user user_lat user_lon)
                else Return NoApiKey)
          end)
  end.

End LabsStart.

(* ===================================================================== *)
(** ** Two ZIP centroids with their measured distance *)
(* ===================================================================== *)

Module DemoDistance.

Import Py.
Import FindADoctor.
Local Open Scope string_scope.

(** A postal table with two centroids whose coordinates are binary
    floating-point numbers: (26.0, -80.0) and (26.3623046875, -80.0). *)
Definition postal_row (z : string) : PostalRow :=
  if String.eqb z "33351" then
    mkPostalRow (FloatField (Finite 26)) (FloatField (Finite (-80))) (StateStr "FL")
  else if String.eqb z "33250" then
    mkPostalRow (FloatField (Finite (26995 # 1024))) (FloatField (Finite (-80)))
                (StateStr "FL")
  else
    mkPostalRow (FloatField NaN) (FloatField NaN) StateNaN.

Definition postal (z : string) : outcome PostalRow := Return (postal_row z).


End DemoDistance.

(* ===================================================================== *)
(** ** A C library for the examples *)
(* ===================================================================== *)

Module DemoMath.

Import Py.
Import PyMath.
Import PrimFloat.
Local Open Scope float_scope.

(** A C library that is right where the standard fixes the result, at
    zero and at the infinities, and that is crude elsewhere: its sine and
    arcsine return the argument, its cosine returns one, its power
    multiplies.  It keeps the laws of [libm_laws]. *)
Definition crude_sin (x : float) : float := if is_infinity x then nan else x.

Definition crude_cos (x : float) : float := if is_infinity x then nan else 1.

Definition crude_asin (x : float) : float := if abs x <=? 1 then x else nan.

Definition crude_pow (x y : float) : float := x * x.

Definition crude : libm := mkLibm crude_sin crude_cos crude_asin crude_pow.






End DemoMath.

(* ===================================================================== *)
(** * Properties *)
(* ===================================================================== *)

Import Py.

(** ** The distance formula *)

(** ** Binary64 arithmetic *)

Section Binary64.

Import SpecFloat.
Import FloatOps.
Import FloatAxioms.

(** Rounding does not look at the sign. *)
Lemma binary_round_aux_opp (s : bool) (m e : Z) (l : location) :
  binary_round_aux prec emax (negb s) m e l
  = SFopp (binary_round_aux prec emax s m e l).
Proof.
  unfold binary_round_aux.
  destruct (shr_fexp prec emax m e l) as [mrs' e'].
  destruct (shr_fexp prec emax _ e' loc_Exact) as [mrs'' e''].
  destruct (shr_m mrs''); [reflexivity| |reflexivity].
  destruct (Z.leb e'' (Z.sub emax prec)); reflexivity.
Qed.

Lemma binary_round_opp (s : bool) (m : positive) (e : Z) :
  binary_round prec emax (negb s) m e = SFopp (binary_round prec emax s m e).
Proof.
  unfold binary_round.
  destruct (shl_align m e _) as [mz ez]. apply binary_round_aux_opp.
Qed.

Lemma SFopp_involutive (x : spec_float) : SFopp (SFopp x) = x.
Proof. destruct x; simpl; now rewrite ?negb_involutive. Qed.

Lemma binary_normalize_opp (m e : Z) :
  m <> 0%Z ->
  binary_normalize prec emax (- m) e false
  = SFopp (binary_normalize prec emax m e false).
Proof.
  destruct m as [|p|p]; intros H; [now contradiction H| |].
  - apply (binary_round_opp false).
  - cbn [Z.opp binary_normalize].
    change (binary_round prec emax true p e)
      with (binary_round prec emax (negb false) p e).
    now rewrite binary_round_opp, SFopp_involutive.
Qed.

Lemma SF64mul_opp_l (x y : spec_float) :
  SF64mul (SFopp x) y = SFopp (SF64mul x y).
Proof.
  destruct x as [sx|sx| |sx mx ex], y as [sy|sy| |sy my ey];
    cbn [SF64mul SFmul SFopp]; rewrite <- ?negb_xorb_l; try reflexivity.
  apply binary_round_aux_opp.
Qed.

Lemma SF64div_opp_l (x y : spec_float) :
  SF64div (SFopp x) y = SFopp (SF64div x y).
Proof.
  destruct x as [sx|sx| |sx mx ex], y as [sy|sy| |sy my ey];
    cbn [SF64div SFdiv SFopp]; rewrite <- ?negb_xorb_l; try reflexivity.
  destruct (SFdiv_core_binary prec emax (Zpos mx) ex (Zpos my) ey)
    as [[mz ez] lz].
  apply binary_round_aux_opp.
Qed.

Lemma SF64mul_comm (x y : spec_float) : SF64mul x y = SF64mul y x.
Proof.
  destruct x as [sx|sx| |sx mx ex], y as [sy|sy| |sy my ey];
    cbn [SF64mul SFmul]; try rewrite (xorb_comm sx sy); try reflexivity.
  now rewrite Pos.mul_comm, Z.add_comm.
Qed.

(** A difference is the negation of the swapped difference, unless both
    are the zero that a vanishing difference rounds to. *)
Lemma SF64sub_swap (x y : spec_float) :
  SF64sub x y = SFopp (SF64sub y x)
  \/ (SF64sub x y = S754_zero false /\ SF64sub y x = S754_zero false).
Proof.
  destruct x as [sx|sx| |sx mx ex], y as [sy|sy| |sy my ey];
    cbn [SF64sub SFsub SFopp];
    try (destruct sx, sy; cbn; now auto);
    try (destruct sx; cbn; now auto);
    try (destruct sy; cbn; now auto);
    try (rewrite ?negb_involutive; now auto).
  rewrite (Z.min_comm ey ex).
  set (a := cond_Zopp sx (Zpos (fst (shl_align mx ex (Z.min ex ey))))).
  set (b := cond_Zopp sy (Zpos (fst (shl_align my ey (Z.min ex ey))))).
  destruct (Z.eq_dec (a - b) 0) as [E|E].
  - right. replace (b - a)%Z with 0%Z by lia. rewrite E. now split.
  - left. replace (a - b)%Z with (- (b - a))%Z by lia.
    apply binary_normalize_opp. lia.
Qed.

Lemma SF64sub_diag (x : spec_float) :
  match x with
  | S754_zero _ | S754_finite _ _ _ => SF64sub x x = S754_zero false
  | _ => True
  end.
Proof.
  destruct x as [s|s| |s m e]; try exact I.
  - now destruct s.
  - cbn [SF64sub SFsub]. now rewrite Z.sub_diag.
Qed.

Lemma SFabs_opp (x : spec_float) : SFabs (SFopp x) = SFabs x.
Proof. now destruct x. Qed.

Lemma SFcompare_refl_finite (s : bool) (m : positive) (e : Z) :
  SFcompare (S754_finite s m e) (S754_finite s m e) = Some Eq.
Proof.
  cbn [SFcompare]. rewrite Z.compare_refl, Pos.compare_cont_refl.
  now destruct s.
Qed.

Lemma SFeqb_refl_opp (x : spec_float) : SFeqb (SFopp x) (SFopp x) = SFeqb x x.
Proof.
  destruct x as [s|s| |s m e]; try reflexivity.
  - now destruct s.
  - unfold SFeqb. cbn [SFopp]. now rewrite !SFcompare_refl_finite.
Qed.

End Binary64.

(** ** When a product is finite *)

Section FiniteProducts.

Import SpecFloat.
Import FloatOps.
Import FloatAxioms.
Import PyMath.
Local Open Scope Z_scope.

Lemma digits2_pos_size (p : positive) : digits2_pos p = Pos.size p.
Proof. induction p as [p IH|p IH|]; simpl; now rewrite ?IH. Qed.

Lemma digits2_log2 (p : positive) :
  Zpos (digits2_pos p) = Z.log2 (Zpos p) + 1.
Proof.
  rewrite digits2_pos_size.
  change (Zpos (Pos.size p)) with (Z.log2 (Zpos p~0)).
  change (Zpos p~0) with (2 * Zpos p).
  rewrite Z.log2_double by lia. lia.
Qed.

Lemma digits2_pos_mul (p q : positive) :
  Zpos (digits2_pos (p * q)) <= Zpos (digits2_pos p) + Zpos (digits2_pos q).
Proof.
  rewrite !digits2_log2, Pos2Z.inj_mul.
  pose proof (Z.log2_mul_above (Zpos p) (Zpos q)). lia.
Qed.

Lemma digits2_pos_succ (p : positive) :
  Zpos (digits2_pos (Pos.succ p)) <= Zpos (digits2_pos p) + 1.
Proof.
  induction p as [p IH|p IH|]; cbn [Pos.succ digits2_pos];
    rewrite ?Pos2Z.inj_succ; lia.
Qed.

Lemma shr_1_inv (mrs : shr_record) :
  0 <= shr_m mrs ->
  0 <= shr_m (shr_1 mrs)
  /\ Zdigits2 (shr_m (shr_1 mrs)) <= Z.max 0 (Zdigits2 (shr_m mrs) - 1).
Proof.
  destruct mrs as [m r s]. cbn [shr_m]. intros H.
  destruct m as [|[p|p|]|p]; cbn [shr_1 shr_m Zdigits2 digits2_pos];
    rewrite ?Pos2Z.inj_succ; lia.
Qed.

Lemma iter_shr_1_inv (p : positive) :
  forall mrs : shr_record,
    0 <= shr_m mrs ->
    0 <= shr_m (iter_pos shr_1 p mrs)
    /\ Zdigits2 (shr_m (iter_pos shr_1 p mrs))
       <= Z.max 0 (Zdigits2 (shr_m mrs) - Zpos p).
Proof.
  induction p as [p IH|p IH|]; intros mrs H; cbn [iter_pos].
  - destruct (@shr_1_inv mrs H) as [H1 D1].
    destruct (IH _ H1) as [H2 D2]. destruct (IH _ H2) as [H3 D3].
    split; [exact H3|]. rewrite Pos2Z.inj_xI. lia.
  - destruct (IH _ H) as [H2 D2]. destruct (IH _ H2) as [H3 D3].
    split; [exact H3|]. rewrite Pos2Z.inj_xO. lia.
  - apply shr_1_inv, H.
Qed.

Lemma Zdigits2_nonneg (m : Z) : 0 <= Zdigits2 m.
Proof. destruct m; simpl; lia. Qed.

(** The shift that brings a mantissa to its format: where the exponent
    ends, and how long the mantissa may still be. *)
Lemma shr_fexp_inv (m e : Z) (l : location) :
  0 <= m ->
  0 <= shr_m (fst (shr_fexp prec emax m e l))
  /\ snd (shr_fexp prec emax m e l)
     = Z.max e (fexp prec emax (Zdigits2 m + e))
  /\ Zdigits2 (shr_m (fst (shr_fexp prec emax m e l))) <= 53.
Proof.
  intros H. unfold shr_fexp, shr.
  assert (Hm : shr_m (shr_record_of_loc m l) = m)
    by (destruct l as [|[| |]]; reflexivity).
  pose proof (Zdigits2_nonneg m) as Hd.
  unfold fexp, SpecFloat.emin, prec, emax in *.
  destruct (Z.max (Zdigits2 m + e - 53) (3 - 1024 - 53) - e) as [|n|n] eqn:E;
    cbn [fst snd].
  - rewrite Hm. lia.
  - destruct (@iter_shr_1_inv n (shr_record_of_loc m l)) as [H1 D1];
      [rewrite Hm; exact H|].
    rewrite Hm in D1. lia.
  - rewrite Hm. lia.
Qed.

Lemma round_nearest_even_inv (m : Z) (l : location) :
  0 <= m ->
  0 <= round_nearest_even m l
  /\ Zdigits2 (round_nearest_even m l) <= Zdigits2 m + 1.
Proof.
  intros H.
  assert (S : 0 <= m + 1 /\ Zdigits2 (m + 1) <= Zdigits2 m + 1).
  { destruct m as [|p|p]; [simpl; lia| |lia].
    split; [lia|].
    replace (Zpos p + 1) with (Zpos (Pos.succ p)) by lia.
    apply digits2_pos_succ. }
  unfold round_nearest_even.
  destruct l as [|[| |]]; try destruct (Z.even m); lia.
Qed.

(** Rounding does not overflow when the exponent it starts from leaves
    room for one carry. *)
Lemma binary_round_aux_finite (s : bool) (m e : Z) (l : location) :
  0 <= m ->
  Z.max e (fexp prec emax (Zdigits2 m + e)) <= 970 ->
  finite_or_zero (binary_round_aux prec emax s m e l).
Proof.
  intros Hm He. unfold binary_round_aux.
  destruct (@shr_fexp_inv m e l Hm) as (H1 & E1 & D1).
  destruct (shr_fexp prec emax m e l) as [mrs' e']. cbn [fst snd] in *.
  destruct (@round_nearest_even_inv (shr_m mrs') (loc_of_shr_record mrs') H1)
    as (H2 & D2).
  destruct (@shr_fexp_inv (round_nearest_even (shr_m mrs') (loc_of_shr_record mrs'))
              e' loc_Exact H2) as (H3 & E3 & _).
  destruct (shr_fexp prec emax _ e' loc_Exact) as [mrs'' e''].
  cbn [fst snd] in *.
  assert (He'' : e'' <= 971).
  { rewrite E3. unfold fexp, SpecFloat.emin, prec, emax in *. lia. }
  destruct (shr_m mrs'') as [|p|p]; [exact I| |lia].
  assert (L : Z.leb e'' (Z.sub emax prec) = true)
    by (apply Z.leb_le; unfold emax, prec; lia).
  rewrite L. exact I.
Qed.

Lemma valid_finite_bounds (s : bool) (m : positive) (e : Z) :
  valid_binary (S754_finite s m e) = true ->
  Zpos (digits2_pos m) <= 53 /\ e <= 971.
Proof.
  cbn [SpecFloat.valid_binary]. unfold bounded, canonical_mantissa.
  intros H. apply andb_prop in H. destruct H as [H1 H2].
  apply Z.eqb_eq in H1. apply Z.leb_le in H2.
  unfold fexp, SpecFloat.emin, prec, emax in *. lia.
Qed.

(** A product of two finite numbers whose exponents leave room is
    finite. *)
Lemma SF64mul_finite (sx sy : bool) (mx my : positive) (ex ey : Z) :
  ex + ey <= 970 ->
  Zpos (digits2_pos mx) + Zpos (digits2_pos my) + ex + ey <= 1023 ->
  finite_or_zero (SF64mul (S754_finite sx mx ex) (S754_finite sy my ey)).
Proof.
  intros He Hd. cbn [SF64mul SFmul].
  apply binary_round_aux_finite; [lia|].
  pose proof (digits2_pos_mul mx my).
  cbn [Zdigits2]. unfold fexp, SpecFloat.emin, prec, emax. lia.
Qed.

End FiniteProducts.

(** ** Python floats *)

Section PythonFloats.

Import SpecFloat.
Import FloatOps.
Import FloatAxioms.
Import PrimFloat.
Import PyMath.
Local Open Scope float_scope.

(** The tests of the wrappers, read on the specification. *)
Lemma is_nan_spec (x : float) :
  is_nan x = match Prim2SF x with
             | S754_nan => true
             | _ => false
             end.
Proof.
  unfold is_nan. rewrite eqb_spec.
  destruct (Prim2SF x) as [s|s| |s m e]; try reflexivity.
  - now destruct s.
  - unfold SFeqb. now rewrite SFcompare_refl_finite.
Qed.

Lemma is_infinity_spec (x : float) :
  is_infinity x = match Prim2SF x with
                  | S754_infinity _ => true
                  | _ => false
                  end.
Proof.
  unfold is_infinity. rewrite eqb_spec, abs_spec.
  change (Prim2SF infinity) with (S754_infinity false).
  now destruct (Prim2SF x) as [s|s| |s m e].
Qed.

Lemma is_finite_spec (x : float) :
  is_finite x = match Prim2SF x with
                | S754_zero _ | S754_finite _ _ _ => true
                | _ => false
                end.
Proof.
  unfold is_finite. rewrite is_nan_spec, is_infinity_spec.
  now destruct (Prim2SF x).
Qed.

Lemma eqb_zero_spec (x : float) :
  (x =? 0) = match Prim2SF x with
             | S754_zero _ => true
             | _ => false
             end.
Proof.
  rewrite eqb_spec. change (Prim2SF 0) with (S754_zero false).
  destruct (Prim2SF x) as [s|s| |s m e]; try reflexivity; now destruct s.
Qed.

Lemma ltb_zero_spec (x : float) :
  (x <? 0) = match Prim2SF x with
             | S754_infinity s | S754_finite s _ _ => s
             | _ => false
             end.
Proof.
  rewrite ltb_spec. change (Prim2SF 0) with (S754_zero false).
  destruct (Prim2SF x) as [s|s| |s m e]; try reflexivity; now destruct s.
Qed.

(** Negation goes through the operations. *)
Lemma opp_involutive (x : float) : - - x = x.
Proof. apply Prim2SF_inj. now rewrite !opp_spec, SFopp_involutive. Qed.

Lemma mul_opp_l (x y : float) : (- x) * y = - (x * y).
Proof.
  apply Prim2SF_inj. rewrite mul_spec, !opp_spec, mul_spec.
  apply SF64mul_opp_l.
Qed.

Lemma div_opp_l (x y : float) : (- x) / y = - (x / y).
Proof.
  apply Prim2SF_inj. rewrite div_spec, !opp_spec, div_spec.
  apply SF64div_opp_l.
Qed.

Lemma mul_comm (x y : float) : x * y = y * x.
Proof. apply Prim2SF_inj. rewrite !mul_spec. apply SF64mul_comm. Qed.

Lemma sub_swap (x y : float) :
  x - y = - (y - x) \/ (x - y = 0 /\ y - x = 0).
Proof.
  destruct (SF64sub_swap (Prim2SF x) (Prim2SF y)) as [H|[H1 H2]].
  - left. apply Prim2SF_inj. now rewrite opp_spec, !sub_spec.
  - right. split; apply Prim2SF_inj; now rewrite sub_spec.
Qed.

Lemma sub_diag (x : float) : is_finite x = true -> x - x = 0.
Proof.
  rewrite is_finite_spec. intros H. apply Prim2SF_inj. rewrite sub_spec.
  pose proof (SF64sub_diag (Prim2SF x)) as D.
  destruct (Prim2SF x); try discriminate H; exact D.
Qed.

Lemma abs_opp (x : float) : abs (- x) = abs x.
Proof. apply Prim2SF_inj. now rewrite !abs_spec, opp_spec, SFabs_opp. Qed.

Lemma is_nan_opp (x : float) : is_nan (- x) = is_nan x.
Proof. rewrite !is_nan_spec, opp_spec. now destruct (Prim2SF x). Qed.

Lemma is_infinity_opp (x : float) : is_infinity (- x) = is_infinity x.
Proof. rewrite !is_infinity_spec, opp_spec. now destruct (Prim2SF x). Qed.

Lemma is_finite_opp (x : float) : is_finite (- x) = is_finite x.
Proof. unfold is_finite. now rewrite is_nan_opp, is_infinity_opp. Qed.

Lemma opp_nan (x : float) : is_nan x = true -> - x = x.
Proof.
  rewrite is_nan_spec. intros H. apply Prim2SF_inj. rewrite opp_spec.
  destruct (Prim2SF x); try discriminate H. reflexivity.
Qed.

(** The wrappers on a negated argument. *)
Lemma math_1_opp (func : float -> float) (x : float) :
  (forall y, func (- y) = - func y) ->
  math_1 func (- x)
  = match math_1 func x with
    | Return r => Return (- r)
    | Raise e => Raise e
    end.
Proof.
  intros Hodd. unfold math_1. cbv zeta.
  rewrite Hodd, !is_nan_opp, is_infinity_opp, is_finite_opp.
  destruct (is_nan (func x) && negb (is_nan x)); [reflexivity|].
  destruct (is_infinity (func x) && is_finite x); reflexivity.
Qed.

Lemma math_1_raises (func : float -> float) (x : float) (e : exn) :
  math_1 func x = Raise e -> e = ValueError.
Proof.
  unfold math_1. cbv zeta.
  destruct (is_nan (func x) && negb (is_nan x)); [congruence|].
  destruct (is_infinity (func x) && is_finite x); [congruence|discriminate].
Qed.

Lemma pow_2_opp (M : libm) (x : float) : pow_2 M (- x) = pow_2 M x.
Proof.
  unfold pow_2. rewrite is_nan_opp, is_infinity_opp, abs_opp.
  destruct (is_nan x) eqn:N; [now rewrite opp_nan|].
  destruct (is_infinity x) eqn:I; [reflexivity|].
  assert (Z : (- x =? 0) = (x =? 0)).
  { rewrite !eqb_zero_spec, opp_spec. now destruct (Prim2SF x). }
  rewrite Z. destruct (x =? 0) eqn:Z0; [reflexivity|].
  assert (V : (if - x <? 0 then - - x else - x)
              = (if x <? 0 then - x else x)).
  { rewrite !ltb_zero_spec, opp_spec, opp_involutive.
    rewrite is_nan_spec in N. rewrite is_infinity_spec in I.
    rewrite eqb_zero_spec in Z0.
    destruct (Prim2SF x) as [s|s| |s m e]; try discriminate.
    now destruct s. }
  cbv zeta. now rewrite V.
Qed.

(** The squared sine of half a difference does not see the order of the
    two coordinates. *)
Lemma half_sine_square_swap (M : libm) (x y : float) :
  libm_laws M ->
  bind (math_sin M (radians (x - y) / 2)) (pow_2 M)
  = bind (math_sin M (radians (y - x) / 2)) (pow_2 M).
Proof.
  intros L. destruct (sub_swap x y) as [H|[H1 H2]].
  - rewrite H. unfold radians. rewrite mul_opp_l, div_opp_l.
    unfold math_sin. rewrite (math_1_opp _ _ (sin_odd L)).
    destruct (math_1 (c_sin M) _) as [r|e]; [|reflexivity].
    cbn [bind]. apply pow_2_opp.
  - now rewrite H1, H2.
Qed.

Lemma bind_assoc {A B C} (m : outcome A) (f : A -> outcome B)
  (g : B -> outcome C) :
  bind (bind m f) g = bind m (fun a => bind (f a) g).
Proof. now destruct m. Qed.

End PythonFloats.

(** ** The great-circle distance *)

Section GreatCircle.

Import SpecFloat.
Import FloatOps.
Import FloatAxioms.
Import PrimFloat.
Import PyMath.
Local Open Scope float_scope.

Variable M : libm.
Hypothesis laws : libm_laws M.

(** The conversion to radians keeps a finite number finite. *)
Lemma radians_finite (x : float) :
  is_finite x = true -> is_finite (radians x) = true.
Proof.
  rewrite !is_finite_spec. unfold radians. rewrite mul_spec.
  change (Prim2SF 0x1.1df46a2529d39p-6)
    with (S754_finite false 5030569068109113 (-58)).
  pose proof (Prim2SF_valid x) as V.
  destruct (Prim2SF x) as [s|s| |s m e]; try discriminate; intros _.
  - reflexivity.
  - apply valid_finite_bounds in V. destruct V as [Vd Ve].
    assert (F : finite_or_zero
                  (SF64mul (S754_finite s m e)
                     (S754_finite false 5030569068109113 (-58)))).
    { apply SF64mul_finite; [lia|].
      change (digits2_pos 5030569068109113) with 53%positive. lia. }
    destruct (SF64mul (S754_finite s m e)
                (S754_finite false 5030569068109113 (-58)));
      try reflexivity; contradiction.
Qed.

(** A number of magnitude at most one. *)
Lemma small_spec (c : float) :
  (abs c <=? 1) = true ->
  match Prim2SF c with
  | S754_zero _ => True
  | S754_finite _ m e => (Zpos (digits2_pos m) <= 53 /\ e <= -52)%Z
  | _ => False
  end.
Proof.
  rewrite leb_spec, abs_spec.
  change (Prim2SF 1) with (S754_finite false 4503599627370496 (-52)).
  pose proof (Prim2SF_valid c) as V.
  destruct (Prim2SF c) as [s|s| |s m e]; try discriminate; intros H.
  - exact I.
  - apply valid_finite_bounds in V. split; [apply V|].
    unfold SFleb in H. cbn [SFabs SFcompare] in H.
    destruct (Z.compare_spec e (-52)); [lia|lia|discriminate H].
Qed.

Lemma small_is_finite (c : float) :
  (abs c <=? 1) = true -> is_nan c = false /\ is_infinity c = false.
Proof.
  intros H. apply small_spec in H. rewrite is_nan_spec, is_infinity_spec.
  destruct (Prim2SF c); try contradiction; split; reflexivity.
Qed.

(** Two such numbers multiplied and then multiplied by zero add nothing
    to zero. *)
Lemma small_product_vanishes (c1 c2 : float) :
  (abs c1 <=? 1) = true -> (abs c2 <=? 1) = true ->
  0 + c1 * c2 * 0 = 0.
Proof.
  intros H1 H2. apply small_spec in H1, H2.
  apply Prim2SF_inj. rewrite add_spec, !mul_spec.
  change (Prim2SF 0) with (S754_zero false).
  destruct (Prim2SF c1) as [s1|s1| |s1 m1 e1]; try contradiction;
    destruct (Prim2SF c2) as [s2|s2| |s2 m2 e2]; try contradiction;
    try (cbn; now destruct (xorb s1 s2)).
  destruct H1 as [D1 E1], H2 as [D2 E2].
  assert (F : finite_or_zero
                (SF64mul (S754_finite s1 m1 e1) (S754_finite s2 m2 e2)))
    by (apply SF64mul_finite; lia).
  destruct (SF64mul (S754_finite s1 m1 e1) (S754_finite s2 m2 e2))
    as [s|s| |s m e]; try contradiction; cbn; now destruct s.
Qed.

Lemma math_cos_finite (x : float) :
  is_finite x = true ->
  exists c, math_cos M x = Return c /\ (abs c <=? 1) = true.
Proof.
  intros H. pose proof (@cos_bounded M laws x H) as B.
  destruct (@small_is_finite _ B) as [N I].
  exists (c_cos M x). split; [|exact B].
  unfold math_cos, math_1. cbv zeta. now rewrite N, I.
Qed.

(** The distance of a point to itself. *)
Lemma miles_same_point (lat lon : float) :
  is_finite lat = true -> is_finite lon = true ->
  FindADoctor.miles M lat lon lat lon = Return 0.
Proof.
  intros Hlat Hlon. unfold FindADoctor.miles. cbv zeta.
  rewrite (@sub_diag lat Hlat), (@sub_diag lon Hlon).
  change (radians 0 / 2) with 0.
  assert (S : math_sin M 0 = Return 0).
  { unfold math_sin, math_1. cbv zeta. now rewrite (@sin_zero M laws). }
  rewrite S. cbn [bind]. change (pow_2 M 0) with (@Return float 0).
  cbn [bind].
  destruct (@math_cos_finite (radians lat) (@radians_finite lat Hlat))
    as (c & -> & B).
  cbn [bind]. rewrite (@small_product_vanishes c c B B).
  change (math_sqrt 0) with (@Return float 0). cbn [bind].
  assert (A : math_asin M 0 = Return 0).
  { unfold math_asin, math_1. cbv zeta. now rewrite (@asin_zero M laws). }
  rewrite A. reflexivity.
Qed.

(** The distance does not see the order of the two points. *)
Lemma miles_swap (lat1 lon1 lat2 lon2 : float) :
  FindADoctor.miles M lat1 lon1 lat2 lon2
  = FindADoctor.miles M lat2 lon2 lat1 lon1.
Proof.
  unfold FindADoctor.miles. cbv zeta.
  rewrite <- !(bind_assoc (math_sin M (radians (_ - _) / 2)) (pow_2 M)).
  rewrite (@half_sine_square_swap M lat2 lat1 laws).
  destruct (bind (math_sin M (radians (lat1 - lat2) / 2)) (pow_2 M))
    as [p1|e]; [|reflexivity].
  cbn [bind].
  destruct (math_cos M (radians lat1)) as [c1|e1] eqn:C1;
    destruct (math_cos M (radians lat2)) as [c2|e2] eqn:C2; cbn [bind];
    try reflexivity.
  - rewrite <- !(bind_assoc (math_sin M (radians (_ - _) / 2)) (pow_2 M)).
    rewrite (@half_sine_square_swap M lon2 lon1 laws).
    now rewrite (mul_comm c1 c2).
  - apply math_1_raises in C1, C2. congruence.
Qed.

End GreatCircle.

Section Distance.

Import Py.
Import SpecFloat.
Import FloatOps.
Import FloatAxioms.
Import PrimFloat.
Import PyMath.
Local Open Scope float_scope.

(** The C library of the examples keeps the laws. *)
Lemma crude_laws : libm_laws DemoMath.crude.
Proof.
  constructor.
  - reflexivity.
  - intros x. cbn [c_sin DemoMath.crude]. unfold DemoMath.crude_sin.
    rewrite is_infinity_opp.
    destruct (is_infinity x); reflexivity.
  - intros x H. cbn [c_cos DemoMath.crude]. unfold DemoMath.crude_cos.
    unfold is_finite in H.
    destruct (is_infinity x).
    + now rewrite orb_true_r in H.
    + reflexivity.
  - reflexivity.
Qed.

(** Both pages hold the same function. *)
Lemma haversine_miles_is_miles (M : libm) (lat1 lon1 lat2 lon2 : float) :
  LabsNearby.haversine_miles M lat1 lon1 lat2 lon2
  = FindADoctor.miles M lat1 lon1 lat2 lon2.
Proof. reflexivity. Qed.

(** Two latitudes whose difference is beyond the largest double: the
    difference is an infinity, [math.sin] is asked for it, the C library
    answers NaN, and the wrapper raises. *)
Lemma miles_overflow_raises (M : libm) (lat1 lon1 lat2 lon2 : float) :
  is_infinity (lat2 - lat1) = true ->
  is_nan (c_sin M (radians (lat2 - lat1) / 2)) = true ->
  FindADoctor.miles M lat1 lon1 lat2 lon2 = Raise ValueError.
Proof.
  intros I N. unfold FindADoctor.miles. cbv zeta.
  assert (X : is_nan (radians (lat2 - lat1) / 2) = false).
  { revert I. rewrite is_infinity_spec, is_nan_spec.
    unfold radians. rewrite div_spec, mul_spec.
    destruct (Prim2SF (lat2 - lat1)) as [s|s| |s m e]; try discriminate.
    intros _. now destruct s. }
  unfold math_sin at 1. unfold math_1. cbv zeta.
  now rewrite N, X.
Qed.


(** C8: on binary64, with a C library that keeps [libm_laws], the
    great-circle distance of both pages returns 0.0 from every finite
    point to itself, and the calls for (a, b) and for (b, a) end alike for
    all arguments: they return the same double or raise the same
    exception. *)
Theorem distance_zero_and_symmetric (M : libm) :
  libm_laws M ->
  (forall lat lon : float,
      is_finite lat = true -> is_finite lon = true ->
      FindADoctor.miles M lat lon lat lon = Return 0
      /\ LabsNearby.haversine_miles M lat lon lat lon = Return 0)
  /\ (forall lat1 lon1 lat2 lon2 : float,
         FindADoctor.miles M lat1 lon1 lat2 lon2
         = FindADoctor.miles M lat2 lon2 lat1 lon1
         /\ LabsNearby.haversine_miles M lat1 lon1 lat2 lon2
            = LabsNearby.haversine_miles M lat2 lon2 lat1 lon1).
Proof.
  intros laws. split.
  - intros lat lon Hlat Hlon.
    split; exact (@miles_same_point M laws lat lon Hlat Hlon).
  - intros lat1 lon1 lat2 lon2.
    split; exact (@miles_swap M laws lat1 lon1 lat2 lon2).
Qed.

Lemma distance_zero_and_symmetric_witness :
  FindADoctor.miles DemoMath.crude 26 (-80) 26 (-80) = Return 0
  /\ LabsNearby.haversine_miles DemoMath.crude 26 (-80) 26.3623046875 (-80)
     = LabsNearby.haversine_miles DemoMath.crude 26.3623046875 (-80) 26 (-80).
Proof.
  destruct (@distance_zero_and_symmetric DemoMath.crude crude_laws)
    as [Hzero Hswap].
  split.
  - apply (Hzero 26 (-80)); reflexivity.
  - apply (Hswap 26 (-80) 26.3623046875 (-80)).
Defined.

(** C8, the finite points where the distance has no value: with the
    latitudes 1e308 and -1e308 the difference overflows, and the call
    raises ValueError in either order. *)
Lemma distance_raises_on_finite_points :
  is_finite 0x1.1ccf385ebc8ap+1023 = true
  /\ is_finite (- 0x1.1ccf385ebc8ap+1023) = true
  /\ FindADoctor.miles DemoMath.crude
       0x1.1ccf385ebc8ap+1023 0 (- 0x1.1ccf385ebc8ap+1023) 0
     = Raise ValueError
  /\ FindADoctor.miles DemoMath.crude
       (- 0x1.1ccf385ebc8ap+1023) 0 0x1.1ccf385ebc8ap+1023 0
     = Raise ValueError
  /\ LabsNearby.haversine_miles DemoMath.crude
       0x1.1ccf385ebc8ap+1023 0 (- 0x1.1ccf385ebc8ap+1023) 0
     = Raise ValueError.
Proof. repeat split; reflexivity. Qed.

End Distance.

(** ** Sorting by key *)

Section SortByKey.

Variable A : Type.
Variable key : A -> Q * string.

Lemma insert_by_key_perm (x : A) (l : list A) :
  Permutation (insert_by_key key x l) (x :: l).
Proof.
  induction l as [|y l IH]; simpl.
  - apply Permutation_refl.
  - destruct (key_lt (key y) (key x)).
    + rewrite IH. apply perm_swap.
    + apply Permutation_refl.
Qed.

Lemma sort_by_key_perm (l : list A) : Permutation (sort_by_key key l) l.
Proof.
  induction l as [|x l IH]; simpl.
  - apply perm_nil.
  - rewrite insert_by_key_perm. now apply perm_skip.
Qed.

Lemma sort_by_key_in (x : A) (l : list A) :
  In x (sort_by_key key l) <-> In x l.
Proof.
  split; apply Permutation_in;
    [apply sort_by_key_perm | apply Permutation_sym, sort_by_key_perm].
Qed.

Lemma sort_by_key_nil (l : list A) : sort_by_key key l = [] -> l = [].
Proof.
  intros H. apply Permutation_nil.
  rewrite <- H. apply sort_by_key_perm.
Qed.

Lemma ascii_compare_refl (a : ascii) : Ascii.compare a a = Eq.
Proof. unfold Ascii.compare. apply N.compare_refl. Qed.

Lemma ascii_compare_lt_trans (a b c : ascii) :
  Ascii.compare a b = Lt -> Ascii.compare b c = Lt -> Ascii.compare a c = Lt.
Proof.
  unfold Ascii.compare. rewrite !N.compare_lt_iff. apply N.lt_trans.
Qed.

Lemma string_compare_lt_trans (a b c : string) :
  String.compare a b = Lt -> String.compare b c = Lt -> String.compare a c = Lt.
Proof.
  revert b c. induction a as [|x a IH]; intros [|y b] [|z c]; simpl;
    try discriminate; auto.
  destruct (Ascii.compare x y) eqn:E1; try discriminate;
    destruct (Ascii.compare y z) eqn:E2; try discriminate; intros H1 H2.
  - apply Ascii.compare_eq_iff in E1, E2. subst.
    rewrite ascii_compare_refl. eauto.
  - apply Ascii.compare_eq_iff in E1. subst. now rewrite E2.
  - apply Ascii.compare_eq_iff in E2. subst. now rewrite E1.
  - now rewrite (ascii_compare_lt_trans _ _ _ E1 E2).
Qed.

Lemma string_ltb_asym (a b : string) :
  String.ltb a b = true -> String.ltb b a = false.
Proof.
  unfold String.ltb. rewrite (String.compare_antisym b a).
  destruct (String.compare a b); simpl; congruence.
Qed.

Lemma string_ltb_cotrans (a b c : string) :
  String.ltb a c = true -> String.ltb a b = true \/ String.ltb b c = true.
Proof.
  unfold String.ltb. intros H.
  destruct (String.compare a c) eqn:Eac; try discriminate.
  destruct (String.compare a b) eqn:Eab; auto.
  - apply String.compare_eq_iff in Eab. subst. rewrite Eac. auto.
  - right. rewrite String.compare_antisym in Eab.
    destruct (String.compare b a) eqn:Eba; try discriminate.
    now rewrite (string_compare_lt_trans _ _ _ Eba Eac).
Qed.

(** The comparison of keys is a strict weak order. *)
Lemma key_lt_asym (a b : Q * string) : key_lt a b = true -> key_lt b a = false.
Proof.
  unfold key_lt.
  destruct (Qcompare_spec (fst a) (fst b)), (Qcompare_spec (fst b) (fst a));
    try discriminate; try reflexivity; try Lqa.lra.
  apply string_ltb_asym.
Qed.

Lemma key_lt_cotrans (a b c : Q * string) :
  key_lt a c = true -> key_lt a b = true \/ key_lt b c = true.
Proof.
  unfold key_lt.
  destruct (Qcompare_spec (fst a) (fst c)); try discriminate;
    destruct (Qcompare_spec (fst a) (fst b)), (Qcompare_spec (fst b) (fst c));
    auto; try Lqa.lra.
  apply string_ltb_cotrans.
Qed.

Lemma insert_by_key_in (x y : A) (l : list A) :
  In y (insert_by_key key x l) <-> y = x \/ In y l.
Proof.
  split.
  - intros H. apply (Permutation_in _ (insert_by_key_perm x l)) in H.
    destruct H; auto.
  - intros H. apply (Permutation_in _ (Permutation_sym (insert_by_key_perm x l))).
    destruct H; [left|right]; auto.
Qed.

Lemma ranked_insert (x : A) (l : list A) :
  Spec.ranked key l = true -> Spec.ranked key (insert_by_key key x l) = true.
Proof.
  induction l as [|y l IH]; simpl; [reflexivity|].
  intros H. apply andb_prop in H. destruct H as [Hy Hl].
  destruct (key_lt (key y) (key x)) eqn:E; simpl.
  - rewrite (IH Hl), andb_true_r.
    apply forallb_forall. intros z Hz. apply insert_by_key_in in Hz.
    destruct Hz as [->|Hz].
    + unfold Spec.precedes. now rewrite (key_lt_asym _ _ E).
    + now apply (proj1 (forallb_forall _ _) Hy).
  - rewrite Hy, Hl, !andb_true_r.
    unfold Spec.precedes at 1. rewrite E. simpl.
    apply forallb_forall. intros z Hz.
    pose proof (proj1 (forallb_forall _ _) Hy z Hz) as Hyz.
    unfold Spec.precedes in *.
    destruct (key_lt (key z) (key x)) eqn:Ezx; [|reflexivity].
    destruct (key_lt_cotrans _ (key y) _ Ezx) as [H|H].
    + rewrite H in Hyz. discriminate.
    + congruence.
Qed.

(** The sort puts its list in the order of its keys. *)
Lemma sort_by_key_ranked (l : list A) :
  Spec.ranked key (sort_by_key key l) = true.
Proof.
  induction l as [|x l IH]; simpl; [reflexivity|].
  now apply ranked_insert.
Qed.

(** The sort is stable: the elements that tie with a given one keep the
    order they came in. *)
Lemma insert_by_key_stable (k x : A) (l : list A) :
  filter (Spec.ties key k) (insert_by_key key x l)
  = filter (Spec.ties key k) (x :: l).
Proof.
  induction l as [|y l IH]; [reflexivity|].
  cbn [insert_by_key].
  destruct (key_lt (key y) (key x)) eqn:E; [|reflexivity].
  cbn [filter] in *. rewrite IH.
  destruct (Spec.ties key k x) eqn:Tx; [|reflexivity].
  assert (Ty : Spec.ties key k y = false).
  { unfold Spec.ties, Spec.precedes in *.
    apply andb_prop in Tx. destruct Tx as [T1 T2].
    apply negb_true_iff in T1, T2.
    destruct (key_lt_cotrans _ (key k) _ E) as [H|H].
    - rewrite H. reflexivity.
    - congruence. }
  now rewrite Ty.
Qed.

Lemma sort_by_key_stable (k : A) (l : list A) :
  filter (Spec.ties key k) (sort_by_key key l) = filter (Spec.ties key k) l.
Proof.
  induction l as [|x l IH]; [reflexivity|].
  cbn [sort_by_key]. rewrite insert_by_key_stable.
  cbn [filter]. now rewrite IH.
Qed.

End SortByKey.

(** ** Ranking *)

Section Ranking.

Import FindADoctor.

(** What [finish] returns, by cases on the candidates within the radius. *)
Lemma finish_fallback (radius : Z) (state : string) (all_hits : list Candidate) :
  filter (within_radius radius) all_hits = [] ->
  finish radius state all_hits
  = (all_hits, [("state", MStr state); ("total_raw", MInt (List.length all_hits))]%string).
Proof.
  intros H. unfold finish. rewrite H. reflexivity.
Qed.

Lemma finish_in_radius (radius : Z) (state : string) (all_hits : list Candidate) :
  filter (within_radius radius) all_hits <> [] ->
  finish radius state all_hits
  = (sort_by_key sort_key (filter (within_radius radius) all_hits),
     [("state", MStr state); ("total_raw", MInt (List.length all_hits))]%string).
Proof.
  intros H. unfold finish.
  destruct (sort_by_key sort_key (filter (within_radius radius) all_hits)) eqn:E.
  - apply sort_by_key_nil in E. contradiction.
  - reflexivity.
Qed.

Lemma finish_subset (radius : Z) (state : string) (all_hits : list Candidate)
  (c : Candidate) :
  In c (fst (finish radius state all_hits)) -> In c all_hits.
Proof.
  destruct (filter (within_radius radius) all_hits) eqn:E.
  - rewrite finish_fallback by assumption. trivial.
  - rewrite finish_in_radius by (rewrite E; discriminate).
    simpl. rewrite sort_by_key_in.
    intros H. apply filter_In in H. tauto.
Qed.


End Ranking.

(** ** Normalisation of registry records *)

Section Normalisation.

Import FindADoctor.

Variable query_postal_code : string -> outcome PostalRow.
Variable miles_fp : pyfloat -> pyfloat -> pyfloat -> pyfloat -> Q.


End Normalisation.


Section MeasuredDistance.

Import PrimFloat.


End MeasuredDistance.

(** ** Display names *)

Section DisplayName.

Import FindADoctor.
Local Open Scope string_scope.

(** The person's name when it is not blank, else whatever is stored under
    [organization_name], else the placeholder when that key is absent. *)
Lemma display_name_cases (b : Basic) :
  let person := strip (get_default (first_name b) "" ++ " "
                       ++ get_default (last_name b) "") in
  display_name b
  = if truthy person then person
    else match organization_name b with
         | Some org => org
         | None => "(Provider)"
         end.
Proof.
  unfold display_name, or_str, get_default. simpl.
  destruct (truthy _); [reflexivity|].
  destruct (organization_name b); reflexivity.
Qed.

Lemma truthy_false_iff (s : string) : truthy s = false <-> s = "".
Proof. destruct s; simpl; split; congruence. Qed.

(** The only way to an empty display name: a blank person name and an
    [organization_name] key that holds the empty string. *)
Lemma display_name_empty_iff (b : Basic) :
  display_name b = ""
  <-> strip (get_default (first_name b) "" ++ " "
             ++ get_default (last_name b) "") = ""
      /\ organization_name b = Some "".
Proof.
  rewrite display_name_cases. simpl.
  destruct (truthy _) eqn:T.
  - split.
    + intros H. rewrite H in T. discriminate.
    + intros [H _]. rewrite H in T. discriminate.
  - apply truthy_false_iff in T.
    destruct (organization_name b) as [org|]; split.
    + intros ->. auto.
    + intros [_ H]. now injection H.
    + discriminate.
    + intros [_ H]. discriminate.
Qed.

(** On the labs page the same fallback is written with [or] and cannot
    give an empty name. *)
Lemma lab_name_nonempty
  (haversine_fp : pyfloat -> pyfloat -> pyfloat -> pyfloat -> Q)
  (quote_plus : string -> string) (p : LabsNearby.RawPlace) (lat0 lon0 : pyfloat) :
  LabsNearby.name (LabsNearby.normalize_google_place haversine_fp quote_plus p lat0 lon0)
  <> "".
Proof.
  unfold LabsNearby.normalize_google_place. simpl.
  unfold or_str. destruct (truthy _) eqn:T.
  - intros H. rewrite H in T. discriminate.
  - discriminate.
Qed.

Lemma lab_name_cases
  (haversine_fp : pyfloat -> pyfloat -> pyfloat -> pyfloat -> Q)
  (quote_plus : string -> string) (p : LabsNearby.RawPlace) (lat0 lon0 : pyfloat) :
  LabsNearby.name (LabsNearby.normalize_google_place haversine_fp quote_plus p lat0 lon0)
  = match LabsNearby.place_name p with
    | Some (String c s) => String c s
    | _ => "(Lab)"
    end.
Proof.
  unfold LabsNearby.normalize_google_place. simpl.
  destruct (LabsNearby.place_name p) as [[|c s]|]; reflexivity.
Qed.

End DisplayName.

(** C4, at an input where it fails: a registry record whose name block
    holds an [organization_name] key with the empty string and no person
    name is given the empty display name, not the placeholder. *)
Theorem display_name_empty_for_empty_organization_name
  (query_postal_code : string -> outcome FindADoctor.PostalRow)
  (miles_fp : pyfloat -> pyfloat -> pyfloat -> pyfloat -> Q)
  (u_lat u_lon : pyfloat) :
  FindADoctor.display_name (FindADoctor.mkBasic None None (Some ""%string))
  = ""%string
  /\ FindADoctor.row_of query_postal_code miles_fp u_lat u_lon Demo.nameless
     = Return (FindADoctor.mkCandidate "" (Some "1000000009"%string)
                 "" "" ", ," "" None).
Proof. split; reflexivity. Qed.

(** ** Geocoding *)

Section Geocoding.

Import FindADoctor.
Local Open Scope string_scope.

Variable query_postal_code : string -> outcome PostalRow.
Variable npi_api : string -> string -> string -> Z -> outcome NpiResponse.
Variable miles_fp : pyfloat -> pyfloat -> pyfloat -> pyfloat -> Q.

Lemma try_except_none_returns {A} (body : outcome (option A)) :
  exists r, try_except_none body = Return r.
Proof. destruct body; simpl; eauto. Qed.

(** [geocode_zip] raises exactly when the table lookup itself raises. *)
Lemma geocode_zip_raise_iff (z : string) (e : exn) :
  geocode_zip query_postal_code z = Raise e <-> query_postal_code z = Raise e.
Proof.
  unfold geocode_zip.
  destruct (query_postal_code z) as [rec|e']; simpl.
  - destruct (try_except_none_returns
                (bind (to_float (latitude rec)) (fun lat =>
                 bind (to_float (longitude rec)) (fun lon =>
                   if isnan lat || isnan lon then Return None
                   else bind (state_text (state_code rec)) (fun st =>
                          Return (Some (lat, lon, st))))))) as [r ->].
    split; discriminate.
  - split; intros H; injection H as ->; reflexivity.
Qed.

(** A row with a NaN coordinate is a miss. *)
Lemma geocode_zip_nan (z : string) (rec : PostalRow) :
  query_postal_code z = Return rec ->
  latitude rec = FloatField NaN \/ longitude rec = FloatField NaN ->
  geocode_zip query_postal_code z = Return None.
Proof.
  intros Hq H. unfold geocode_zip. rewrite Hq. simpl.
  destruct H as [H|H]; rewrite H; simpl.
  - destruct (longitude rec); reflexivity.
  - destruct (latitude rec) as [lat|]; simpl; [|reflexivity].
    now rewrite orb_true_r.
Qed.

(** A row whose fields cannot be read is a miss: the [try] absorbs it. *)
Lemma geocode_zip_unreadable (z : string) (rec : PostalRow) :
  query_postal_code z = Return rec ->
  latitude rec = BadField \/ longitude rec = BadField
  \/ state_code rec = StateNaN ->
  geocode_zip query_postal_code z = Return None.
Proof.
  intros Hq H. unfold geocode_zip. rewrite Hq. simpl.
  destruct H as [H|[H|H]]; rewrite H; simpl.
  - reflexivity.
  - destruct (latitude rec); reflexivity.
  - destruct (latitude rec) as [lat|]; simpl; [|reflexivity].
    destruct (longitude rec) as [lon|]; simpl; [|reflexivity].
    destruct (isnan lat || isnan lon); reflexivity.
Qed.

(** The hits: both coordinates are floats other than NaN and the state
    code is a string or [None]. *)
Lemma geocode_zip_some_iff (z : string) (lat lon : pyfloat) (st : string) :
  geocode_zip query_postal_code z = Return (Some (lat, lon, st))
  <-> exists rec,
        query_postal_code z = Return rec
        /\ latitude rec = FloatField lat /\ longitude rec = FloatField lon
        /\ isnan lat = false /\ isnan lon = false
        /\ state_text (state_code rec) = Return st.
Proof.
  unfold geocode_zip. split.
  - destruct (query_postal_code z) as [rec|e]; simpl; [|discriminate].
    intros H. exists rec.
    destruct (latitude rec) as [lat'|]; simpl in H; [|discriminate].
    destruct (longitude rec) as [lon'|]; simpl in H; [|discriminate].
    destruct (isnan lat' || isnan lon') eqn:N; [discriminate|].
    apply orb_false_elim in N. destruct N as [N1 N2].
    destruct (state_text (state_code rec)) as [st'|e]; simpl in H; [|discriminate].
    injection H as <- <- <-. repeat split; auto.
  - intros (rec & -> & Hlat & Hlon & N1 & N2 & Hst). simpl.
    rewrite Hlat, Hlon. simpl. rewrite N1, N2. simpl.
    rewrite Hst. reflexivity.
Qed.

(** Only NaN is rejected: an infinite coordinate is returned as a hit. *)
Lemma geocode_zip_infinite (z : string) (lon : pyfloat) (st : string) :
  query_postal_code z
  = Return (mkPostalRow (FloatField PosInf) (FloatField lon) (StateStr st)) ->
  isnan lon = false ->
  geocode_zip query_postal_code z
  = Return (Some (PosInf, lon, strip (or_str st ""))).
Proof.
  intros Hq N. unfold geocode_zip. rewrite Hq. simpl. rewrite N. reflexivity.
Qed.

(** An origin that is a miss gives the empty list and a reason, and no
    registry query is issued. *)
Lemma search_not_geolocated (user_zip : string) (radius : Z)
  (specialty_text : string) (log : list string) :
  geocode_zip query_postal_code user_zip = Return None ->
  search_radius_by_state_then_filter query_postal_code npi_api miles_fp
    user_zip radius specialty_text log
  = (Return ([], [("reason", MStr "Could not geolocate ZIP.")]), log).
Proof.
  intros H. unfold search_radius_by_state_then_filter, bindf, lift.
  rewrite H. reflexivity.
Qed.

Lemma search_no_state (user_zip : string) (radius : Z)
  (specialty_text : string) (log : list string) (u_lat u_lon : pyfloat) :
  geocode_zip query_postal_code user_zip = Return (Some (u_lat, u_lon, "")) ->
  search_radius_by_state_then_filter query_postal_code npi_api miles_fp
    user_zip radius specialty_text log
  = (Return ([], [("reason", MStr "Could not infer state from ZIP.")]), log).
Proof.
  intros H. unfold search_radius_by_state_then_filter, bindf, lift.
  rewrite H. reflexivity.
Qed.

(** A lookup that raises makes the whole search raise. *)
Lemma search_lookup_raises (user_zip : string) (radius : Z)
  (specialty_text : string) (log : list string) (e : exn) :
  query_postal_code user_zip = Raise e ->
  search_radius_by_state_then_filter query_postal_code npi_api miles_fp
    user_zip radius specialty_text log
  = (Raise e, log).
Proof.
  intros H. apply geocode_zip_raise_iff in H.
  unfold search_radius_by_state_then_filter, bindf, lift.
  rewrite H. reflexivity.
Qed.

End Geocoding.

(** C5, at an input where it fails: when the postal table cannot be read
    the lookup raises before the [try] is entered, so [geocode_zip] raises
    instead of answering not-found, the search raises instead of returning
    the empty list with a reason, and the page's handler, which catches
    request errors only, does not catch it. *)
Theorem geocode_lookup_error_escapes
  (npi_api : string -> string -> string -> Z -> outcome FindADoctor.NpiResponse)
  (miles_fp : pyfloat -> pyfloat -> pyfloat -> pyfloat -> Q)
  (z : string) (radius : Z) (specialty_text : string) (log : list string)
  (s : FindADoctor.Session) :
  FindADoctor.geocode_zip Demo.postal_down z = Raise (PyException "URLError")
  /\ FindADoctor.search_radius_by_state_then_filter Demo.postal_down npi_api
       miles_fp z radius specialty_text log
     = (Raise (PyException "URLError"), log)
  /\ FindADoctor.search_clicked Demo.postal_down npi_api miles_fp
       "33351" "Cardiology" radius s
     = FindADoctor.Crashed (PyException "URLError").
Proof. repeat split. Qed.

(** ** Selection and booking *)

(** C9: choosing the radio row [idx], other than row 0, stores the element
    [idx - 1] of the stored result as it is, and the booking page reads its
    header from that stored candidate field by field; the only value that
    is not a verbatim copy is the shown taxonomy, which reads "Provider"
    when the candidate's taxonomy is empty. *)
Theorem selected_candidate_reaches_booking
  (s : FindADoctor.Session) (found : list FindADoctor.Candidate) (idx : nat) :
  FindADoctor.providers s = Some found ->
  (1 <= idx <= List.length found)%nat ->
  exists c s',
    nth_error found (idx - 1) = Some c
    /\ FindADoctor.select_provider idx s = Return s'
    /\ FindADoctor.selected_doctor s' = Some c
    /\ FindADoctor.providers s' = Some found
    /\ (truthy_opt (FindADoctor.condition_summary s) = true ->
        truthy_opt (FindADoctor.symptoms_input s) = true ->
        exists h,
          BookAppointment.book_appointment s' = BookAppointment.Booking c h
          /\ BookAppointment.doc_name h = FindADoctor.name c
          /\ BookAppointment.doc_taxonomy h
             = or_str (FindADoctor.taxonomy c) "Provider"
          /\ BookAppointment.doc_phone h = FindADoctor.phone c
          /\ BookAppointment.doc_address h = FindADoctor.address c
          /\ BookAppointment.doc_npi h = FindADoctor.npi c
          /\ BookAppointment.doc_zip h = FindADoctor.zip c
          /\ BookAppointment.doc_distance h = FindADoctor.distance_mi c).
Proof.
  intros Hp [H1 H2].
  destruct idx as [|i]; [lia|].
  replace (S i - 1)%nat with i by lia.
  destruct (nth_error found i) as [c|] eqn:E.
  2:{ apply nth_error_None in E. lia. }
  exists c.
  unfold FindADoctor.select_provider. rewrite Hp, E.
  eexists. split; [reflexivity|]. split; [reflexivity|].
  simpl. repeat split; auto.
  intros Hc Hs. unfold BookAppointment.book_appointment. simpl.
  rewrite Hc, Hs. simpl. eexists. repeat split.
Qed.

Lemma selected_candidate_reaches_booking_witness :
  exists c s',
    nth_error Demo.hits (2 - 1) = Some c
    /\ FindADoctor.select_provider 2 Demo.session_with_results = Return s'
    /\ FindADoctor.selected_doctor s' = Some c
    /\ FindADoctor.providers s' = Some Demo.hits
    /\ (truthy_opt (FindADoctor.condition_summary Demo.session_with_results) = true ->
        truthy_opt (FindADoctor.symptoms_input Demo.session_with_results) = true ->
        exists h,
          BookAppointment.book_appointment s' = BookAppointment.Booking c h
          /\ BookAppointment.doc_name h = FindADoctor.name c
          /\ BookAppointment.doc_taxonomy h
             = or_str (FindADoctor.taxonomy c) "Provider"
          /\ BookAppointment.doc_phone h = FindADoctor.phone c
          /\ BookAppointment.doc_address h = FindADoctor.address c
          /\ BookAppointment.doc_npi h = FindADoctor.npi c
          /\ BookAppointment.doc_zip h = FindADoctor.zip c
          /\ BookAppointment.doc_distance h = FindADoctor.distance_mi c).
Proof.
  apply (@selected_candidate_reaches_booking Demo.session_with_results Demo.hits 2).
  - reflexivity.
  - simpl. lia.
Defined.

(** ** The source loop *)

Section Sources.

Import FindADoctor.
Local Open Scope string_scope.
Local Open Scope list_scope.

Variable query_postal_code : string -> outcome PostalRow.
Variable npi_api : string -> string -> string -> Z -> outcome NpiResponse.
Variable miles_fp : pyfloat -> pyfloat -> pyfloat -> pyfloat -> Q.


(** Every row comes from one record, in order. *)
Lemma rows_of_forall2 (u_lat u_lon : pyfloat) (recs : list RawRecord)
  (rows : list Candidate) :
  rows_of query_postal_code miles_fp u_lat u_lon recs = Return rows ->
  Forall2 (fun r c => row_of query_postal_code miles_fp u_lat u_lon r = Return c) recs rows.
Proof.
  revert rows. induction recs as [|r recs IH]; simpl; intros rows H.
  - injection H as <-. constructor.
  - destruct (row_of query_postal_code miles_fp u_lat u_lon r) as [c|e] eqn:E; simpl in H; [|discriminate].
    destruct (rows_of query_postal_code miles_fp u_lat u_lon recs) as [cs|e]; simpl in H; [|discriminate].
    injection H as <-. constructor; auto.
Qed.

Lemma rows_of_in (u_lat u_lon : pyfloat) (recs : list RawRecord)
  (rows : list Candidate) (c : Candidate) :
  rows_of query_postal_code miles_fp u_lat u_lon recs = Return rows -> In c rows ->
  exists r, In r recs /\ row_of query_postal_code miles_fp u_lat u_lon r = Return c.
Proof.
  intros H. apply rows_of_forall2 in H.
  induction H as [|r c' recs rows Hr _ IH]; simpl.
  - contradiction.
  - intros [<-|Hin].
    + exists r. auto.
    + destruct (IH Hin) as (r' & ? & ?). exists r'. auto.
Qed.

Lemma rows_of_nonempty (u_lat u_lon : pyfloat) (r : RawRecord)
  (recs : list RawRecord) (rows : list Candidate) :
  rows_of query_postal_code miles_fp u_lat u_lon (r :: recs) = Return rows -> rows <> [].
Proof.
  intros H. apply rows_of_forall2 in H. inversion H. discriminate.
Qed.

(** One turn of the loop on a source without records: the query is
    logged and the loop goes to the next source. *)
Lemma sources_loop_skip (specialty_text state : string) (u_lat u_lon : pyfloat)
  (enum : string) (rest : list string) (all_hits : list Candidate)
  (log : list string) (data : NpiResponse) :
  npi_api specialty_text state enum 1200 = Return data ->
  or_nil (results data) = [] ->
  sources_loop query_postal_code npi_api miles_fp specialty_text state u_lat u_lon (enum :: rest) all_hits log
  = sources_loop query_postal_code npi_api miles_fp specialty_text state u_lat u_lon rest all_hits (log ++ [enum]).
Proof.
  intros Hq Hr. cbn [sources_loop]. unfold bindf, npi_search_state.
  change (Z.min (Z.max 1200 1) 1200) with 1200%Z.
  rewrite Hq, Hr. reflexivity.
Qed.

(** One turn on a source with records: the loop ends there. *)
Lemma sources_loop_hit (specialty_text state : string) (u_lat u_lon : pyfloat)
  (enum : string) (rest : list string) (log : list string)
  (data : NpiResponse) (r : RawRecord) (recs : list RawRecord) :
  npi_api specialty_text state enum 1200 = Return data ->
  or_nil (results data) = r :: recs ->
  sources_loop query_postal_code npi_api miles_fp specialty_text state u_lat u_lon (enum :: rest) [] log
  = match rows_of query_postal_code miles_fp u_lat u_lon (r :: recs) with
    | Return rows => (Return rows, log ++ [enum])
    | Raise e => (Raise e, log ++ [enum])
    end.
Proof.
  intros Hq Hr. cbn [sources_loop]. unfold bindf, npi_search_state, lift.
  change (Z.min (Z.max 1200 1) 1200) with 1200%Z.
  rewrite Hq, Hr.
  destruct (rows_of query_postal_code miles_fp u_lat u_lon (r :: recs)) as [rows|e] eqn:E; [|reflexivity].
  apply rows_of_nonempty in E. cbn [app].
  destruct rows; [contradiction|reflexivity].
Qed.

(** One turn on a source that fails: the failure is the sources_loop query_postal_code npi_api miles_fps. *)
Lemma sources_loop_raise (specialty_text state : string) (u_lat u_lon : pyfloat)
  (enum : string) (rest : list string) (all_hits : list Candidate)
  (log : list string) (e : exn) :
  npi_api specialty_text state enum 1200 = Raise e ->
  sources_loop query_postal_code npi_api miles_fp specialty_text state u_lat u_lon (enum :: rest) all_hits log
  = (Raise e, log ++ [enum]).
Proof.
  intros Hq. cbn [sources_loop]. unfold bindf, npi_search_state.
  change (Z.min (Z.max 1200 1) 1200) with 1200%Z.
  rewrite Hq. reflexivity.
Qed.

(** The loop stops at the first source of its list that has a record,
    whatever the list. *)
Lemma sources_loop_stops_at_first_hit (specialty_text state : string)
  (u_lat u_lon : pyfloat) (before : list string) (enum : string)
  (after : list string) (log : list string)
  (data : NpiResponse) (r : RawRecord) (recs : list RawRecord) :
  (forall p, In p before ->
     exists d, npi_api specialty_text state p 1200 = Return d
               /\ or_nil (results d) = []) ->
  npi_api specialty_text state enum 1200 = Return data ->
  or_nil (results data) = r :: recs ->
  sources_loop query_postal_code npi_api miles_fp specialty_text state u_lat u_lon (before ++ enum :: after) [] log
  = match rows_of query_postal_code miles_fp u_lat u_lon (r :: recs) with
    | Return rows => (Return rows, log ++ before ++ [enum])
    | Raise e => (Raise e, log ++ before ++ [enum])
    end.
Proof.
  intros Hb Hq Hr. revert log.
  induction before as [|p before IH]; intros log.
  - apply sources_loop_hit with (data := data); assumption.
  - destruct (Hb p (or_introl eq_refl)) as (d & Hd & Hn).
    cbn [app]. erewrite sources_loop_skip by eassumption.
    rewrite IH by (intros q Hin; apply Hb; now right).
    rewrite <- !app_assoc. reflexivity.
Qed.

(** The search after a located origin is the loop followed by [finish]. *)
Lemma search_located (user_zip : string) (radius : Z) (specialty_text : string)
  (log : list string) (u_lat u_lon : pyfloat) (state : string) :
  geocode_zip query_postal_code user_zip = Return (Some (u_lat, u_lon, state)) ->
  truthy state = true ->
  search_radius_by_state_then_filter query_postal_code npi_api miles_fp user_zip radius specialty_text log
  = match sources_loop query_postal_code npi_api miles_fp specialty_text state u_lat u_lon ["NPI-1"; "NPI-2"] [] log with
    | (Return all_hits, log') => (Return (finish radius state all_hits), log')
    | (Raise e, log') => (Raise e, log')
    end.
Proof.
  intros Hg Hs. unfold search_radius_by_state_then_filter, bindf, lift, ret.
  rewrite Hg, Hs. cbn [negb].
  destruct (sources_loop query_postal_code npi_api miles_fp _ _ _ _ _ _ _) as [[all_hits|e] log']; reflexivity.
Qed.

(** The queries of one search: NPI-1, then NPI-2 if and only if NPI-1
    answered without a record. *)
Lemma search_queries (user_zip : string) (radius : Z) (specialty_text : string)
  (log : list string) (u_lat u_lon : pyfloat) (state : string) :
  geocode_zip query_postal_code user_zip = Return (Some (u_lat, u_lon, state)) ->
  truthy state = true ->
  let issued := snd (search_radius_by_state_then_filter query_postal_code npi_api miles_fp user_zip radius specialty_text log) in
  match npi_api specialty_text state "NPI-1" 1200 with
  | Return d =>
      match or_nil (results d) with
      | [] => issued = log ++ ["NPI-1"; "NPI-2"]
      | _ :: _ => issued = log ++ ["NPI-1"]
      end
  | Raise _ => issued = log ++ ["NPI-1"]
  end.
Proof.
  intros Hg Hs. cbv zeta. erewrite search_located by eassumption.
  destruct (npi_api specialty_text state "NPI-1" 1200) as [d|e] eqn:H1.
  - destruct (or_nil (results d)) as [|r recs] eqn:R1.
    + erewrite sources_loop_skip by eassumption.
      destruct (npi_api specialty_text state "NPI-2" 1200) as [d2|e2] eqn:H2.
      * destruct (or_nil (results d2)) as [|r2 recs2] eqn:R2.
        -- erewrite sources_loop_skip by eassumption. simpl.
           now rewrite <- app_assoc.
        -- erewrite sources_loop_hit by eassumption.
           destruct (rows_of query_postal_code miles_fp u_lat u_lon (r2 :: recs2)); simpl;
             now rewrite <- app_assoc.
      * erewrite sources_loop_raise by eassumption. simpl.
        now rewrite <- app_assoc.
    + erewrite sources_loop_hit by eassumption.
      destruct (rows_of query_postal_code miles_fp u_lat u_lon (r :: recs)); reflexivity.
  - erewrite sources_loop_raise by eassumption. reflexivity.
Qed.

(** The search when NPI-1 has a record. *)
Lemma search_first_source (user_zip : string) (radius : Z)
  (specialty_text : string) (log : list string) (u_lat u_lon : pyfloat)
  (state : string) (data : NpiResponse) (r : RawRecord) (recs : list RawRecord) :
  geocode_zip query_postal_code user_zip = Return (Some (u_lat, u_lon, state)) ->
  truthy state = true ->
  npi_api specialty_text state "NPI-1" 1200 = Return data ->
  or_nil (results data) = r :: recs ->
  search_radius_by_state_then_filter query_postal_code npi_api miles_fp user_zip radius specialty_text log
  = match rows_of query_postal_code miles_fp u_lat u_lon (r :: recs) with
    | Return rows => (Return (finish radius state rows), log ++ ["NPI-1"])
    | Raise e => (Raise e, log ++ ["NPI-1"])
    end.
Proof.
  intros Hg Hs H1 R1. erewrite search_located by eassumption.
  erewrite sources_loop_hit by eassumption.
  destruct (rows_of query_postal_code miles_fp u_lat u_lon (r :: recs)); reflexivity.
Qed.

(** The search when a query it issues fails. *)
Lemma search_source_raises (user_zip : string) (radius : Z)
  (specialty_text : string) (log : list string) (u_lat u_lon : pyfloat)
  (state : string) (e : exn) :
  geocode_zip query_postal_code user_zip = Return (Some (u_lat, u_lon, state)) ->
  truthy state = true ->
  npi_api specialty_text state "NPI-1" 1200 = Raise e
  \/ (exists d, npi_api specialty_text state "NPI-1" 1200 = Return d
                /\ or_nil (results d) = []
                /\ npi_api specialty_text state "NPI-2" 1200 = Raise e) ->
  fst (search_radius_by_state_then_filter query_postal_code npi_api miles_fp user_zip radius specialty_text log) = Raise e.
Proof.
  intros Hg Hs H. erewrite search_located by eassumption.
  destruct H as [H1|(d & H1 & R1 & H2)].
  - erewrite sources_loop_raise by eassumption. reflexivity.
  - erewrite sources_loop_skip by eassumption.
    erewrite sources_loop_raise by eassumption. reflexivity.
Qed.

End Sources.

(** ** The order of the result when the radius holds *)

Section RankedResult.

Import FindADoctor.

(** When some candidate is within the radius, the result is the
    candidates within the radius, in the order of the specification. *)
Lemma finish_in_radius_ranked (radius : Z) (state : string)
  (all_hits : list Candidate) :
  filter (within_radius radius) all_hits <> [] ->
  Spec.ranked sort_key (fst (finish radius state all_hits)) = true
  /\ Permutation (fst (finish radius state all_hits))
                 (filter (within_radius radius) all_hits).
Proof.
  intros H. rewrite finish_in_radius by assumption. simpl. split.
  - apply sort_by_key_ranked.
  - apply sort_by_key_perm.
Qed.

End RankedResult.

(** ** The orchestrator *)

(** C3: a search queries the individuals (NPI-1) first and the
    organizations (NPI-2) only when NPI-1 answered without a record; when
    NPI-1 has a record, NPI-2 is not queried and every candidate returned
    is the row of one of NPI-1's records. *)
Theorem first_source_wins
  (query_postal_code : string -> outcome FindADoctor.PostalRow)
  (npi_api : string -> string -> string -> Z -> outcome FindADoctor.NpiResponse)
  (miles_fp : pyfloat -> pyfloat -> pyfloat -> pyfloat -> Q)
  (user_zip : string) (radius : Z) (specialty_text : string)
  (log : list string) (u_lat u_lon : pyfloat) (state : string) :
  FindADoctor.geocode_zip query_postal_code user_zip
  = Return (Some (u_lat, u_lon, state)) ->
  truthy state = true ->
  match npi_api specialty_text state "NPI-1"%string 1200%Z with
  | Return d =>
      match or_nil (FindADoctor.results d) with
      | [] =>
          snd (FindADoctor.search_radius_by_state_then_filter query_postal_code
                 npi_api miles_fp user_zip radius specialty_text log)
          = log ++ ["NPI-1"; "NPI-2"]%string
      | r :: recs =>
          FindADoctor.search_radius_by_state_then_filter query_postal_code
            npi_api miles_fp user_zip radius specialty_text log
          = match FindADoctor.rows_of query_postal_code miles_fp u_lat u_lon
                    (r :: recs) with
            | Return rows =>
                (Return (FindADoctor.finish radius state rows),
                 log ++ ["NPI-1"%string])
            | Raise e => (Raise e, log ++ ["NPI-1"%string])
            end
          /\ (forall found meta log',
                FindADoctor.search_radius_by_state_then_filter query_postal_code
                  npi_api miles_fp user_zip radius specialty_text log
                = (Return (found, meta), log') ->
                log' = log ++ ["NPI-1"%string]
                /\ forall c, In c found ->
                     exists r', In r' (r :: recs)
                       /\ FindADoctor.row_of query_postal_code miles_fp
                            u_lat u_lon r' = Return c)
      end
  | Raise _ =>
      snd (FindADoctor.search_radius_by_state_then_filter query_postal_code
             npi_api miles_fp user_zip radius specialty_text log)
      = log ++ ["NPI-1"%string]
  end.
Proof.
  intros Hg Hs.
  pose proof (@search_queries query_postal_code npi_api miles_fp user_zip
                radius specialty_text log u_lat u_lon state Hg Hs) as Hq.
  cbv zeta in Hq.
  destruct (npi_api specialty_text state "NPI-1"%string 1200%Z) as [d|e] eqn:H1;
    [|exact Hq].
  destruct (or_nil (FindADoctor.results d)) as [|r recs] eqn:R1;
    [exact Hq|].
  pose proof (@search_first_source query_postal_code npi_api miles_fp user_zip
                radius specialty_text log u_lat u_lon state d r recs
                Hg Hs H1 R1) as Hf.
  split; [exact Hf|].
  intros found meta log' Hret. rewrite Hf in Hret.
  destruct (FindADoctor.rows_of query_postal_code miles_fp u_lat u_lon (r :: recs))
    as [rows|e] eqn:Hrows; [|discriminate].
  assert (Hfound : FindADoctor.finish radius state rows = (found, meta))
    by congruence.
  split; [congruence|].
  intros c Hc.
  apply (@rows_of_in query_postal_code miles_fp u_lat u_lon (r :: recs) rows c
           Hrows).
  apply (finish_subset radius state). rewrite Hfound. exact Hc.
Qed.

Lemma first_source_wins_witness :
  FindADoctor.geocode_zip Demo.postal "33351"
  = Return (Some (Finite 26, Finite (-80), "FL"%string))
  /\ truthy "FL" = true
  /\ FindADoctor.search_radius_by_state_then_filter Demo.postal Demo.registry
       Demo.miles69 "33351" 25 "Cardiology" []
     = (Return ([Demo.cand_A; Demo.cand_D; Demo.cand_B],
                [("state", FindADoctor.MStr "FL");
                 ("total_raw", FindADoctor.MInt 4)]%string),
        ["NPI-1"%string]).
Proof.
  split; [reflexivity|]. split; [reflexivity|].
  pose proof (@first_source_wins Demo.postal Demo.registry Demo.miles69
                "33351" 25 "Cardiology" [] (Finite 26) (Finite (-80)) "FL"
                eq_refl eq_refl) as H.
  simpl in H. destruct H as [H _]. exact H.
Defined.

(** C6: a failure of a registry query that the search issues (NPI-1, or
    NPI-2 after NPI-1 answered without a record) is the outcome of the
    search, unchanged; the handler of the search button shows it as an
    error and stops when it is a request error, and does not catch it
    otherwise. *)
Theorem source_error_propagates
  (query_postal_code : string -> outcome FindADoctor.PostalRow)
  (npi_api : string -> string -> string -> Z -> outcome FindADoctor.NpiResponse)
  (miles_fp : pyfloat -> pyfloat -> pyfloat -> pyfloat -> Q)
  (zip_code specialty_in : string) (radius_mi : Z) (s : FindADoctor.Session)
  (log : list string) (u_lat u_lon : pyfloat) (state : string) (e : exn) :
  FindADoctor.geocode_zip query_postal_code zip_code
  = Return (Some (u_lat, u_lon, state)) ->
  truthy state = true ->
  npi_api (strip specialty_in) state "NPI-1"%string 1200%Z = Raise e
  \/ (exists d,
        npi_api (strip specialty_in) state "NPI-1"%string 1200%Z = Return d
        /\ or_nil (FindADoctor.results d) = []
        /\ npi_api (strip specialty_in) state "NPI-2"%string 1200%Z = Raise e) ->
  fst (FindADoctor.search_radius_by_state_then_filter query_postal_code npi_api
         miles_fp zip_code radius_mi (strip specialty_in) log)
  = Raise e
  /\ (truthy zip_code = true -> truthy (strip specialty_in) = true ->
      FindADoctor.search_clicked query_postal_code npi_api miles_fp
        zip_code specialty_in radius_mi s
      = match e with
        | HTTPError msg =>
            FindADoctor.Stopped
              (FindADoctor.ErrorBox ("NPI Registry error: " ++ msg)%string) s
        | RequestException msg =>
            FindADoctor.Stopped
              (FindADoctor.ErrorBox
                 ("Network error querying NPI Registry: " ++ msg)%string) s
        | PyException msg => FindADoctor.Crashed (PyException msg)
        end).
Proof.
  intros Hg Hs He. split.
  - apply (@search_source_raises query_postal_code npi_api miles_fp zip_code
             radius_mi (strip specialty_in) log u_lat u_lon state e Hg Hs He).
  - intros Hz Hsp. unfold FindADoctor.search_clicked.
    rewrite Hz, Hsp. cbn [negb].
    rewrite (@search_source_raises query_postal_code npi_api miles_fp zip_code
               radius_mi (strip specialty_in) [] u_lat u_lon state e Hg Hs He).
    destruct e; reflexivity.
Qed.

Lemma source_error_propagates_witness :
  fst (FindADoctor.search_radius_by_state_then_filter Demo.postal
         Demo.registry_503 Demo.miles69 "33351" 25 (strip "Cardiology ") [])
  = Raise (HTTPError "503 Server Error")
  /\ (truthy "33351" = true -> truthy (strip "Cardiology ") = true ->
      FindADoctor.search_clicked Demo.postal Demo.registry_503 Demo.miles69
        "33351" "Cardiology " 25 Demo.empty_session
      = FindADoctor.Stopped
          (FindADoctor.ErrorBox "NPI Registry error: 503 Server Error")
          Demo.empty_session).
Proof.
  apply (@source_error_propagates Demo.postal Demo.registry_503 Demo.miles69
           "33351" "Cardiology " 25 Demo.empty_session []
           (Finite 26) (Finite (-80)) "FL" (HTTPError "503 Server Error")).
  - reflexivity.
  - reflexivity.
  - left. reflexivity.
Defined.

(** ** The radius fallback *)

(** C1 as the specification states it fails in the demo world at radius
    5: four candidates were found and none is within the radius; the
    search returns them in the order the registry listed them, which is
    not the order of the specification, and its meta is the very meta the
    search at radius 25 returns, where three candidates are within the
    radius. *)
Lemma radius_fallback_counterexample :
  FindADoctor.sources_loop Demo.postal Demo.registry Demo.miles69
    "Cardiology" "FL" (Finite 26) (Finite (-80)) ["NPI-1"; "NPI-2"]%string [] []
  = (Return Demo.hits, ["NPI-1"%string])
  /\ Demo.hits <> []
  /\ filter (FindADoctor.within_radius 5) Demo.hits = []
  /\ fst (FindADoctor.search_radius_by_state_then_filter Demo.postal
            Demo.registry Demo.miles69 "33351" 5 "Cardiology" [])
     = Return (Demo.hits,
               [("state", FindADoctor.MStr "FL");
                ("total_raw", FindADoctor.MInt 4)]%string)
  /\ ~ (Demo.hits = sort_by_key FindADoctor.sort_key Demo.hits
        /\ Spec.indicates_fallback
             [("state", FindADoctor.MStr "FL");
              ("total_raw", FindADoctor.MInt 4)]%string)
  /\ Spec.ranked FindADoctor.sort_key Demo.hits = false
  /\ ~ Spec.indicates_fallback
         [("state", FindADoctor.MStr "FL");
          ("total_raw", FindADoctor.MInt 4)]%string.
Proof.
  assert (Hmeta : ~ Spec.indicates_fallback
                    [("state", FindADoctor.MStr "FL");
                     ("total_raw", FindADoctor.MInt 4)]%string).
  { intros H. apply (H 25%Z "FL"%string Demo.hits).
    - vm_compute. discriminate.
    - reflexivity. }
  split; [reflexivity|]. split; [discriminate|]. split; [reflexivity|].
  split; [reflexivity|]. split; [|split; [reflexivity|exact Hmeta]].
  intros [H _]. vm_compute in H. discriminate.
Qed.

(** C1, amended: when the search found candidates and none of them is
    within the radius, it returns all of them, none dropped and none
    added, so the result is not empty; its meta holds the state and the
    number of candidates found and nothing else, as it does for every
    search. *)
Theorem radius_fallback_returns_all
  (query_postal_code : string -> outcome FindADoctor.PostalRow)
  (npi_api : string -> string -> string -> Z -> outcome FindADoctor.NpiResponse)
  (miles_fp : pyfloat -> pyfloat -> pyfloat -> pyfloat -> Q)
  (user_zip : string) (radius : Z) (specialty_text : string)
  (log log' : list string) (u_lat u_lon : pyfloat) (state : string)
  (all_hits : list FindADoctor.Candidate) :
  FindADoctor.geocode_zip query_postal_code user_zip
  = Return (Some (u_lat, u_lon, state)) ->
  truthy state = true ->
  FindADoctor.sources_loop query_postal_code npi_api miles_fp specialty_text
    state u_lat u_lon ["NPI-1"; "NPI-2"]%string [] log
  = (Return all_hits, log') ->
  all_hits <> [] ->
  filter (FindADoctor.within_radius radius) all_hits = [] ->
  exists found meta,
    FindADoctor.search_radius_by_state_then_filter query_postal_code npi_api
      miles_fp user_zip radius specialty_text log
    = (Return (found, meta), log')
    /\ Permutation found all_hits
    /\ found <> []
    /\ meta = [("state", FindADoctor.MStr state);
               ("total_raw", FindADoctor.MInt (List.length all_hits))]%string
    /\ (forall radius' hits',
          List.length hits' = List.length all_hits ->
          snd (FindADoctor.finish radius' state hits') = meta).
Proof.
  intros Hg Hs Hloop Hne Hnone.
  exists all_hits.
  exists [("state", FindADoctor.MStr state);
          ("total_raw", FindADoctor.MInt (List.length all_hits))]%string.
  split.
  - erewrite search_located by eassumption.
    rewrite Hloop. now rewrite finish_fallback.
  - split; [apply Permutation_refl|]. split; [exact Hne|].
    split; [reflexivity|].
    intros radius' hits' Hlen. unfold FindADoctor.finish. simpl.
    now rewrite Hlen.
Qed.

Lemma radius_fallback_returns_all_witness :
  exists found meta,
    FindADoctor.search_radius_by_state_then_filter Demo.postal Demo.registry
      Demo.miles69 "33351" 5 "Cardiology" []
    = (Return (found, meta), ["NPI-1"%string])
    /\ Permutation found Demo.hits
    /\ found <> []
    /\ meta = [("state", FindADoctor.MStr "FL");
               ("total_raw", FindADoctor.MInt (List.length Demo.hits))]%string
    /\ (forall radius' hits',
          List.length hits' = List.length Demo.hits ->
          snd (FindADoctor.finish radius' "FL" hits') = meta).
Proof.
  apply (@radius_fallback_returns_all Demo.postal Demo.registry Demo.miles69
           "33351" 5 "Cardiology" [] ["NPI-1"%string]
           (Finite 26) (Finite (-80)) "FL" Demo.hits).
  - reflexivity.
  - reflexivity.
  - reflexivity.
  - discriminate.
  - reflexivity.
Defined.

(** ** The order of the result *)

(** When some candidate is within the radius, only such candidates are
    returned. *)
Lemma finish_members_within (radius : Z) (state : string)
  (all_hits : list FindADoctor.Candidate) (c : FindADoctor.Candidate) :
  filter (FindADoctor.within_radius radius) all_hits <> [] ->
  In c (fst (FindADoctor.finish radius state all_hits)) ->
  FindADoctor.within_radius radius c = true.
Proof.
  intros Hne Hin. rewrite finish_in_radius in Hin by assumption.
  cbn [fst] in Hin. apply (proj1 (sort_by_key_in _ _ _)) in Hin.
  apply filter_In in Hin. tauto.
Qed.

(** C2, at inputs where it fails.  The candidates of the specification's
    example are never returned in the order the specification gives: a
    radius of 4 or more drops C, and below that the list comes back as it
    was found, B first.  The sort itself would give the specified order.
    In the demo world at radius 5, the smallest radius of the page's
    slider, the four candidates come back unsorted. *)
Theorem spec_sort_example_not_returned :
  (forall (radius : Z) (state : string),
      fst (FindADoctor.finish radius state
             [Demo.spec_B; Demo.spec_A; Demo.spec_C; Demo.spec_D])
      <> [Demo.spec_A; Demo.spec_D; Demo.spec_B; Demo.spec_C])
  /\ sort_by_key FindADoctor.sort_key [Demo.spec_B; Demo.spec_A; Demo.spec_C; Demo.spec_D]
     = [Demo.spec_A; Demo.spec_D; Demo.spec_B; Demo.spec_C]
  /\ fst (FindADoctor.finish 3 "FL"
            [Demo.spec_B; Demo.spec_A; Demo.spec_C; Demo.spec_D])
     = [Demo.spec_B; Demo.spec_A; Demo.spec_C; Demo.spec_D]
  /\ fst (FindADoctor.finish 25 "FL"
            [Demo.spec_B; Demo.spec_A; Demo.spec_C; Demo.spec_D])
     = [Demo.spec_A; Demo.spec_D; Demo.spec_B]
  /\ fst (FindADoctor.search_radius_by_state_then_filter Demo.postal
            Demo.registry Demo.miles69 "33351" 5 "Cardiology" [])
     = Return ([Demo.cand_B; Demo.cand_A; Demo.cand_C; Demo.cand_D],
               [("state", FindADoctor.MStr "FL");
                ("total_raw", FindADoctor.MInt 4)]%string)
  /\ Spec.ranked FindADoctor.sort_key [Demo.cand_B; Demo.cand_A; Demo.cand_C; Demo.cand_D] = false
  /\ sort_by_key FindADoctor.sort_key [Demo.cand_B; Demo.cand_A; Demo.cand_C; Demo.cand_D]
     = [Demo.cand_A; Demo.cand_D; Demo.cand_B; Demo.cand_C].
Proof.
  split; [|repeat split].
  intros radius state H.
  destruct (filter (FindADoctor.within_radius radius)
              [Demo.spec_B; Demo.spec_A; Demo.spec_C; Demo.spec_D]) eqn:E.
  - rewrite finish_fallback in H by exact E. discriminate H.
  - assert (Hin : In Demo.spec_C
                    (fst (FindADoctor.finish radius state
                       [Demo.spec_B; Demo.spec_A; Demo.spec_C; Demo.spec_D]))).
    { rewrite H. simpl. auto. }
    apply finish_members_within in Hin; [discriminate Hin|].
    rewrite E. discriminate.
Qed.

(** ** Pagination of the places search *)

Section Pagination.

Import LabsNearby.

Variable places_get :
  Z -> pyfloat -> pyfloat -> Z -> option string -> outcome PlacesResponse.
Variables lat0 lon0 : pyfloat.
Variable radius_m : Z.

Lemma last_cons {A} (x d : A) (l : list A) : last (x :: l) d = last l x.
Proof.
  revert x d. induction l as [|y l IH]; intros x d; [reflexivity|].
  change (last (x :: y :: l) d) with (last (y :: l) d).
  rewrite (IH y d), (IH y x). reflexivity.
Qed.

Lemma last_token_cons (param : option string) (p : PlacesResponse)
  (ps : list PlacesResponse) :
  Spec.last_token param (p :: ps) = Spec.last_token (next_page_token p) ps.
Proof. unfold Spec.last_token. simpl map. apply last_cons. Qed.

(** One turn of the loop, by cases. *)
Lemma pages_loop_done (max_pages : Z) (found : list RawPlace) (page : Z)
  (token pagetoken : option string) (trace : list event) :
  ~ (page < max_pages)%Z ->
  pages_loop places_get lat0 lon0 radius_m max_pages found page token
    pagetoken trace
  = (Return found, trace).
Proof.
  intros H. rewrite pages_loop_equation_1.
  destruct (Z_lt_dec page max_pages); [contradiction|reflexivity].
Qed.

Lemma pages_loop_turn (max_pages : Z) (found : list RawPlace) (page : Z)
  (token pagetoken : option string) (trace : list event) :
  (page < max_pages)%Z ->
  pages_loop places_get lat0 lon0 radius_m max_pages found page token
    pagetoken trace
  = let sent := truthy_opt token in
    let pagetoken' := if sent then token else pagetoken in
    let trace' := trace ++ (if sent then [Sleep 2] else []) ++ [Get pagetoken'] in
    match places_get page lat0 lon0 radius_m pagetoken' with
    | Return resp =>
        if truthy_opt (next_page_token resp)
        then pages_loop places_get lat0 lon0 radius_m max_pages
               (found ++ or_nil (results resp)) (page + 1)
               (next_page_token resp) pagetoken' trace'
        else (Return (found ++ or_nil (results resp)), trace')
    | Raise e => (Raise e, trace')
    end.
Proof.
  intros H. rewrite pages_loop_equation_1.
  destruct (Z_lt_dec page max_pages); [reflexivity|contradiction].
Qed.

(** Every run of the loop is a run of the protocol: it fetches at most as
    many pages as are left, each with the token of the page before, waits
    before each request that carries a token, appends the pages in order,
    and ends on the page count, on a page without token, or on a request
    that fails. *)
Lemma pages_loop_run (n : nat) :
  forall (max_pages : Z) (found : list RawPlace) (page : Z)
         (token pagetoken : option string) (trace : list event),
    Z.to_nat (max_pages - page) = n ->
    exists pages : list PlacesResponse,
      (List.length pages <= n)%nat
      /\ Spec.answered places_get lat0 lon0 radius_m page
           (if truthy_opt token then token else pagetoken) pages
      /\ match pages_loop places_get lat0 lon0 radius_m max_pages found page
                 token pagetoken trace with
         | (Return found', trace') =>
             found' = found ++ List.concat (map Spec.page_items pages)
             /\ trace' = trace
                  ++ Spec.protocol_events (truthy_opt token)
                       (if truthy_opt token then token else pagetoken) pages
             /\ (List.length pages = n
                 \/ (pages <> []
                     /\ truthy_opt
                          (Spec.last_token
                             (if truthy_opt token then token else pagetoken)
                             pages) = false))
         | (Raise e, trace') =>
             (List.length pages < n)%nat
             /\ places_get (page + Z.of_nat (List.length pages)) lat0 lon0
                  radius_m
                  (Spec.last_token
                     (if truthy_opt token then token else pagetoken) pages)
                = Raise e
             /\ trace' = trace
                  ++ Spec.protocol_events (truthy_opt token)
                       (if truthy_opt token then token else pagetoken) pages
                  ++ (if match pages with
                          | [] => truthy_opt token
                          | _ :: _ => true
                          end
                      then [Sleep 2] else [])
                  ++ [Get (Spec.last_token
                             (if truthy_opt token then token else pagetoken)
                             pages)]
         end.
Proof.
  induction n as [|n IH]; intros max_pages found page token pagetoken trace Hn.
  - exists []. rewrite pages_loop_done by lia.
    simpl. rewrite !app_nil_r. repeat (split; [auto|]). auto.
  - rewrite pages_loop_turn by lia. cbv zeta.
    set (param := if truthy_opt token then token else pagetoken).
    destruct (places_get page lat0 lon0 radius_m param) as [resp|e] eqn:Hget.
    + destruct (truthy_opt (next_page_token resp)) eqn:Htok.
      * destruct (IH max_pages (found ++ or_nil (results resp)) (page + 1)%Z
                    (next_page_token resp) param
                    (trace ++ (if truthy_opt token then [Sleep 2] else [])
                           ++ [Get param]))
          as (pages & Hlen & Hans & Hrun); [lia|].
        rewrite Htok in Hans, Hrun.
        exists (resp :: pages). split; [simpl; lia|]. split.
        { simpl. auto. }
        destruct (pages_loop places_get lat0 lon0 radius_m max_pages
                    (found ++ or_nil (results resp)) (page + 1)
                    (next_page_token resp) param
                    (trace ++ (if truthy_opt token then [Sleep 2] else [])
                           ++ [Get param])) as [[found'|e] trace'].
        -- destruct Hrun as (-> & -> & Hstop). rewrite last_token_cons.
           split; [simpl; now rewrite <- app_assoc|]. split.
           { simpl. rewrite <- !app_assoc. reflexivity. }
           destruct Hstop as [Hstop|[_ Hstop]].
           ++ left. simpl. lia.
           ++ right. split; [discriminate|assumption].
        -- destruct Hrun as (Hlt & Hraise & ->). rewrite last_token_cons.
           split; [simpl; lia|]. split.
           { replace (page + Z.of_nat (List.length (resp :: pages)))%Z
               with (page + 1 + Z.of_nat (List.length pages))%Z
               by (simpl List.length; lia).
             exact Hraise. }
           simpl. rewrite <- !app_assoc. simpl.
           destruct pages; reflexivity.
      * exists [resp]. split; [simpl; lia|]. split.
        { simpl. repeat split; auto. }
        split; [simpl; now rewrite app_nil_r|]. split; [reflexivity|].
        right. split; [discriminate|]. exact Htok.
    + exists []. split; [simpl; lia|]. split; [exact I|].
      simpl. rewrite Z.add_0_r. unfold Spec.last_token. simpl.
      repeat split; [lia|exact Hget].
Qed.

End Pagination.

(** C7: the paginated places search always ends.  Called with a page
    limit, it makes at most that many requests (three, as the page calls
    it): the first without token and without wait, each later one after
    the fixed wait of two seconds and with the token of the page before;
    it goes on only while pages return a token; and what it returns is
    the pages' records, concatenated in the order they were fetched.  A
    request that fails ends the run with that failure. *)
Theorem places_search_is_bounded_pagination
  (places_get : Z -> pyfloat -> pyfloat -> Z -> option string
                -> outcome LabsNearby.PlacesResponse)
  (lat0 lon0 : pyfloat) (radius_m max_pages : Z) :
  exists pages : list LabsNearby.PlacesResponse,
    (List.length pages <= Z.to_nat max_pages)%nat
    /\ Spec.answered places_get lat0 lon0 radius_m 0 None pages
    /\ match LabsNearby.places_nearby_labs places_get lat0 lon0 radius_m
               max_pages with
       | (Return found, trace) =>
           found = List.concat (map Spec.page_items pages)
           /\ trace = Spec.protocol_events false None pages
           /\ (List.length pages = Z.to_nat max_pages
               \/ (pages <> []
                   /\ truthy_opt (Spec.last_token None pages) = false))
       | (Raise e, trace) =>
           (List.length pages < Z.to_nat max_pages)%nat
           /\ places_get (Z.of_nat (List.length pages)) lat0 lon0 radius_m
                (Spec.last_token None pages)
              = Raise e
           /\ trace = Spec.protocol_events false None pages
                ++ (match pages with
                    | [] => []
                    | _ :: _ => [LabsNearby.Sleep 2]
                    end)
                ++ [LabsNearby.Get (Spec.last_token None pages)]
       end.
Proof.
  destruct (@pages_loop_run places_get lat0 lon0 radius_m (Z.to_nat max_pages)
              max_pages [] 0%Z None None [])
    as (pages & Hlen & Hans & Hrun).
  { f_equal. lia. }
  exists pages. split; [exact Hlen|].
  split; [exact Hans|].
  unfold LabsNearby.places_nearby_labs.
  destruct (LabsNearby.pages_loop places_get lat0 lon0 radius_m max_pages []
              0 None None []) as [[found|e] trace].
  - exact Hrun.
  - destruct Hrun as (H1 & H2 & H3). repeat split; auto.
    rewrite H3. simpl. destruct pages; reflexivity.
Qed.

(** The loop on the two services of the demo world. *)
Example endless_places_three_pages :
  LabsNearby.places_nearby_labs Demo.endless_places (Finite 26) (Finite (-80))
    16093 3
  = (Return [Demo.lab "first"; Demo.lab "t"; Demo.lab "t+"],
     [LabsNearby.Get None;
      LabsNearby.Sleep 2; LabsNearby.Get (Some "t"%string);
      LabsNearby.Sleep 2; LabsNearby.Get (Some "t+"%string)]).
Proof. reflexivity. Qed.

Example two_page_places_stops_early :
  LabsNearby.places_nearby_labs Demo.two_page_places (Finite 26) (Finite (-80))
    16093 3
  = (Return [Demo.lab "a"; Demo.lab "b"; Demo.lab "c"],
     [LabsNearby.Get None; LabsNearby.Sleep 2; LabsNearby.Get (Some "t"%string)]).
Proof. reflexivity. Qed.

(** ** The labs list *)

Section LabsList.

Import LabsNearby.

Variable haversine_fp : pyfloat -> pyfloat -> pyfloat -> pyfloat -> Q.
Variable quote_plus : string -> string.

(** The list the labs page shows is in the order of its keys, and each of
    its items has a distance: the page drops the others before it sorts. *)
Lemma base_items_ranked (raw : list RawPlace) (user_lat user_lon : pyfloat) :
  Spec.ranked item_key (base_items haversine_fp quote_plus raw user_lat user_lon)
  = true
  /\ forall x,
       In x (base_items haversine_fp quote_plus raw user_lat user_lon) ->
       distance_mi x <> None.
Proof.
  unfold base_items. split.
  - apply sort_by_key_ranked.
  - intros x Hx. apply (proj1 (sort_by_key_in _ _ _)) in Hx.
    apply filter_In in Hx. destruct Hx as [_ Hd].
    destruct (distance_mi x); [discriminate|discriminate Hd].
Qed.

End LabsList.

(** ** From the search to the stored result *)

(** A search that returns candidates leaves them, as returned, under
    [providers], with no provider selected. *)
Lemma search_clicked_stores
  (query_postal_code : string -> outcome FindADoctor.PostalRow)
  (npi_api : string -> string -> string -> Z -> outcome FindADoctor.NpiResponse)
  (miles_fp : pyfloat -> pyfloat -> pyfloat -> pyfloat -> Q)
  (zip_code specialty_in : string) (radius_mi : Z) (s : FindADoctor.Session)
  (c : FindADoctor.Candidate) (found : list FindADoctor.Candidate)
  (meta : FindADoctor.Meta) :
  truthy zip_code = true -> truthy (strip specialty_in) = true ->
  fst (FindADoctor.search_radius_by_state_then_filter query_postal_code npi_api
         miles_fp zip_code radius_mi (strip specialty_in) [])
  = Return (c :: found, meta) ->
  exists s',
    FindADoctor.search_clicked query_postal_code npi_api miles_fp
      zip_code specialty_in radius_mi s
    = FindADoctor.Continues s'
    /\ FindADoctor.providers s' = Some (c :: found)
    /\ FindADoctor.providers_meta s' = Some meta
    /\ FindADoctor.selected_doctor s' = None.
Proof.
  intros Hz Hsp Hret. unfold FindADoctor.search_clicked.
  rewrite Hz, Hsp, Hret. cbn [negb].
  eexists. split; [reflexivity|]. simpl. auto.
Qed.

(* ===================================================================== *)
(** * Further properties of the pages *)
(* ===================================================================== *)

(** ** Patterns *)

Section Patterns.

Import Re.
Local Open Scope string_scope.

Lemma append_nil_r (s : string) : s ++ "" = s.
Proof. induction s as [|c s IH]; simpl; [reflexivity|now rewrite IH]. Qed.

Lemma append_assoc (s t u : string) : (s ++ t) ++ u = s ++ (t ++ u).
Proof. induction s as [|c s IH]; simpl; [reflexivity|now rewrite IH]. Qed.

Lemma append_eq_nil (s t : string) : s ++ t = "" -> s = "" /\ t = "".
Proof. destruct s; simpl; [auto|discriminate]. Qed.

Lemma nullable_lang (r : re) : nullable r = true <-> lang r "".
Proof.
  induction r as [| |p|a IHa b IHb|a IHa b IHb|a IHa]; simpl.
  - split; [discriminate|]. intros H. inversion H.
  - split; [constructor|reflexivity].
  - split; [discriminate|]. intros H. inversion H.
  - rewrite andb_true_iff, IHa, IHb. split.
    + intros [Ha Hb]. change "" with ("" ++ ""). now constructor.
    + intros H. inversion H as [| |a' b' s t Hs Ht E| | | |]; subst.
      match goal with
      | E' : _ ++ _ = "" |- _ => apply append_eq_nil in E'; destruct E'; subst
      end.
      auto.
  - rewrite orb_true_iff, IHa, IHb. split.
    + intros [H|H]; [now apply lang_alt_l|now apply lang_alt_r].
    + intros H. inversion H; subst; auto.
  - split; [constructor|reflexivity].
Qed.

(** A non-empty word of a star starts with a non-empty word of its body. *)
Lemma lang_star_cons_inv (a : re) (w : string) :
  lang (Star a) w ->
  forall c s, w = String c s ->
  exists s1 s2, s = s1 ++ s2 /\ lang a (String c s1) /\ lang (Star a) s2.
Proof.
  intros H. remember (Star a) as r eqn:Er.
  induction H as [| | | | | a'|a' s1 t1 Hs _ Ht IHt]; try discriminate.
  injection Er as ->. intros c u E.
  destruct s1 as [|d s1]; simpl in E.
  - apply IHt; [reflexivity|exact E].
  - injection E as -> <-. exists s1, t1. auto.
Qed.

Lemma deriv_lang (c : ascii) (r : re) :
  forall s, lang (deriv c r) s <-> lang r (String c s).
Proof.
  induction r as [| |p|a IHa b IHb|a IHa b IHb|a IHa]; intros s; simpl.
  - split; intros H; inversion H.
  - split; intros H; inversion H.
  - destruct (p c) eqn:E; split; intros H.
    + inversion H; subst. now constructor.
    + inversion H; subst. constructor.
    + inversion H.
    + inversion H; subst. congruence.
  - assert (Hleft : forall u, lang (Seq (deriv c a) b) u -> lang (Seq a b) (String c u)).
    { intros u H. inversion H as [| |a' b' s1 t1 H1 H2| | | |]; subst.
      apply IHa in H1. change (String c (s1 ++ t1)) with (String c s1 ++ t1).
      now constructor. }
    assert (Hinv : forall u, lang (Seq a b) (String c u) ->
                   lang (Seq (deriv c a) b) u
                   \/ (lang a "" /\ lang b (String c u))).
    { intros u H. inversion H as [| |a' b' s1 t1 H1 H2| | | |]; subst.
      match goal with E' : _ ++ _ = String _ _ |- _ => rename E' into E end.
      destruct s1 as [|d s1]; simpl in E.
      - right. subst. auto.
      - injection E as -> <-. left. constructor; [now apply IHa|assumption]. }
    destruct (nullable a) eqn:N.
    + split; intros H.
      * inversion H; subst; [now apply Hleft|].
        change (String c s) with ("" ++ String c s).
        constructor; [now apply nullable_lang|now apply IHb].
      * destruct (Hinv _ H) as [H'|[_ H']];
          [now apply lang_alt_l|apply lang_alt_r; now apply IHb].
    + split; intros H; [now apply Hleft|].
      destruct (Hinv _ H) as [H'|[H' _]]; [assumption|].
      apply nullable_lang in H'. congruence.
  - split; intros H; inversion H; subst.
    + apply lang_alt_l. now apply IHa.
    + apply lang_alt_r. now apply IHb.
    + apply lang_alt_l. now apply IHa.
    + apply lang_alt_r. now apply IHb.
  - split; intros H.
    + inversion H as [| |a' b' s1 t1 H1 H2| | | |]; subst.
      apply IHa in H1. change (String c (s1 ++ t1)) with (String c s1 ++ t1).
      now constructor.
    + destruct (lang_star_cons_inv H eq_refl) as (s1 & s2 & -> & H1 & H2).
      constructor; [now apply IHa|assumption].
Qed.

(** The matcher decides the words of the pattern. *)
Lemma matches_lang (r : re) (s : string) : matches r s = true <-> lang r s.
Proof.
  revert r. induction s as [|c s IH]; intros r; simpl.
  - apply nullable_lang.
  - rewrite IH. apply deriv_lang.
Qed.

End Patterns.

(** ** ZIP codes *)

Section ZipCodes.

Import Re.
Import FindADoctorPage.
Local Open Scope string_scope.

Lemma all_chars_app (p : ascii -> bool) (s t : string) :
  all_chars p (s ++ t) = all_chars p s && all_chars p t.
Proof.
  induction s as [|c s IH]; simpl; [reflexivity|].
  rewrite IH. now rewrite andb_assoc.
Qed.

Lemma length_app (s t : string) :
  String.length (s ++ t) = (String.length s + String.length t)%nat.
Proof. induction s as [|c s IH]; simpl; [reflexivity|now rewrite IH]. Qed.

Lemma lang_star_cls (p : ascii -> bool) (s : string) :
  lang (Star (Cls p)) s <-> all_chars p s = true.
Proof.
  split.
  - intros H. remember (Star (Cls p)) as r eqn:Er.
    induction H as [| | | | | a|a s1 t1 Hs _ Ht IHt]; try discriminate.
    + reflexivity.
    + injection Er as ->. inversion Hs; subst. simpl.
      rewrite IHt by reflexivity.
      match goal with E : p _ = true |- _ => now rewrite E end.
  - induction s as [|c s IH]; simpl; intros H.
    + constructor.
    + apply andb_prop in H. destruct H as [Hc Hs].
      change (String c s) with (String c "" ++ s).
      constructor; [now constructor|now apply IH].
Qed.

Lemma lang_times_cls (p : ascii -> bool) (n : nat) (s : string) :
  lang (times n (Cls p)) s <-> String.length s = n /\ all_chars p s = true.
Proof.
  revert s. induction n as [|n IH]; intros s; simpl.
  - split.
    + intros H. inversion H. auto.
    + intros [H _]. destruct s; [constructor|discriminate].
  - split.
    + intros H. inversion H as [| |a b s1 t1 H1 H2| | | |]; subst.
      inversion H1; subst. apply IH in H2. destruct H2 as [<- H2].
      simpl. split; [reflexivity|].
      match goal with E : p _ = true |- _ => now rewrite E end.
    + intros [Hl Hp]. destruct s as [|c s]; [discriminate|].
      simpl in Hl, Hp. injection Hl as Hl.
      apply andb_prop in Hp. destruct Hp as [Hc Hs].
      change (String c s) with (String c "" ++ s).
      constructor; [now constructor|]. apply IH. auto.
Qed.

Lemma digit_not_space (c : ascii) : digit c = true -> Py.is_space c = false.
Proof.
  unfold digit, Py.is_space. intros H.
  apply andb_prop in H. destruct H as [H1 H2].
  apply Nat.leb_le in H1, H2.
  apply orb_false_iff. split; apply andb_false_iff.
  - right. apply Nat.leb_gt. lia.
  - right. apply Nat.leb_gt. lia.
Qed.

Lemma lstrip_spaces (ws rest : string) (d : ascii) :
  all_chars space ws = true -> Py.is_space d = false ->
  Py.lstrip (ws ++ String d rest) = String d rest.
Proof.
  intros Hws Hd. induction ws as [|c ws IH]; simpl in *.
  - now rewrite Hd.
  - apply andb_prop in Hws. destruct Hws as [Hc Hws].
    unfold space in Hc. rewrite Hc. auto.
Qed.

Lemma prefix_app (z rest : string) :
  Py.prefix (String.length z) (z ++ rest) = z.
Proof.
  unfold Py.prefix. induction z as [|c z IH]; simpl.
  - destruct rest; reflexivity.
  - now rewrite IH.
Qed.

(** The words of the ZIP pattern. *)
Lemma zip_pattern_lang (raw : string) :
  lang zip_pattern raw
  <-> exists ws1 z ext ws2,
        raw = ws1 ++ z ++ ext ++ ws2
        /\ all_chars space ws1 = true /\ all_chars space ws2 = true
        /\ String.length z = 5%nat /\ all_chars digit z = true
        /\ (ext = ""
            \/ exists d, ext = String "-" d /\ String.length d = 4%nat
                         /\ all_chars digit d = true).
Proof.
  unfold zip_pattern, dollar, opt. split.
  - intros H.
    inversion H as [| |? ? ws1 r1 Hws1 H1| | | |]; subst. clear H.
    inversion H1 as [| |? ? z r2 Hz H2| | | |]; subst. clear H1.
    inversion H2 as [| |? ? ext r3 Hext H3| | | |]; subst. clear H2.
    inversion H3 as [| |? ? ws2 nl Hws2 Hnl| | | |]; subst. clear H3.
    apply lang_star_cls in Hws1, Hws2.
    apply (lang_times_cls digit 5) in Hz. destruct Hz as [Hz1 Hz2].
    exists ws1, z, ext, (ws2 ++ nl). repeat split; auto.
    + rewrite all_chars_app, Hws2.
      inversion Hnl as [| | |? ? ? He|? ? ? Hc| |]; subst.
      * inversion He. reflexivity.
      * inversion Hc as [|? c Hcc| | | | |]; subst.
        unfold chr in Hcc. apply Ascii.eqb_eq in Hcc. subst. reflexivity.
    + inversion Hext as [| | |? ? ? He|? ? ? Hd| |]; subst.
      * inversion He. auto.
      * right. inversion Hd as [| |? ? m d Hm Hd'| | | |]; subst.
        inversion Hm as [|? c Hcc| | | | |]; subst.
        unfold chr in Hcc. apply Ascii.eqb_eq in Hcc. subst.
        apply (lang_times_cls digit 4) in Hd'. destruct Hd'.
        exists d. auto.
  - intros (ws1 & z & ext & ws2 & -> & Hws1 & Hws2 & Hz1 & Hz2 & Hext).
    constructor; [now apply lang_star_cls|].
    constructor; [apply (lang_times_cls digit 5); auto|].
    constructor.
    + destruct Hext as [->|(d & -> & Hd1 & Hd2)].
      * apply lang_alt_l. constructor.
      * apply lang_alt_r. change (String "-" d) with (String "-" "" ++ d).
        constructor; [constructor; reflexivity|].
        apply (lang_times_cls digit 4); auto.
    + rewrite <- (append_nil_r ws2). constructor.
      * now apply lang_star_cls.
      * apply lang_alt_l. constructor.
Qed.

(** What [_normalize_zip] accepts and what it returns. *)
Lemma normalize_zip_iff (raw z : string) :
  _normalize_zip (Some raw) = Some z
  <-> exists ws1 ext ws2,
        raw = ws1 ++ z ++ ext ++ ws2
        /\ all_chars space ws1 = true /\ all_chars space ws2 = true
        /\ String.length z = 5%nat /\ all_chars digit z = true
        /\ (ext = ""
            \/ exists d, ext = String "-" d /\ String.length d = 4%nat
                         /\ all_chars digit d = true).
Proof.
  assert (Hgroup : forall ws1 z' ext ws2,
             all_chars space ws1 = true ->
             String.length z' = 5%nat -> all_chars digit z' = true ->
             Py.prefix 5 (Py.lstrip (ws1 ++ z' ++ ext ++ ws2)) = z'
             /\ Py.truthy (ws1 ++ z' ++ ext ++ ws2) = true).
  { intros ws1 z' ext ws2 Hws1 Hz1 Hz2.
    destruct z' as [|d z']; [discriminate|].
    simpl in Hz2. apply andb_prop in Hz2. destruct Hz2 as [Hd _].
    change ((String d z') ++ ext ++ ws2) with (String d (z' ++ ext ++ ws2)).
    rewrite lstrip_spaces by (auto using digit_not_space).
    change (String d (z' ++ ext ++ ws2)) with ((String d z') ++ ext ++ ws2).
    rewrite <- Hz1. split; [apply prefix_app|].
    destruct ws1; reflexivity. }
  unfold _normalize_zip. split.
  - intros H. destruct (Py.truthy raw); simpl in H; [|discriminate].
    destruct (matches zip_pattern raw) eqn:M; [|discriminate].
    apply matches_lang, zip_pattern_lang in M.
    destruct M as (ws1 & z' & ext & ws2 & -> & Hws1 & Hws2 & Hz1 & Hz2 & Hext).
    destruct (Hgroup ws1 z' ext ws2 Hws1 Hz1 Hz2) as [Hg _].
    rewrite Hg in H. injection H as <-.
    exists ws1, ext, ws2. auto 10.
  - intros (ws1 & ext & ws2 & -> & Hws1 & Hws2 & Hz1 & Hz2 & Hext).
    destruct (Hgroup ws1 z ext ws2 Hws1 Hz1 Hz2) as [Hg Ht].
    rewrite Ht. simpl.
    assert (M : matches zip_pattern (ws1 ++ z ++ ext ++ ws2) = true).
    { apply matches_lang, zip_pattern_lang.
      exists ws1, z, ext, ws2. auto 10. }
    rewrite M, Hg. reflexivity.
Qed.

End ZipCodes.

(** A result of [_normalize_zip] has five characters and normalises to
    itself. *)
Lemma normalize_zip_result (raw z : string) :
  FindADoctorPage._normalize_zip (Some raw) = Some z ->
  String.length z = 5%nat
  /\ FindADoctorPage._normalize_zip (Some z) = Some z
  /\ FindADoctorPage.zip_of_input z = z.
Proof.
  intros H. apply normalize_zip_iff in H.
  destruct H as (ws1 & ext & ws2 & _ & _ & _ & Hz1 & Hz2 & _).
  assert (Hn : FindADoctorPage._normalize_zip (Some z) = Some z).
  { apply normalize_zip_iff. exists ""%string, ""%string, ""%string.
    simpl. rewrite !append_nil_r. auto 10. }
  split; [exact Hz1|]. split; [exact Hn|].
  unfold FindADoctorPage.zip_of_input. rewrite Hn.
  destruct z; [discriminate|reflexivity].
Qed.

(** X1: on ASCII input, [_normalize_zip] returns [z] exactly when the
    input is [z], five digits, optionally followed by a hyphen and four
    digits, with white space allowed before and after and nothing else. *)
Theorem normalize_zip_accepts_exactly (raw z : string) :
  Re.ascii_text raw = true ->
  (FindADoctorPage._normalize_zip (Some raw) = Some z
   <-> exists ws1 ext ws2,
         raw = (ws1 ++ z ++ ext ++ ws2)%string
         /\ Re.all_chars Re.space ws1 = true
         /\ Re.all_chars Re.space ws2 = true
         /\ String.length z = 5%nat /\ Re.all_chars Re.digit z = true
         /\ (ext = ""%string
             \/ exists d, ext = String "-" d /\ String.length d = 4%nat
                          /\ Re.all_chars Re.digit d = true)).
Proof. intros _. apply normalize_zip_iff. Qed.

Lemma normalize_zip_accepts_exactly_witness :
  Re.ascii_text " 33351-1234 " = true
  /\ (FindADoctorPage._normalize_zip (Some " 33351-1234 "%string)
      = Some "33351"%string
      <-> exists ws1 ext ws2,
            " 33351-1234 "%string = (ws1 ++ "33351" ++ ext ++ ws2)%string
            /\ Re.all_chars Re.space ws1 = true
            /\ Re.all_chars Re.space ws2 = true
            /\ String.length "33351" = 5%nat
            /\ Re.all_chars Re.digit "33351" = true
            /\ (ext = ""%string
                \/ exists d, ext = String "-" d /\ String.length d = 4%nat
                             /\ Re.all_chars Re.digit d = true)).
Proof.
  split; [reflexivity|].
  apply (@normalize_zip_accepts_exactly " 33351-1234 " "33351"). reflexivity.
Defined.

(** X2: a ZIP that [_normalize_zip] returned is a fixed point of it: it
    has five characters, normalises to itself, and is what the ZIP box of
    the page keeps when it holds it. *)
Theorem normalize_zip_idempotent (raw z : string) :
  FindADoctorPage._normalize_zip (Some raw) = Some z ->
  String.length z = 5%nat
  /\ FindADoctorPage._normalize_zip (Some z) = Some z
  /\ FindADoctorPage.zip_of_input z = z.
Proof. apply normalize_zip_result. Qed.

Lemma normalize_zip_idempotent_witness :
  String.length "33351" = 5%nat
  /\ FindADoctorPage._normalize_zip (Some "33351"%string) = Some "33351"%string
  /\ FindADoctorPage.zip_of_input "33351" = "33351"%string.
Proof.
  apply (@normalize_zip_idempotent "33351-1234  " "33351"). reflexivity.
Defined.

(** ** The ZIP box *)

Section ZipBox.

Import FindADoctorPage.
Local Open Scope string_scope.

Lemma normalize_zip_short (s : string) :
  (String.length s < 5)%nat -> _normalize_zip (Some s) = None.
Proof.
  intros Hlen. destruct (_normalize_zip (Some s)) as [z|] eqn:E; [|reflexivity].
  apply normalize_zip_iff in E.
  destruct E as (ws1 & ext & ws2 & -> & _ & _ & Hz & _).
  rewrite !length_app in Hlen. lia.
Qed.

Lemma first_of_qstr_length (s : string) :
  (String.length (first_of (QStr s)) <= 1)%nat.
Proof. destruct s; simpl; lia. Qed.

Lemma zip_of_input_fixed (zip_input : string) :
  zip_of_input (zip_of_input zip_input) = zip_of_input zip_input.
Proof.
  destruct (_normalize_zip (Some zip_input)) as [z|] eqn:E.
  - destruct (normalize_zip_result _ E) as (Hl & _ & Hz).
    assert (Ht : zip_of_input zip_input = z).
    { unfold zip_of_input. rewrite E. destruct z; [discriminate|reflexivity]. }
    rewrite Ht. exact Hz.
  - assert (Ht : zip_of_input zip_input = "").
    { unfold zip_of_input. now rewrite E. }
    rewrite Ht. reflexivity.
Qed.

End ZipBox.

(** X3: what the ZIP box is prefilled with.  On ASCII input it is the
    ZIP the symptom page stored when it stored one, else the ZIP that the
    first value of the URL normalises to, else nothing: the box is empty
    exactly when nothing was stored and nothing usable is in the URL.
    Whatever it holds survives the page's own normalisation unchanged. *)
Theorem prefilled_zip_is_kept
  (zip_raw : option string) (qp_zip : FindADoctorPage.qp_value) :
  Re.ascii_text (get_default zip_raw "") = true ->
  Re.ascii_text (FindADoctorPage.first_of qp_zip) = true ->
  let box :=
    FindADoctorPage.initial_zip_box
      (FindADoctorPage._normalize_zip zip_raw) qp_zip in
  FindADoctorPage.zip_of_input box = box
  /\ box = match FindADoctorPage._normalize_zip zip_raw with
           | Some z => z
           | None =>
               match FindADoctorPage._normalize_zip
                       (Some (FindADoctorPage.first_of qp_zip)) with
               | Some z => z
               | None => ""%string
               end
           end
  /\ (box = ""%string
      <-> FindADoctorPage._normalize_zip zip_raw = None
          /\ FindADoctorPage._normalize_zip
               (Some (FindADoctorPage.first_of qp_zip)) = None).
Proof.
  intros _ _ box.
  assert (Hfive : forall raw z,
             FindADoctorPage._normalize_zip (Some raw) = Some z ->
             truthy z = true /\ z <> ""%string
             /\ FindADoctorPage.zip_of_input z = z).
  { intros raw z E. destruct (normalize_zip_result _ E) as (Hl & _ & Hz).
    destruct z; [discriminate Hl|]. repeat split; [discriminate|exact Hz]. }
  assert (Hbox : box = match FindADoctorPage._normalize_zip zip_raw with
                       | Some z => z
                       | None =>
                           match FindADoctorPage._normalize_zip
                                   (Some (FindADoctorPage.first_of qp_zip)) with
                           | Some z => z
                           | None => ""%string
                           end
                       end).
  { unfold box, FindADoctorPage.initial_zip_box.
    destruct zip_raw as [raw|].
    - destruct (FindADoctorPage._normalize_zip (Some raw)) as [z|] eqn:E.
      + destruct (Hfive raw z E) as (T & _). cbn [truthy_opt get_default].
        now rewrite T.
      + cbn [truthy_opt].
        destruct (FindADoctorPage._normalize_zip
                    (Some (FindADoctorPage.first_of qp_zip))) as [z|] eqn:E';
          [|reflexivity].
        destruct (Hfive _ z E') as (T & _). unfold or_str. now rewrite T.
    - change (FindADoctorPage._normalize_zip None) with (@None string).
      cbn [truthy_opt].
      destruct (FindADoctorPage._normalize_zip
                  (Some (FindADoctorPage.first_of qp_zip))) as [z|] eqn:E';
        [|reflexivity].
      destruct (Hfive _ z E') as (T & _). unfold or_str. now rewrite T. }
  split; [|split; [exact Hbox|]].
  - rewrite Hbox.
    destruct (FindADoctorPage._normalize_zip zip_raw) as [z|] eqn:E.
    + destruct zip_raw as [raw|]; [|discriminate E]. apply (Hfive raw z E).
    + destruct (FindADoctorPage._normalize_zip
                  (Some (FindADoctorPage.first_of qp_zip))) as [z|] eqn:E';
        [apply (Hfive _ z E')|reflexivity].
  - rewrite Hbox.
    destruct (FindADoctorPage._normalize_zip zip_raw) as [z|] eqn:E.
    + destruct zip_raw as [raw|]; [|discriminate E].
      destruct (Hfive raw z E) as (_ & Hne & _).
      split; [intros H; now contradiction Hne|intros [H _]; discriminate H].
    + destruct (FindADoctorPage._normalize_zip
                  (Some (FindADoctorPage.first_of qp_zip))) as [z|] eqn:E'.
      * destruct (Hfive _ z E') as (_ & Hne & _).
        split; [intros H; now contradiction Hne|intros [_ H]; discriminate H].
      * split; auto.
Qed.

Lemma prefilled_zip_is_kept_witness :
  let box :=
    FindADoctorPage.initial_zip_box
      (FindADoctorPage._normalize_zip (Some " 33351-1234"%string))
      (FindADoctorPage.QList ["90210"%string]) in
  FindADoctorPage.zip_of_input box = box
  /\ box = "33351"%string
  /\ (box = ""%string
      <-> FindADoctorPage._normalize_zip (Some " 33351-1234"%string) = None
          /\ FindADoctorPage._normalize_zip
               (Some (FindADoctorPage.first_of
                        (FindADoctorPage.QList ["90210"%string]))) = None).
Proof.
  apply (@prefilled_zip_is_kept (Some " 33351-1234"%string)
           (FindADoctorPage.QList ["90210"%string])); reflexivity.
Defined.

(** X4: when [qp.get] gives a string, as [st.query_params] does, the page
    indexes that string and reads one character: a ZIP in the URL is
    never taken over.  When it gives a list, the first value is taken
    over if it is a ZIP. *)
Theorem url_zip_needs_list_values (session_zip : option string) :
  truthy_opt session_zip = false ->
  (forall s, FindADoctorPage.initial_zip_box session_zip
               (FindADoctorPage.QStr s) = ""%string)
  /\ (forall raw z rest,
        FindADoctorPage._normalize_zip (Some raw) = Some z ->
        FindADoctorPage.initial_zip_box session_zip
          (FindADoctorPage.QList (raw :: rest)) = z).
Proof.
  intros T. unfold FindADoctorPage.initial_zip_box. rewrite T. split.
  - intros s. rewrite normalize_zip_short; [reflexivity|].
    pose proof (first_of_qstr_length s). lia.
  - intros raw z rest E. cbn [FindADoctorPage.first_of]. rewrite E.
    destruct (normalize_zip_result _ E) as [Hl _].
    destruct z; [discriminate|reflexivity].
Qed.

Lemma url_zip_needs_list_values_witness :
  (forall s, FindADoctorPage.initial_zip_box None
               (FindADoctorPage.QStr s) = ""%string)
  /\ (forall raw z rest,
        FindADoctorPage._normalize_zip (Some raw) = Some z ->
        FindADoctorPage.initial_zip_box None
          (FindADoctorPage.QList (raw :: rest)) = z).
Proof.
  apply (@url_zip_needs_list_values None). reflexivity.
Defined.

(** X5: on ASCII input, a click on Search with a ZIP box that does not
    hold a ZIP stops with the warning and leaves the session as it is,
    whatever the postal table and the registry would answer; with a ZIP
    in the box, the search runs on its five digits. *)
Theorem search_button_checks_zip
  (query_postal_code : string -> outcome FindADoctor.PostalRow)
  (npi_api : string -> string -> string -> Z -> outcome FindADoctor.NpiResponse)
  (miles_fp : pyfloat -> pyfloat -> pyfloat -> pyfloat -> Q)
  (zip_input specialty_in : string) (radius_mi : Z) (s : FindADoctor.Session) :
  Re.ascii_text zip_input = true ->
  FindADoctorPage.search_button query_postal_code npi_api miles_fp
    zip_input specialty_in radius_mi s
  = match FindADoctorPage._normalize_zip (Some zip_input) with
    | None =>
        FindADoctor.Stopped
          (FindADoctor.Warning "Please enter a valid 5-digit ZIP.") s
    | Some z =>
        FindADoctor.search_clicked query_postal_code npi_api miles_fp
          z specialty_in radius_mi s
    end.
Proof.
  intros _.
  unfold FindADoctorPage.search_button, FindADoctorPage.zip_of_input.
  destruct (FindADoctorPage._normalize_zip (Some zip_input)) as [z|] eqn:E.
  - destruct (normalize_zip_result _ E) as [Hl _].
    destruct z; [discriminate|reflexivity].
  - reflexivity.
Qed.

Lemma search_button_checks_zip_witness :
  FindADoctorPage.search_button Demo.postal Demo.registry Demo.miles69
    "3335-1234" "Cardiology" 25 Demo.session_with_results
  = FindADoctor.Stopped
      (FindADoctor.Warning "Please enter a valid 5-digit ZIP.")
      Demo.session_with_results.
Proof.
  rewrite (@search_button_checks_zip Demo.postal Demo.registry Demo.miles69
             "3335-1234" "Cardiology" 25 Demo.session_with_results eq_refl).
  reflexivity.
Defined.

(** ** The result list *)

(** X6: when some candidate is within the radius, the result is exactly
    the candidates within the radius (each as often as it was found), in
    ascending order of distance with the name as tie-break, and candidates
    that tie in both keep the order the registry listed them in. *)
Theorem in_radius_result_filtered_sorted_stable
  (radius : Z) (state : string) (all_hits : list FindADoctor.Candidate) :
  filter (FindADoctor.within_radius radius) all_hits <> [] ->
  Permutation (fst (FindADoctor.finish radius state all_hits))
              (filter (FindADoctor.within_radius radius) all_hits)
  /\ Spec.ranked FindADoctor.sort_key
       (fst (FindADoctor.finish radius state all_hits)) = true
  /\ (forall c, In c (fst (FindADoctor.finish radius state all_hits))
                <-> In c all_hits /\ FindADoctor.within_radius radius c = true)
  /\ (forall k,
        filter (Spec.ties FindADoctor.sort_key k)
               (fst (FindADoctor.finish radius state all_hits))
        = filter (Spec.ties FindADoctor.sort_key k)
                 (filter (FindADoctor.within_radius radius) all_hits)).
Proof.
  intros H. rewrite finish_in_radius by assumption. cbn [fst].
  split; [apply sort_by_key_perm|]. split; [apply sort_by_key_ranked|].
  split.
  - intros c. rewrite sort_by_key_in. apply filter_In.
  - intros k. apply sort_by_key_stable.
Qed.

Lemma in_radius_result_filtered_sorted_stable_witness :
  Permutation (fst (FindADoctor.finish 25 "FL" Demo.hits))
              (filter (FindADoctor.within_radius 25) Demo.hits)
  /\ Spec.ranked FindADoctor.sort_key
       (fst (FindADoctor.finish 25 "FL" Demo.hits)) = true
  /\ (forall c, In c (fst (FindADoctor.finish 25 "FL" Demo.hits))
                <-> In c Demo.hits /\ FindADoctor.within_radius 25 c = true)
  /\ (forall k,
        filter (Spec.ties FindADoctor.sort_key k)
               (fst (FindADoctor.finish 25 "FL" Demo.hits))
        = filter (Spec.ties FindADoctor.sort_key k)
                 (filter (FindADoctor.within_radius 25) Demo.hits)).
Proof.
  apply (@in_radius_result_filtered_sorted_stable 25 "FL" Demo.hits).
  vm_compute. discriminate.
Defined.

Section EmptyResults.

Import FindADoctor.
Local Open Scope string_scope.
Local Open Scope list_scope.

Variable query_postal_code : string -> outcome PostalRow.
Variable npi_api : string -> string -> string -> Z -> outcome NpiResponse.
Variable miles_fp : pyfloat -> pyfloat -> pyfloat -> pyfloat -> Q.

Lemma finish_nil_iff (radius : Z) (state : string) (all_hits : list Candidate) :
  fst (finish radius state all_hits) = [] <-> all_hits = [].
Proof.
  split.
  - intros H. destruct (filter (within_radius radius) all_hits) eqn:E.
    + rewrite finish_fallback in H by assumption. exact H.
    + rewrite finish_in_radius in H by (rewrite E; discriminate).
      cbn [fst] in H. apply sort_by_key_nil in H. congruence.
  - intros ->. reflexivity.
Qed.

(** The loop over both sources, by what the two sources answer. *)
Lemma sources_loop_both (specialty_text state : string) (u_lat u_lon : pyfloat)
  (log : list string) :
  sources_loop query_postal_code npi_api miles_fp specialty_text state
    u_lat u_lon ["NPI-1"; "NPI-2"] [] log
  = match npi_api specialty_text state "NPI-1" 1200 with
    | Raise e => (Raise e, log ++ ["NPI-1"])
    | Return d1 =>
        match or_nil (results d1) with
        | r :: recs =>
            match rows_of query_postal_code miles_fp u_lat u_lon (r :: recs) with
            | Return rows => (Return rows, log ++ ["NPI-1"])
            | Raise e => (Raise e, log ++ ["NPI-1"])
            end
        | [] =>
            match npi_api specialty_text state "NPI-2" 1200 with
            | Raise e => (Raise e, log ++ ["NPI-1"; "NPI-2"])
            | Return d2 =>
                match or_nil (results d2) with
                | r :: recs =>
                    match rows_of query_postal_code miles_fp u_lat u_lon
                            (r :: recs) with
                    | Return rows => (Return rows, log ++ ["NPI-1"; "NPI-2"])
                    | Raise e => (Raise e, log ++ ["NPI-1"; "NPI-2"])
                    end
                | [] => (Return [], log ++ ["NPI-1"; "NPI-2"])
                end
            end
        end
    end.
Proof.
  destruct (npi_api specialty_text state "NPI-1" 1200) as [d1|e] eqn:H1.
  - destruct (or_nil (results d1)) as [|r recs] eqn:R1.
    + erewrite sources_loop_skip by eassumption.
      destruct (npi_api specialty_text state "NPI-2" 1200) as [d2|e2] eqn:H2.
      * destruct (or_nil (results d2)) as [|r2 recs2] eqn:R2.
        -- erewrite sources_loop_skip by eassumption. simpl.
           unfold ret. now rewrite <- app_assoc.
        -- erewrite sources_loop_hit by eassumption.
           destruct (rows_of query_postal_code miles_fp u_lat u_lon (r2 :: recs2));
             now rewrite <- app_assoc.
      * erewrite sources_loop_raise by eassumption. now rewrite <- app_assoc.
    + erewrite sources_loop_hit by eassumption. reflexivity.
  - erewrite sources_loop_raise by eassumption. reflexivity.
Qed.

End EmptyResults.

(** X7: after the origin is located, the search returns an empty list
    exactly when both sources answered without a record; its meta then
    counts zero candidates. *)
Theorem empty_result_iff_no_records
  (query_postal_code : string -> outcome FindADoctor.PostalRow)
  (npi_api : string -> string -> string -> Z -> outcome FindADoctor.NpiResponse)
  (miles_fp : pyfloat -> pyfloat -> pyfloat -> pyfloat -> Q)
  (user_zip : string) (radius : Z) (specialty_text : string)
  (log : list string) (u_lat u_lon : pyfloat) (state : string) :
  FindADoctor.geocode_zip query_postal_code user_zip
  = Return (Some (u_lat, u_lon, state)) ->
  truthy state = true ->
  ((exists meta,
       fst (FindADoctor.search_radius_by_state_then_filter query_postal_code
              npi_api miles_fp user_zip radius specialty_text log)
       = Return ([], meta))
   <-> (exists d1 d2,
          npi_api specialty_text state "NPI-1"%string 1200%Z = Return d1
          /\ or_nil (FindADoctor.results d1) = []
          /\ npi_api specialty_text state "NPI-2"%string 1200%Z = Return d2
          /\ or_nil (FindADoctor.results d2) = []))
  /\ (forall meta,
        fst (FindADoctor.search_radius_by_state_then_filter query_postal_code
               npi_api miles_fp user_zip radius specialty_text log)
        = Return ([], meta) ->
        meta = [("state", FindADoctor.MStr state);
                ("total_raw", FindADoctor.MInt 0)]%string).
Proof.
  intros Hg Hs.
  erewrite search_located by eassumption.
  rewrite sources_loop_both.
  destruct (npi_api specialty_text state "NPI-1"%string 1200%Z) as [d1|e1].
  2:{ split; [split|]; [intros [m H]; discriminate H
                       |intros (d1 & d2 & H & _); discriminate H
                       |intros m H; discriminate H]. }
  destruct (or_nil (FindADoctor.results d1)) as [|r recs] eqn:R1.
  - destruct (npi_api specialty_text state "NPI-2"%string 1200%Z) as [d2|e2].
    2:{ split; [split|]; [intros [m H]; discriminate H
                         |intros (d1' & d2 & _ & _ & H & _); discriminate H
                         |intros m H; discriminate H]. }
    destruct (or_nil (FindADoctor.results d2)) as [|r2 recs2] eqn:R2.
    + split; [split|].
      * intros _. exists d1, d2. auto.
      * intros _. eexists. reflexivity.
      * intros m H. unfold FindADoctor.finish in H. cbn in H. congruence.
    + destruct (FindADoctor.rows_of query_postal_code miles_fp u_lat u_lon
                  (r2 :: recs2)) as [rows|e] eqn:Hrows.
      * apply rows_of_nonempty in Hrows. cbn [fst].
        split; [split|].
        -- intros [m H]. exfalso. apply Hrows.
           apply (finish_nil_iff radius state).
           assert (E : FindADoctor.finish radius state rows = ([], m)) by congruence.
           now rewrite E.
        -- intros (d1' & d2' & _ & _ & E & R). congruence.
        -- intros m H. exfalso. apply Hrows.
           apply (finish_nil_iff radius state).
           assert (E : FindADoctor.finish radius state rows = ([], m)) by congruence.
           now rewrite E.
      * split; [split|]; [intros [m H]; discriminate H
                         |intros (d1' & d2' & _ & _ & E & R); congruence
                         |intros m H; discriminate H].
  - destruct (FindADoctor.rows_of query_postal_code miles_fp u_lat u_lon
                (r :: recs)) as [rows|e] eqn:Hrows.
    + apply rows_of_nonempty in Hrows. cbn [fst].
      split; [split|].
      * intros [m H]. exfalso. apply Hrows.
        apply (finish_nil_iff radius state).
           assert (E : FindADoctor.finish radius state rows = ([], m)) by congruence.
           now rewrite E.
      * intros (d1' & d2' & E & R & _). congruence.
      * intros m H. exfalso. apply Hrows.
        apply (finish_nil_iff radius state).
           assert (E : FindADoctor.finish radius state rows = ([], m)) by congruence.
           now rewrite E.
    + split; [split|]; [intros [m H]; discriminate H
                       |intros (d1' & d2' & E & R & _); congruence
                       |intros m H; discriminate H].
Qed.

Lemma empty_result_iff_no_records_witness :
  (exists meta,
      fst (FindADoctor.search_radius_by_state_then_filter Demo.postal
             Demo.registry_empty Demo.miles69 "33351" 25 "Cardiology" [])
      = Return ([], meta))
  /\ FindADoctor.search_clicked Demo.postal Demo.registry_empty Demo.miles69
       "33351" "Cardiology" 25 Demo.session_with_results
     = FindADoctor.Stopped
         (FindADoctor.InfoBox
            "No matches found. Try another specialty or a larger radius.")
         (FindADoctor.pop_providers Demo.session_with_results).
Proof.
  split; [|reflexivity].
  apply (proj1 (@empty_result_iff_no_records Demo.postal Demo.registry_empty
                  Demo.miles69 "33351" 25 "Cardiology" []
                  (Finite 26) (Finite (-80)) "FL" eq_refl eq_refl)).
  exists (FindADoctor.mkNpiResponse (Some [])),
         (FindADoctor.mkNpiResponse None).
  repeat split.
Defined.

(** X8: when the individuals source answers without a record and the
    organizations source has records, the search queries both, in that
    order, and its result is built from the organizations' records alone. *)
Theorem second_source_fills_in
  (query_postal_code : string -> outcome FindADoctor.PostalRow)
  (npi_api : string -> string -> string -> Z -> outcome FindADoctor.NpiResponse)
  (miles_fp : pyfloat -> pyfloat -> pyfloat -> pyfloat -> Q)
  (user_zip : string) (radius : Z) (specialty_text : string)
  (log : list string) (u_lat u_lon : pyfloat) (state : string)
  (d1 d2 : FindADoctor.NpiResponse) (r : FindADoctor.RawRecord)
  (recs : list FindADoctor.RawRecord) :
  FindADoctor.geocode_zip query_postal_code user_zip
  = Return (Some (u_lat, u_lon, state)) ->
  truthy state = true ->
  npi_api specialty_text state "NPI-1"%string 1200%Z = Return d1 ->
  or_nil (FindADoctor.results d1) = [] ->
  npi_api specialty_text state "NPI-2"%string 1200%Z = Return d2 ->
  or_nil (FindADoctor.results d2) = r :: recs ->
  FindADoctor.search_radius_by_state_then_filter query_postal_code npi_api
    miles_fp user_zip radius specialty_text log
  = match FindADoctor.rows_of query_postal_code miles_fp u_lat u_lon
            (r :: recs) with
    | Return rows =>
        (Return (FindADoctor.finish radius state rows),
         log ++ ["NPI-1"; "NPI-2"]%string)
    | Raise e => (Raise e, log ++ ["NPI-1"; "NPI-2"]%string)
    end.
Proof.
  intros Hg Hs H1 R1 H2 R2.
  erewrite search_located by eassumption.
  rewrite sources_loop_both, H1, R1, H2, R2.
  destruct (FindADoctor.rows_of query_postal_code miles_fp u_lat u_lon (r :: recs));
    reflexivity.
Qed.

Lemma second_source_fills_in_witness :
  FindADoctor.search_radius_by_state_then_filter Demo.postal
    Demo.registry_orgs_only Demo.miles69 "33351" 25 "Cardiology" []
  = match FindADoctor.rows_of Demo.postal Demo.miles69 (Finite 26) (Finite (-80))
            Demo.organizations with
    | Return rows =>
        (Return (FindADoctor.finish 25 "FL" rows), ["NPI-1"; "NPI-2"]%string)
    | Raise e => (Raise e, ["NPI-1"; "NPI-2"]%string)
    end.
Proof.
  apply (@second_source_fills_in Demo.postal Demo.registry_orgs_only
           Demo.miles69 "33351" 25 "Cardiology" [] (Finite 26) (Finite (-80))
           "FL" (FindADoctor.mkNpiResponse (Some []))
           (FindADoctor.mkNpiResponse (Some Demo.organizations))
           (Demo.organization "Heart Clinic" "33075") []);
    reflexivity.
Defined.

(** ** Rows *)

Section Rows.

Import FindADoctor.
Local Open Scope string_scope.

Lemma or_str_empty (s : string) : or_str s "" = s.
Proof. destruct s; reflexivity. Qed.

Lemma prefix_length (n : nat) (s : string) :
  (String.length (prefix n s) <= n)%nat.
Proof.
  unfold prefix. revert s. induction n as [|n IH]; intros [|c s]; simpl;
    try lia.
  specialize (IH s). lia.
Qed.

Lemma find_some_in {A} (f : A -> bool) (l : list A) (a : A) :
  find f l = Some a -> In a l /\ f a = true.
Proof. apply find_some. Qed.

Lemma pick_loc_facts (addrs : list Address) :
  (addrs <> [] -> In (pick_loc addrs) addrs)
  /\ ((exists a, In a addrs /\ is_location a = true) ->
      is_location (pick_loc addrs) = true)
  /\ ((forall a, In a addrs -> is_location a = false) ->
      pick_loc addrs = hd empty_address addrs).
Proof.
  unfold pick_loc. destruct (find is_location addrs) as [a|] eqn:F.
  - apply find_some in F. destruct F as [Hin Hloc].
    split; [auto|]. split; [auto|].
    intros Hnone. rewrite (Hnone a Hin) in Hloc. discriminate.
  - split; [|split].
    + destruct addrs; [congruence|]. intros _. now left.
    + intros (a & Hin & Hloc).
      pose proof (find_none _ _ F a Hin) as Hn. congruence.
    + intros _. destruct addrs; reflexivity.
Qed.

(** The address line 160 picks is the first one tagged as location. *)
Lemma pick_loc_first (before after : list Address) (a : Address) :
  (forall b, In b before -> is_location b = false) ->
  is_location a = true ->
  pick_loc (before ++ a :: after) = a.
Proof.
  intros Hb Ha. unfold pick_loc.
  assert (F : find is_location (before ++ a :: after) = Some a).
  { induction before as [|b before IH]; cbn [app find].
    - now rewrite Ha.
    - rewrite (Hb b) by now left. apply IH. intros b' Hb'. apply Hb. now right. }
  now rewrite F.
Qed.

End Rows.

(** X9: a record whose chosen address has no postal code (absent or
    empty) is normalised without any postal lookup: the row is returned
    whatever the postal table would do, with an empty ZIP and no distance,
    and it is within no radius. *)
Theorem row_without_postal_code
  (query_postal_code : string -> outcome FindADoctor.PostalRow)
  (miles_fp : pyfloat -> pyfloat -> pyfloat -> pyfloat -> Q)
  (u_lat u_lon : pyfloat) (rec : FindADoctor.RawRecord) :
  truthy_opt (FindADoctor.postal_code
                (FindADoctor.pick_loc (or_nil (FindADoctor.addresses rec))))
  = false ->
  exists c,
    FindADoctor.row_of query_postal_code miles_fp u_lat u_lon rec = Return c
    /\ FindADoctor.zip c = ""%string
    /\ FindADoctor.distance_mi c = None
    /\ forall radius, FindADoctor.within_radius radius c = false.
Proof.
  intros H. unfold FindADoctor.row_of.
  assert (Hz : prefix 5
                 (or_str (get_default
                            (FindADoctor.postal_code
                               (FindADoctor.pick_loc
                                  (or_nil (FindADoctor.addresses rec)))) "") "")
               = ""%string).
  { destruct (FindADoctor.postal_code _) as [[|c s]|]; simpl in *;
      try reflexivity; discriminate. }
  rewrite Hz. simpl. eexists. repeat split.
Qed.

Lemma row_without_postal_code_witness :
  exists c,
    FindADoctor.row_of Demo.postal_down Demo.miles69 (Finite 26) (Finite (-80))
      Demo.nameless = Return c
    /\ FindADoctor.zip c = ""%string
    /\ FindADoctor.distance_mi c = None
    /\ forall radius, FindADoctor.within_radius radius c = false.
Proof.
  apply (@row_without_postal_code Demo.postal_down Demo.miles69
           (Finite 26) (Finite (-80)) Demo.nameless).
  reflexivity.
Defined.

(** X10: the ZIP of a row is the first five characters of the postal code
    of one address of the record: the first address tagged "location" in
    any letter case when there is one (the addresses before it are not
    tagged so), else the first address. *)
Theorem row_zip_from_location_address
  (query_postal_code : string -> outcome FindADoctor.PostalRow)
  (miles_fp : pyfloat -> pyfloat -> pyfloat -> pyfloat -> Q)
  (u_lat u_lon : pyfloat) (rec : FindADoctor.RawRecord)
  (c : FindADoctor.Candidate) :
  FindADoctor.row_of query_postal_code miles_fp u_lat u_lon rec = Return c ->
  FindADoctor.zip c
  = prefix 5 (get_default
                (FindADoctor.postal_code
                   (FindADoctor.pick_loc (or_nil (FindADoctor.addresses rec))))
                "")
  /\ (String.length (FindADoctor.zip c) <= 5)%nat
  /\ (forall before a after,
        or_nil (FindADoctor.addresses rec) = (before ++ a :: after)%list ->
        (forall b, In b before -> FindADoctor.is_location b = false) ->
        FindADoctor.is_location a = true ->
        FindADoctor.pick_loc (or_nil (FindADoctor.addresses rec)) = a
        /\ FindADoctor.zip c
           = prefix 5 (get_default (FindADoctor.postal_code a) ""))
  /\ (forall a rest,
        or_nil (FindADoctor.addresses rec) = a :: rest ->
        (forall b, In b (a :: rest) -> FindADoctor.is_location b = false) ->
        FindADoctor.pick_loc (or_nil (FindADoctor.addresses rec)) = a
        /\ FindADoctor.zip c
           = prefix 5 (get_default (FindADoctor.postal_code a) ""))
  /\ (or_nil (FindADoctor.addresses rec) = [] ->
      FindADoctor.zip c = ""%string).
Proof.
  intros H. unfold FindADoctor.row_of in H.
  rewrite or_str_empty in H.
  destruct (if truthy _ then _ else _) as [latlon|e]; simpl in H;
    [|discriminate].
  injection H as <-. cbn [FindADoctor.zip].
  split; [reflexivity|]. split; [apply prefix_length|].
  split; [|split].
  - intros before a after E Hb Ha. rewrite E.
    rewrite (pick_loc_first before after a Hb Ha). auto.
  - intros a rest E Hnone.
    destruct (pick_loc_facts (or_nil (FindADoctor.addresses rec)))
      as (_ & _ & Hhd).
    rewrite E in Hhd |- *. rewrite (Hhd Hnone). auto.
  - intros E. rewrite E. reflexivity.
Qed.

Lemma row_zip_from_location_address_witness :
  FindADoctor.pick_loc
    (or_nil (FindADoctor.addresses (Demo.person "B" "330121234" "1000000001")))
  = (FindADoctor.mkAddress (Some "LOCATION") (Some "330121234")
       (Some "954-555-0100") (Some "1 Main St") None (Some "Sunrise")
       (Some "FL"))%string
  /\ FindADoctor.zip Demo.cand_B = "33012"%string.
Proof.
  destruct (@row_zip_from_location_address Demo.postal Demo.miles69
              (Finite 26) (Finite (-80))
              (Demo.person "B" "330121234" "1000000001") Demo.cand_B eq_refl)
    as (_ & _ & Hfirst & _).
  apply (Hfirst
           [FindADoctor.mkAddress (Some "MAILING") (Some "100010000") (Some "")
              None None None None]%string
           (FindADoctor.mkAddress (Some "LOCATION") (Some "330121234")
              (Some "954-555-0100") (Some "1 Main St") None (Some "Sunrise")
              (Some "FL"))%string
           []).
  - reflexivity.
  - intros b [<-|[]]. reflexivity.
  - reflexivity.
Defined.

(** ** Rounding and the radius *)

Section Rounding.

Local Open Scope Q_scope.

Lemma round_half_even_near (q : Q) :
  inject_Z (round_half_even q) - (1 # 2) <= q
  /\ q <= inject_Z (round_half_even q) + (1 # 2).
Proof.
  unfold round_half_even.
  pose proof (Qfloor_le q) as Hlo.
  pose proof (Qlt_floor q) as Hhi.
  rewrite inject_Z_plus in Hhi. change (inject_Z 1) with 1 in Hhi.
  destruct (Qcompare_spec (q - inject_Z (Qfloor q)) (1 # 2)) as [E|E|E].
  - destruct (Z.even (Qfloor q)).
    + split; Lqa.lra.
    + rewrite inject_Z_plus. change (inject_Z 1) with 1. split; Lqa.lra.
  - split; Lqa.lra.
  - rewrite inject_Z_plus. change (inject_Z 1) with 1. split; Lqa.lra.
Qed.

Lemma round_half_even_le (q : Q) (n : Z) :
  q <= inject_Z n -> (round_half_even q <= n)%Z.
Proof.
  intros H.
  assert (Hf : (Qfloor q <= n)%Z).
  { rewrite <- (Qfloor_Z n). now apply Qfloor_resp_le. }
  unfold round_half_even.
  assert (Hstep : (1 # 2) <= q - inject_Z (Qfloor q) -> (Qfloor q + 1 <= n)%Z).
  { intros Hhalf.
    destruct (Z.eq_dec (Qfloor q) n) as [Heq|Hne]; [|lia].
    exfalso. rewrite Heq in Hhalf. Lqa.lra. }
  destruct (Qcompare_spec (q - inject_Z (Qfloor q)) (1 # 2)) as [E|E|E].
  - destruct (Z.even (Qfloor q)); [assumption|].
    apply Hstep. Lqa.lra.
  - assumption.
  - apply Hstep. Lqa.lra.
Qed.

Lemma round_half_even_nonneg (q : Q) : 0 <= q -> (0 <= round_half_even q)%Z.
Proof.
  intros H.
  assert (Hf : (0 <= Qfloor q)%Z).
  { rewrite <- (Qfloor_Z 0). now apply Qfloor_resp_le. }
  unfold round_half_even.
  destruct (Qcompare (q - inject_Z (Qfloor q)) (1 # 2));
    [destruct (Z.even (Qfloor q))| |]; lia.
Qed.

Lemma round1_value (d : Q) :
  round1 d == inject_Z (round_half_even (d * 10)) / 10.
Proof. unfold round1. apply Qred_correct. Qed.

Lemma round1_near (d : Q) :
  round1 d - (1 # 20) <= d /\ d <= round1 d + (1 # 20).
Proof.
  rewrite round1_value.
  destruct (round_half_even_near (d * 10)) as [H1 H2].
  unfold Qdiv. change (/ 10) with (1 # 10).
  split; Lqa.lra.
Qed.

Lemma round1_le_int (d : Q) (n : Z) : d <= inject_Z n -> round1 d <= inject_Z n.
Proof.
  intros H. rewrite round1_value.
  assert (H10 : (round_half_even (d * 10) <= n * 10)%Z).
  { apply round_half_even_le. rewrite inject_Z_mult.
    change (inject_Z 10) with 10. Lqa.lra. }
  assert (Hq : inject_Z (round_half_even (d * 10)) <= inject_Z (n * 10))
    by (rewrite <- Zle_Qle; exact H10).
  rewrite inject_Z_mult in Hq. change (inject_Z 10) with 10 in Hq.
  unfold Qdiv. change (/ 10) with (1 # 10).
  Lqa.lra.
Qed.

Lemma round1_nonneg (d : Q) : 0 <= d -> 0 <= round1 d.
Proof.
  intros H. rewrite round1_value.
  assert (H0 : (0 <= round_half_even (d * 10))%Z)
    by (apply round_half_even_nonneg; Lqa.lra).
  assert (Hq : inject_Z 0 <= inject_Z (round_half_even (d * 10)))
    by (rewrite <- Zle_Qle; exact H0).
  change (inject_Z 0) with 0 in Hq.
  unfold Qdiv. change (/ 10) with (1 # 10). Lqa.lra.
Qed.

End Rounding.

(** X11: for a candidate whose stored distance is the rounding of the
    distance [d]: the stored distance is a whole number of tenths, within
    0.05 of [d] and not negative when [d] is not; the radius test never
    rejects a candidate with [d] within the radius, and a candidate it
    accepts has [d] at most 0.05 beyond the radius. *)
Theorem radius_test_tolerance (d : Q) (radius : Z) (c : FindADoctor.Candidate) :
  FindADoctor.distance_mi c = Some (round1 d) ->
  (exists k : Z, round1 d == inject_Z k / 10)%Q
  /\ (round1 d - (1 # 20) <= d /\ d <= round1 d + (1 # 20))%Q
  /\ (0 <= d -> 0 <= round1 d)%Q
  /\ ((d <= inject_Z radius)%Q -> FindADoctor.within_radius radius c = true)
  /\ (FindADoctor.within_radius radius c = true ->
      (d <= inject_Z radius + (1 # 20))%Q).
Proof.
  intros Hd. split; [eexists; apply round1_value|].
  split; [apply round1_near|]. split; [apply round1_nonneg|].
  unfold FindADoctor.within_radius. rewrite Hd. split.
  - intros H. apply Qle_bool_iff. now apply round1_le_int.
  - intros H. apply Qle_bool_iff in H.
    destruct (round1_near d) as [_ H2]. Lqa.lra.
Qed.

Lemma radius_test_tolerance_witness :
  (exists k : Z, round1 (2504 # 100) == inject_Z k / 10)%Q
  /\ (round1 (2504 # 100) - (1 # 20) <= 2504 # 100
      /\ 2504 # 100 <= round1 (2504 # 100) + (1 # 20))%Q
  /\ (0 <= 2504 # 100 -> 0 <= round1 (2504 # 100))%Q
  /\ ((2504 # 100 <= inject_Z 25)%Q
      -> FindADoctor.within_radius 25 Demo.cand_E = true)
  /\ (FindADoctor.within_radius 25 Demo.cand_E = true ->
      (2504 # 100 <= inject_Z 25 + (1 # 20))%Q).
Proof.
  apply (@radius_test_tolerance (2504 # 100) 25 Demo.cand_E). reflexivity.
Defined.

(** ** The session across a search, a selection and the booking page *)

Section SessionEffects.

Import FindADoctor.
Local Open Scope string_scope.

Variable query_postal_code : string -> outcome PostalRow.
Variable npi_api : string -> string -> string -> Z -> outcome NpiResponse.
Variable miles_fp : pyfloat -> pyfloat -> pyfloat -> pyfloat -> Q.

(** The ways a click on Search can end, with the search it ran. *)
Lemma search_clicked_cases (zip_code specialty_in : string) (radius_mi : Z)
  (s : Session) :
  (exists msg, search_clicked query_postal_code npi_api miles_fp zip_code
                 specialty_in radius_mi s = Stopped (Warning msg) s)
  \/ (exists msg, search_clicked query_postal_code npi_api miles_fp zip_code
                    specialty_in radius_mi s = Stopped (ErrorBox msg) s)
  \/ (exists e, search_clicked query_postal_code npi_api miles_fp zip_code
                  specialty_in radius_mi s = Crashed e)
  \/ (exists msg meta,
        search_clicked query_postal_code npi_api miles_fp zip_code
          specialty_in radius_mi s = Stopped (InfoBox msg) (pop_providers s)
        /\ fst (search_radius_by_state_then_filter query_postal_code npi_api
                  miles_fp zip_code radius_mi (strip specialty_in) [])
           = Return ([], meta))
  \/ (exists c found meta,
        search_clicked query_postal_code npi_api miles_fp zip_code
          specialty_in radius_mi s
        = Continues (_store_results (c :: found) meta zip_code radius_mi
                       (strip specialty_in) s)
        /\ fst (search_radius_by_state_then_filter query_postal_code npi_api
                  miles_fp zip_code radius_mi (strip specialty_in) [])
           = Return (c :: found, meta)).
Proof.
  unfold search_clicked.
  destruct (truthy zip_code); cbn [negb]; [|left; eauto].
  destruct (truthy (strip specialty_in)); cbn [negb]; [|left; eauto].
  destruct (fst (search_radius_by_state_then_filter query_postal_code npi_api
                   miles_fp zip_code radius_mi (strip specialty_in) []))
    as [[[|c found] meta]|[msg|msg|msg]].
  - right. right. right. left. eauto.
  - right. right. right. right. eauto 6.
  - right. left. eauto.
  - right. left. eauto.
  - right. right. left. eauto.
Qed.

(** A run that ends in an exception: the search raised it, and it is
    none of the two the handler catches. *)
Lemma search_clicked_crash (zip_code specialty_in : string) (radius_mi : Z)
  (s : Session) (e : exn) :
  search_clicked query_postal_code npi_api miles_fp zip_code specialty_in
    radius_mi s = Crashed e ->
  (exists msg, e = PyException msg)
  /\ fst (search_radius_by_state_then_filter query_postal_code npi_api
            miles_fp zip_code radius_mi (strip specialty_in) [])
     = Raise e.
Proof.
  unfold search_clicked.
  destruct (truthy zip_code); cbn [negb]; [|discriminate].
  destruct (truthy (strip specialty_in)); cbn [negb]; [|discriminate].
  destruct (fst (search_radius_by_state_then_filter query_postal_code npi_api
                   miles_fp zip_code radius_mi (strip specialty_in) []))
    as [[[|c found] meta]|[msg|msg|msg]]; try discriminate.
  intros H. injection H as <-. split; [now exists msg|reflexivity].
Qed.

End SessionEffects.

(** X12: what a click on Search does to the session.  It leaves the
    session exactly as it was when it shows a warning or a request error;
    it removes the stored result while keeping the selected provider when
    it finds nothing; it stores a result list that is not empty, with the
    selection cleared and the radio back on row 0, when it finds
    something.  The only other end is an exception of the search that is
    neither an HTTP error nor a request error, which the handler does not
    catch; the session of such a run is not modelled. *)
Theorem search_click_session_effects
  (query_postal_code : string -> outcome FindADoctor.PostalRow)
  (npi_api : string -> string -> string -> Z -> outcome FindADoctor.NpiResponse)
  (miles_fp : pyfloat -> pyfloat -> pyfloat -> pyfloat -> Q)
  (zip_code specialty_in : string) (radius_mi : Z) (s : FindADoctor.Session) :
  match FindADoctor.search_clicked query_postal_code npi_api miles_fp
          zip_code specialty_in radius_mi s with
  | FindADoctor.Stopped (FindADoctor.InfoBox _) s' =>
      FindADoctor.providers s' = None
      /\ FindADoctor.providers_meta s' = None
      /\ FindADoctor.selected_doctor s' = FindADoctor.selected_doctor s
  | FindADoctor.Stopped _ s' => s' = s
  | FindADoctor.Crashed e =>
      (exists msg, e = PyException msg)
      /\ fst (FindADoctor.search_radius_by_state_then_filter query_postal_code
                npi_api miles_fp zip_code radius_mi (strip specialty_in) [])
         = Raise e
  | FindADoctor.Continues s' =>
      (exists c found, FindADoctor.providers s' = Some (c :: found))
      /\ FindADoctor.selected_doctor s' = None
      /\ FindADoctor.provider_radio s' = Some 0%nat
      /\ FindADoctor.search_zip s' = Some zip_code
      /\ FindADoctor.symptoms_input s' = FindADoctor.symptoms_input s
      /\ FindADoctor.condition_summary s' = FindADoctor.condition_summary s
  end.
Proof.
  destruct (search_clicked_cases query_postal_code npi_api miles_fp zip_code
              specialty_in radius_mi s)
    as [[msg H]|[[msg H]|[[e H]|[(msg & meta & H & _)|(c & found & meta & H & _)]]]];
    rewrite H; simpl; eauto 10.
  exact (search_clicked_crash query_postal_code npi_api miles_fp zip_code
           specialty_in radius_mi s H).
Qed.

(** X13: a selection leaves the stored result as it is, and of two
    selections in a row only the second counts. *)
Theorem last_selection_wins (i j : nat) (s s1 : FindADoctor.Session) :
  FindADoctor.select_provider i s = Return s1 ->
  FindADoctor.providers s1 = FindADoctor.providers s
  /\ FindADoctor.providers_meta s1 = FindADoctor.providers_meta s
  /\ FindADoctor.select_provider j s1 = FindADoctor.select_provider j s.
Proof.
  unfold FindADoctor.select_provider.
  destruct (FindADoctor.providers s) as [found|] eqn:P.
  - destruct i as [|i].
    + intros H. injection H as <-. simpl. auto.
    + destruct (nth_error found i) as [c|]; [|discriminate].
      intros H. injection H as <-. simpl. auto.
  - intros H. injection H as <-. rewrite P. auto.
Qed.

Lemma last_selection_wins_witness :
  FindADoctor.providers
    (FindADoctor.mkSession (Some Demo.hits)
       (Some [("state"%string, FindADoctor.MStr "FL");
              ("total_raw"%string, FindADoctor.MInt 4)])
       (Some "33351"%string) (Some 5%Z) (Some "Cardiology"%string)
       (Some 2%nat) (Some Demo.cand_A)
       (Some "chest pain"%string) (Some "angina"%string))
  = FindADoctor.providers Demo.session_with_results
  /\ FindADoctor.select_provider 3 (FindADoctor.mkSession (Some Demo.hits)
       (Some [("state"%string, FindADoctor.MStr "FL");
              ("total_raw"%string, FindADoctor.MInt 4)])
       (Some "33351"%string) (Some 5%Z) (Some "Cardiology"%string)
       (Some 2%nat) (Some Demo.cand_A)
       (Some "chest pain"%string) (Some "angina"%string))
    = FindADoctor.select_provider 3 Demo.session_with_results.
Proof.
  destruct (@last_selection_wins 2 3 Demo.session_with_results _ eq_refl)
    as (H1 & _ & H3).
  split; assumption.
Defined.

(** X14: from a click on Search through a selection to the booking page:
    the provider the booking page shows is the candidate at the chosen row
    of the list that very search returned. *)
Theorem booked_provider_is_a_search_result
  (query_postal_code : string -> outcome FindADoctor.PostalRow)
  (npi_api : string -> string -> string -> Z -> outcome FindADoctor.NpiResponse)
  (miles_fp : pyfloat -> pyfloat -> pyfloat -> pyfloat -> Q)
  (zip_input specialty_in : string) (radius_mi : Z) (idx : nat)
  (s s1 s2 : FindADoctor.Session) (c : FindADoctor.Candidate)
  (h : BookAppointment.Header) :
  FindADoctorPage.search_button query_postal_code npi_api miles_fp
    zip_input specialty_in radius_mi s = FindADoctor.Continues s1 ->
  FindADoctor.select_provider idx s1 = Return s2 ->
  BookAppointment.book_appointment s2 = BookAppointment.Booking c h ->
  exists found meta,
    fst (FindADoctor.search_radius_by_state_then_filter query_postal_code
           npi_api miles_fp (FindADoctorPage.zip_of_input zip_input)
           radius_mi (strip specialty_in) [])
    = Return (found, meta)
    /\ (1 <= idx <= List.length found)%nat
    /\ nth_error found (idx - 1) = Some c
    /\ In c found
    /\ BookAppointment.doc_name h = FindADoctor.name c
    /\ BookAppointment.doc_npi h = FindADoctor.npi c.
Proof.
  unfold FindADoctorPage.search_button. intros Hsearch Hsel Hbook.
  destruct (search_clicked_cases query_postal_code npi_api miles_fp
              (FindADoctorPage.zip_of_input zip_input) specialty_in radius_mi s)
    as [[msg H]|[[msg H]|[[e H]|[(msg & meta & H & _)|(c0 & found & meta & H & Hret)]]]];
    rewrite H in Hsearch; try discriminate.
  injection Hsearch as <-.
  exists (c0 :: found), meta. split; [exact Hret|].
  unfold FindADoctor.select_provider in Hsel.
  cbn [FindADoctor._store_results FindADoctor.providers] in Hsel.
  destruct idx as [|i].
  - injection Hsel as <-. discriminate Hbook.
  - destruct (nth_error (c0 :: found) i) as [c'|] eqn:E; [|discriminate].
    injection Hsel as <-.
    unfold BookAppointment.book_appointment in Hbook.
    cbn [FindADoctor.selected_doctor] in Hbook.
    destruct (_ || _); [discriminate|].
    injection Hbook as <- <-.
    replace (S i - 1)%nat with i by lia.
    assert (Hlt : (i < List.length (c0 :: found))%nat)
      by (apply nth_error_Some; congruence).
    split; [lia|]. split; [exact E|].
    split; [eapply nth_error_In; exact E|]. split; reflexivity.
Qed.

Lemma booked_provider_is_a_search_result_witness :
  exists found meta,
    fst (FindADoctor.search_radius_by_state_then_filter Demo.postal
           Demo.registry Demo.miles69
           (FindADoctorPage.zip_of_input " 33351-0001") 25
           (strip "Cardiology") [])
    = Return (found, meta)
    /\ (1 <= 2 <= List.length found)%nat
    /\ nth_error found (2 - 1) = Some Demo.cand_D
    /\ In Demo.cand_D found
    /\ BookAppointment.doc_name
         (BookAppointment.mkHeader "D" "Cardiology" "954-555-0100"
            "1 Main St , Sunrise, FL 33075" (Some "1000000004"%string)
            "33075" (Some (15 # 2)))
       = FindADoctor.name Demo.cand_D
    /\ BookAppointment.doc_npi
         (BookAppointment.mkHeader "D" "Cardiology" "954-555-0100"
            "1 Main St , Sunrise, FL 33075" (Some "1000000004"%string)
            "33075" (Some (15 # 2)))
       = FindADoctor.npi Demo.cand_D.
Proof.
  eapply (@booked_provider_is_a_search_result Demo.postal Demo.registry
            Demo.miles69 " 33351-0001" "Cardiology" 25 2 Demo.empty_session).
  - reflexivity.
  - reflexivity.
  - reflexivity.
Defined.

(** ** The labs page: locating the ZIP *)

Section LabsGeocode.

Import FindADoctor.

Variable query_postal_code : string -> outcome PostalRow.

(** The two geocoders side by side. *)
Lemma labs_geocode_cases (z : string) :
  match geocode_zip query_postal_code z,
        LabsPage.geocode_zip query_postal_code z with
  | Return (Some (lat, lon, _)), Return (Some (lat', lon')) =>
      lat = lat' /\ lon = lon'
  | Return None, Return None => True
  | Return None, Return (Some _) =>
      exists rec, query_postal_code z = Return rec /\ state_code rec = StateNaN
  | Raise e, Raise e' => e = e'
  | _, _ => False
  end.
Proof.
  unfold geocode_zip, LabsPage.geocode_zip.
  destruct (query_postal_code z) as [rec|e] eqn:Hq; simpl; [|reflexivity].
  destruct (latitude rec) as [lat|]; simpl; [|exact I].
  destruct (longitude rec) as [lon|]; simpl; [|exact I].
  destruct (isnan lat || isnan lon); simpl; [exact I|].
  destruct (state_code rec) eqn:Hs; simpl; auto.
  exists rec. auto.
Qed.

End LabsGeocode.

(** X15: the labs page and the doctor page locate a ZIP alike.  On the
    same postal table both fail with the same error, or both find nothing,
    or both find the same coordinates; the one difference is a row whose
    state is NaN, which the labs page locates and the doctor page does
    not. *)
Theorem labs_geocoder_agrees_with_doctor_geocoder
  (query_postal_code : string -> outcome FindADoctor.PostalRow) (z : string) :
  match FindADoctor.geocode_zip query_postal_code z,
        LabsPage.geocode_zip query_postal_code z with
  | Return (Some (lat, lon, _)), Return (Some (lat', lon')) =>
      lat = lat' /\ lon = lon'
  | Return None, Return None => True
  | Return None, Return (Some _) =>
      exists rec,
        query_postal_code z = Return rec
        /\ FindADoctor.state_code rec = FindADoctor.StateNaN
  | Raise e, Raise e' => e = e'
  | _, _ => False
  end.
Proof. apply labs_geocode_cases. Qed.

(** ** The labs page: details and cards *)

Section LabsCards.

Import LabsNearby.
Import LabsPage.

Variable place_details : string -> outcome Details.

(** The dict after the loop: the ids requested, each with what the
    service answered. *)
Lemma dict_get_fetch (picked : list Item) :
  forall (d0 : details_dict) (pid : string),
    dict_get pid (fetch_details place_details picked d0)
    = if existsb (LabsSpec.requested pid) picked
      then Some (LabsSpec.details_or_empty place_details pid)
      else dict_get pid d0.
Proof.
  induction picked as [|x rest IH]; intros d0 pid; [reflexivity|].
  simpl. unfold LabsSpec.requested at 1.
  destruct (truthy_opt (item_place_id x)) eqn:T; simpl.
  - assert (E : forall d, dict_get pid (dict_set (get_default (item_place_id x) "") d d0)
                     = if String.eqb pid (get_default (item_place_id x) "")
                       then Some d else dict_get pid d0) by reflexivity.
    destruct (String.eqb pid (get_default (item_place_id x) "")) eqn:Q; simpl.
    + apply String.eqb_eq in Q. subst pid.
      destruct (place_details (get_default (item_place_id x) "")) as [d|e] eqn:P;
        rewrite IH, E; unfold LabsSpec.details_or_empty; rewrite P;
        destruct (existsb _ rest); reflexivity.
    + destruct (place_details (get_default (item_place_id x) "")) as [d|e];
        rewrite IH, E; reflexivity.
  - apply IH.
Qed.

Lemma requested_self (x : Item) (pid : string) :
  item_place_id x = Some pid -> truthy pid = true ->
  LabsSpec.requested pid x = true.
Proof.
  intros H T. unfold LabsSpec.requested. rewrite H. simpl.
  rewrite T, String.eqb_refl. reflexivity.
Qed.

Lemma requested_truthy (x : Item) (pid : string) :
  LabsSpec.requested pid x = true -> truthy pid = true.
Proof.
  unfold LabsSpec.requested. intros H. apply andb_prop in H.
  destruct H as [T Q]. apply String.eqb_eq in Q. subst pid.
  destruct (item_place_id x); [exact T|discriminate T].
Qed.

(** A card is made from its own place's answer. *)
Lemma enrich_own_details (picked : list Item) (x : Item) :
  In x picked ->
  enrich (fetch_details place_details picked []) x
  = enrich (match item_place_id x with
            | Some pid =>
                if truthy pid
                then [(pid, LabsSpec.details_or_empty place_details pid)]
                else []
            | None => []
            end) x.
Proof.
  intros Hin. unfold enrich.
  destruct (item_place_id x) as [pid|] eqn:Hid; [|reflexivity].
  rewrite dict_get_fetch.
  destruct (truthy pid) eqn:T.
  - assert (Hex : existsb (LabsSpec.requested pid) picked = true).
    { apply existsb_exists. exists x. split; [exact Hin|].
      now apply requested_self. }
    rewrite Hex. simpl. rewrite String.eqb_refl. reflexivity.
  - assert (Hex : existsb (LabsSpec.requested pid) picked = false).
    { destruct (existsb (LabsSpec.requested pid) picked) eqn:Hex; [|reflexivity].
      apply existsb_exists in Hex. destruct Hex as (y & _ & Hy).
      apply requested_truthy in Hy. congruence. }
    rewrite Hex. reflexivity.
Qed.

(** Without details a card shows what the nearby search gave. *)
Lemma enrich_no_details (d : details_dict) (x : Item) :
  match item_place_id x with
  | Some pid => dict_get pid d = None \/ dict_get pid d = Some no_details
  | None => True
  end ->
  enrich d x
  = mkEnriched (item_place_id x) (name x) (address x) (distance_mi x)
               (open_now x) (maps_url x) "" "" "" [] false.
Proof.
  unfold enrich. destruct (item_place_id x) as [pid|]; [|reflexivity].
  intros [-> | ->]; reflexivity.
Qed.

Lemma enrich_key (d : details_dict) (x : Item) :
  enriched_key (enrich d x) = item_key x.
Proof. reflexivity. Qed.

End LabsCards.

(** X16: every card of the labs page is made from the details of its own
    place.  After the loop that fills [details_by_id], enriching a picked
    item reads the answer the details service gave for that item's id
    (the empty dict when the request failed), and nothing at all when the
    item has no id. *)
Theorem card_uses_its_own_place_details
  (place_details : string -> outcome LabsPage.Details)
  (picked : list LabsNearby.Item) (x : LabsNearby.Item) :
  In x picked ->
  LabsPage.enrich (LabsPage.fetch_details place_details picked []) x
  = LabsPage.enrich
      (match LabsNearby.item_place_id x with
       | Some pid =>
           if truthy pid
           then [(pid, LabsSpec.details_or_empty place_details pid)]
           else []
       | None => []
       end) x.
Proof. apply enrich_own_details. Qed.

Lemma card_uses_its_own_place_details_witness :
  In DemoLabs.quest [DemoLabs.quest; DemoLabs.labcorp]
  /\ LabsPage.enrich
       (LabsPage.fetch_details DemoLabs.details_p1_only
          [DemoLabs.quest; DemoLabs.labcorp] []) DemoLabs.quest
     = LabsPage.enrich
         [("p1"%string,
           LabsSpec.details_or_empty DemoLabs.details_p1_only "p1"%string)]
         DemoLabs.quest.
Proof.
  split; [simpl; auto|].
  apply (card_uses_its_own_place_details DemoLabs.details_p1_only
           [DemoLabs.quest; DemoLabs.labcorp] DemoLabs.quest).
  simpl. auto.
Defined.

(** X17: a failed details request costs a card only the details.  When
    the request for an item's place fails, the card keeps the address, the
    open flag and the map link of the nearby search, has no phone, no
    call link, no website and no hours, and is not marked as open around
    the clock. *)
Theorem failed_details_fall_back_to_nearby_data
  (place_details : string -> outcome LabsPage.Details)
  (picked : list LabsNearby.Item) (x : LabsNearby.Item) :
  (forall pid, LabsNearby.item_place_id x = Some pid ->
               exists e, place_details pid = Raise e) ->
  LabsPage.enrich (LabsPage.fetch_details place_details picked []) x
  = LabsPage.mkEnriched (LabsNearby.item_place_id x) (LabsNearby.name x)
      (LabsNearby.address x) (LabsNearby.distance_mi x) (LabsNearby.open_now x)
      (LabsNearby.maps_url x) "" "" "" [] false.
Proof.
  intros H. apply enrich_no_details.
  destruct (LabsNearby.item_place_id x) as [pid|]; [|exact I].
  rewrite dict_get_fetch.
  destruct (existsb (LabsSpec.requested pid) picked); [right|left; reflexivity].
  destruct (H pid eq_refl) as [e He].
  unfold LabsSpec.details_or_empty. rewrite He. reflexivity.
Qed.

Lemma failed_details_fall_back_to_nearby_data_witness :
  LabsPage.enrich
    (LabsPage.fetch_details DemoLabs.details_p1_only
       [DemoLabs.quest; DemoLabs.labcorp] []) DemoLabs.labcorp
  = LabsPage.mkEnriched (Some "p2"%string) "LabCorp" "2 Oak Ave" (Some (25 # 10))
      None "https://www.google.com/maps/place/?q=place_id:p2" "" "" "" [] false.
Proof.
  apply (failed_details_fall_back_to_nearby_data DemoLabs.details_p1_only
           [DemoLabs.quest; DemoLabs.labcorp] DemoLabs.labcorp).
  intros pid H. injection H as <-.
  exists (RequestException "timeout"). reflexivity.
Defined.

(** ** Order and size of the tabs *)

Section Sublists.

Variable A : Type.
Variable key : A -> Q * string.

Lemma forallb_firstn (p : A -> bool) (n : nat) (l : list A) :
  forallb p l = true -> forallb p (firstn n l) = true.
Proof.
  revert n. induction l as [|x l IH]; intros [|n]; simpl; auto.
  intros H. apply andb_prop in H. destruct H as [-> H]. simpl. auto.
Qed.

Lemma forallb_filter (p f : A -> bool) (l : list A) :
  forallb p l = true -> forallb p (filter f l) = true.
Proof.
  induction l as [|x l IH]; simpl; auto.
  intros H. apply andb_prop in H. destruct H as [Hx H].
  destruct (f x); simpl; [rewrite Hx|]; auto.
Qed.

Lemma ranked_firstn (n : nat) (l : list A) :
  Spec.ranked key l = true -> Spec.ranked key (firstn n l) = true.
Proof.
  revert n. induction l as [|x l IH]; intros [|n]; simpl; auto.
  intros H. apply andb_prop in H. destruct H as [Hx H].
  rewrite (forallb_firstn _ n _ Hx), (IH n H). reflexivity.
Qed.

Lemma ranked_filter (f : A -> bool) (l : list A) :
  Spec.ranked key l = true -> Spec.ranked key (filter f l) = true.
Proof.
  induction l as [|x l IH]; simpl; auto.
  intros H. apply andb_prop in H. destruct H as [Hx H].
  destruct (f x); simpl; [|auto].
  rewrite (forallb_filter _ f _ Hx), (IH H). reflexivity.
Qed.

Lemma firstn_min_length (n : nat) (l : list A) :
  firstn (Nat.min n (List.length l)) l = firstn n l.
Proof.
  revert n. induction l as [|x l IH]; intros [|n]; simpl; auto.
  now rewrite IH.
Qed.

Lemma firstn_twice (i j : nat) (l : list A) :
  firstn i (firstn j l) = firstn (Nat.min i j) l.
Proof.
  revert i j. induction l as [|x l IH]; intros [|i] [|j]; simpl; auto.
  now rewrite IH.
Qed.

End Sublists.

Lemma ranked_map {A B} (key : A -> Q * string) (key' : B -> Q * string)
  (f : A -> B) (l : list A) :
  (forall x, key' (f x) = key x) ->
  Spec.ranked key' (map f l) = Spec.ranked key l.
Proof.
  intros Hk. induction l as [|x l IH]; simpl; [reflexivity|].
  rewrite IH. f_equal.
  clear IH. induction l as [|y l IH]; simpl; [reflexivity|].
  rewrite IH. unfold Spec.precedes. now rewrite !Hk.
Qed.

Section LabsTabs.

Import LabsNearby.
Import LabsPage.

Variable place_details : string -> outcome Details.

Lemma detail_take_covers (n how_many : nat) :
  Nat.min how_many (detail_take n how_many) = Nat.min how_many n.
Proof. unfold detail_take. lia. Qed.

(** The All tab is the head of the sorted list, enriched. *)
Lemma tab_all_head (base : list Item) (how_many : nat) :
  tab_all (enriched_of place_details base how_many) how_many
  = map (enrich (fetch_details place_details
                   (firstn (detail_take (List.length base) how_many) base) []))
        (firstn how_many base).
Proof.
  unfold tab_all, shown, enriched_of. cbv zeta.
  rewrite firstn_map, firstn_twice, detail_take_covers.
  now rewrite firstn_min_length.
Qed.

Lemma enriched_of_ranked (base : list Item) (how_many : nat) :
  Spec.ranked item_key base = true ->
  Spec.ranked enriched_key (enriched_of place_details base how_many) = true.
Proof.
  intros H. unfold enriched_of. cbv zeta.
  rewrite (ranked_map item_key enriched_key); [|intros; apply enrich_key].
  now apply ranked_firstn.
Qed.

Lemma shown_length (items : list Enriched) (limit : nat) :
  (List.length (shown items limit) <= limit)%nat.
Proof. unfold shown. rewrite length_firstn. lia. Qed.

Lemma shown_in (items : list Enriched) (limit : nat) (c : Enriched) :
  In c (shown items limit) -> In c items.
Proof.
  unfold shown. intros H.
  rewrite <- (firstn_skipn limit items). apply in_or_app. now left.
Qed.

End LabsTabs.

(** X18: the All tab shows the nearest labs.  Its cards are the first
    [how_many] items of the sorted list, one card an item and in the same
    order, each with the id, name and distance of its item: the number of
    details fetched is never smaller than the number of cards. *)
Theorem all_tab_shows_the_nearest
  (haversine_fp : pyfloat -> pyfloat -> pyfloat -> pyfloat -> Q)
  (quote_plus : string -> string)
  (place_details : string -> outcome LabsPage.Details)
  (raw : list LabsNearby.RawPlace) (user_lat user_lon : pyfloat)
  (how_many : nat) :
  let base :=
    LabsNearby.base_items haversine_fp quote_plus raw user_lat user_lon in
  let cards :=
    LabsPage.tab_all (LabsPage.enriched_of place_details base how_many) how_many in
  map LabsPage.e_place_id cards
  = map LabsNearby.item_place_id (firstn how_many base)
  /\ map LabsPage.e_name cards = map LabsNearby.name (firstn how_many base)
  /\ map LabsPage.e_distance_mi cards
     = map LabsNearby.distance_mi (firstn how_many base)
  /\ List.length cards = Nat.min how_many (List.length base)
  /\ Spec.ranked LabsPage.enriched_key cards = true.
Proof.
  intros base cards. unfold cards. rewrite tab_all_head.
  rewrite !map_map, length_map, length_firstn.
  repeat (split; [reflexivity|]).
  rewrite (ranked_map LabsNearby.item_key LabsPage.enriched_key);
    [|intros; apply enrich_key].
  apply ranked_firstn. apply base_items_ranked.
Qed.

(** X19: the Open-now tab and the 24-hours tab keep the order by
    distance.  Each shows at most [how_many] cards, nearest first; every
    card of the first is open now and every card of the second is marked
    as open around the clock; and every card is one of the enriched
    items, so a lab beyond the places whose details were fetched is on
    neither tab. *)
Theorem filtered_tabs_keep_distance_order
  (haversine_fp : pyfloat -> pyfloat -> pyfloat -> pyfloat -> Q)
  (quote_plus : string -> string)
  (place_details : string -> outcome LabsPage.Details)
  (raw : list LabsNearby.RawPlace) (user_lat user_lon : pyfloat)
  (how_many : nat) :
  let base :=
    LabsNearby.base_items haversine_fp quote_plus raw user_lat user_lon in
  let enriched := LabsPage.enriched_of place_details base how_many in
  (Spec.ranked LabsPage.enriched_key (LabsPage.tab_open enriched how_many) = true
   /\ (List.length (LabsPage.tab_open enriched how_many) <= how_many)%nat
   /\ forall c, In c (LabsPage.tab_open enriched how_many) ->
                LabsPage.e_open_now c = Some true /\ In c enriched)
  /\ (Spec.ranked LabsPage.enriched_key (LabsPage.tab_24 enriched how_many) = true
      /\ (List.length (LabsPage.tab_24 enriched how_many) <= how_many)%nat
      /\ forall c, In c (LabsPage.tab_24 enriched how_many) ->
                   LabsPage.is_24h c = true /\ In c enriched).
Proof.
  intros base enriched.
  assert (R : Spec.ranked LabsPage.enriched_key enriched = true).
  { apply enriched_of_ranked. apply base_items_ranked. }
  split; (split; [|split]).
  - unfold LabsPage.tab_open, LabsPage.shown.
    apply ranked_firstn, ranked_filter, R.
  - apply shown_length.
  - intros c Hc. unfold LabsPage.tab_open in Hc. apply shown_in in Hc.
    apply filter_In in Hc. destruct Hc as [Hin Hopen]. split; [|exact Hin].
    destruct (LabsPage.e_open_now c) as [[|]|]; try discriminate. reflexivity.
  - unfold LabsPage.tab_24, LabsPage.shown.
    apply ranked_firstn, ranked_filter, R.
  - apply shown_length.
  - intros c Hc. unfold LabsPage.tab_24 in Hc. apply shown_in in Hc.
    apply filter_In in Hc. destruct Hc as [Hin H24]. auto.
Qed.

(** ** The call link *)

Section CallLink.

Lemma keep_dial_chars_dialable (s : string) :
  Re.all_chars (fun c => Re.digit c || Re.chr "+"%char c) (Text.keep_dial_chars s)
  = true.
Proof.
  induction s as [|c s IH]; [reflexivity|].
  cbn [Text.keep_dial_chars].
  destruct (Re.digit c || Re.chr "+" c) eqn:E; [|exact IH].
  cbn [Re.all_chars]. now rewrite E, IH.
Qed.

Lemma keep_dial_chars_fixed (s : string) :
  Re.all_chars (fun c => Re.digit c || Re.chr "+"%char c) s = true ->
  Text.keep_dial_chars s = s.
Proof.
  induction s as [|c s IH]; [reflexivity|].
  cbn [Text.keep_dial_chars Re.all_chars].
  intros H. apply andb_prop in H. destruct H as [-> H]. now rewrite IH.
Qed.

End CallLink.

(** X20: the call link of a card can be dialled.  The link is empty
    exactly when the card has no phone number; otherwise it is [tel:]
    followed by the digits and plus signs of the number as displayed, in
    their order and with nothing else, so punctuation and spaces of the
    displayed number never reach the link.  A number without any digit
    gives the bare link [tel:]. *)
Theorem call_link_is_dialable (d : LabsPage.details_dict) (x : LabsNearby.Item) :
  let c := LabsPage.enrich d x in
  Re.ascii_text (LabsPage.phone_display c) = true ->
  (LabsPage.phone_tel c = ""%string <-> LabsPage.phone_display c = ""%string)
  /\ (LabsPage.phone_display c <> ""%string ->
      exists digits,
        LabsPage.phone_tel c = ("tel:" ++ digits)%string
        /\ Re.all_chars (fun ch => Re.digit ch || Re.chr "+"%char ch) digits = true
        /\ digits = Text.keep_dial_chars (LabsPage.phone_display c)
        /\ Text.keep_dial_chars digits = digits).
Proof.
  intros c _. unfold c, LabsPage.enrich. cbv zeta.
  cbn [LabsPage.phone_tel LabsPage.phone_display].
  set (phone := if truthy_opt _ then _ else _).
  destruct phone as [|ch rest]; simpl.
  - split; [tauto|]. intros H. now contradiction H.
  - split.
    + split; discriminate.
    + intros _. eexists. split; [reflexivity|].
      pose proof (keep_dial_chars_dialable (String ch rest)) as K.
      split; [exact K|]. split; [reflexivity|].
      now apply keep_dial_chars_fixed.
Qed.

Lemma call_link_is_dialable_witness :
  LabsPage.phone_tel
    (LabsPage.enrich
       (LabsPage.fetch_details DemoLabs.details_p1_only [DemoLabs.quest] [])
       DemoLabs.quest)
  = "tel:9545550100"%string.
Proof.
  destruct (call_link_is_dialable
              (LabsPage.fetch_details DemoLabs.details_p1_only [DemoLabs.quest] [])
              DemoLabs.quest eq_refl) as [_ H].
  destruct H as (digits & Htel & _ & Hd & _); [discriminate|].
  rewrite Htel, Hd. reflexivity.
Defined.

(** ** Open around the clock *)

Section AroundTheClock.

Import LabsPage.

Lemma is_24_hours_dict_falsy (o : Opening) :
  opening_truthy o = false -> is_24_hours_dict o = false.
Proof.
  intros H. destruct o as [t p c n m].
  cbn [is_24_hours_dict]. now rewrite H.
Qed.

Lemma is_24_hours_dict_levels :
  forall o : Opening,
    is_24_hours_dict o = existsb LabsSpec.says_24 (LabsSpec.levels o).
Proof.
  fix IH 1. intros [t p c n m].
  cbn [is_24_hours_dict LabsSpec.levels existsb].
  unfold LabsSpec.says_24 at 1.
  cbn [weekday_text periods current_opening_hours].
  destruct (opening_truthy (mkOpening t p c n m)) eqn:T; cbn [negb].
  - destruct (existsb _ (or_nil t)); [reflexivity|].
    destruct (existsb full_day (or_nil p)); [reflexivity|].
    cbn [orb]. destruct c as [curr|]; [|reflexivity].
    rewrite <- (IH curr).
    destruct (opening_truthy curr) eqn:Tc; [reflexivity|].
    now rewrite is_24_hours_dict_falsy.
  - destruct t, p, c, n, m; try discriminate T. reflexivity.
Qed.

End AroundTheClock.

(** X21: what counts as open around the clock.  An opening-hours dict
    does when it, or a dict nested in it under [current_opening_hours] at
    any depth, has a weekday line that contains "open 24 hours" in any
    letter case, or a period that opens at 0000 and closes at 0000 or
    2400 or has no close; no dict and the empty dict do not. *)
Theorem open_24_hours_at_any_level (opening : option LabsPage.Opening) :
  LabsPage.is_24_hours opening
  = match opening with
    | Some o => existsb LabsSpec.says_24 (LabsSpec.levels o)
    | None => false
    end.
Proof.
  destruct opening as [o|]; [|reflexivity].
  apply is_24_hours_dict_levels.
Qed.

(** ** How much the places search costs *)

Section PageBounds.

Import LabsNearby.

Variable places_get :
  Z -> pyfloat -> pyfloat -> Z -> option string -> outcome PlacesResponse.
Variables lat0 lon0 : pyfloat.
Variable radius_m : Z.

Lemma seconds_slept_app (t u : list event) :
  LabsSpec.seconds_slept (t ++ u)
  = (LabsSpec.seconds_slept t + LabsSpec.seconds_slept u)%nat.
Proof.
  induction t as [|[n|tok] t IH]; simpl; [reflexivity| |exact IH].
  rewrite IH. lia.
Qed.

Lemma requests_made_app (t u : list event) :
  LabsSpec.requests_made (t ++ u)
  = (LabsSpec.requests_made t + LabsSpec.requests_made u)%nat.
Proof.
  induction t as [|[n|tok] t IH]; simpl; [reflexivity|exact IH|].
  now rewrite IH.
Qed.

Lemma protocol_requests (pages : list PlacesResponse) :
  forall (wait : bool) (param : option string),
    LabsSpec.requests_made (Spec.protocol_events wait param pages)
    = List.length pages.
Proof.
  induction pages as [|p ps IH]; intros wait param; [reflexivity|].
  cbn [Spec.protocol_events]. rewrite requests_made_app.
  cbn [LabsSpec.requests_made List.length]. rewrite IH.
  destruct wait; reflexivity.
Qed.

Lemma protocol_slept (pages : list PlacesResponse) :
  forall (wait : bool) (param : option string),
    LabsSpec.seconds_slept (Spec.protocol_events wait param pages)
    = match pages with
      | [] => 0%nat
      | _ :: _ =>
          if wait then (2 * List.length pages)%nat
          else (2 * (List.length pages - 1))%nat
      end.
Proof.
  induction pages as [|p ps IH]; intros wait param; [reflexivity|].
  cbn [Spec.protocol_events]. rewrite seconds_slept_app.
  cbn [LabsSpec.seconds_slept List.length]. rewrite IH.
  destruct wait, ps; simpl; lia.
Qed.

Lemma answered_sizes (k : nat) (pages : list PlacesResponse) :
  (forall page lat lon r tok resp,
     places_get page lat lon r tok = Return resp ->
     (List.length (Spec.page_items resp) <= k)%nat) ->
  forall (page : Z) (param : option string),
    Spec.answered places_get lat0 lon0 radius_m page param pages ->
    (List.length (List.concat (map Spec.page_items pages))
     <= List.length pages * k)%nat.
Proof.
  intros Hk. induction pages as [|p ps IH]; intros page param Hans;
    [simpl; lia|].
  cbn [Spec.answered] in Hans. destruct Hans as (Hget & _ & Hrest).
  cbn [map List.concat List.length]. rewrite List.length_app.
  pose proof (Hk _ _ _ _ _ _ Hget). pose proof (IH _ _ Hrest). lia.
Qed.

Lemma places_search_cost (max_pages : Z) (k : nat) :
  (forall page lat lon r tok resp,
     places_get page lat lon r tok = Return resp ->
     (List.length (Spec.page_items resp) <= k)%nat) ->
  let run := places_nearby_labs places_get lat0 lon0 radius_m max_pages in
  (LabsSpec.requests_made (snd run) <= Z.to_nat max_pages)%nat
  /\ LabsSpec.seconds_slept (snd run)
     = (2 * (LabsSpec.requests_made (snd run) - 1))%nat
  /\ match fst run with
     | Return found => (List.length found <= Z.to_nat max_pages * k)%nat
     | Raise _ => True
     end.
Proof.
  intros Hk run. unfold run, places_nearby_labs.
  destruct (@pages_loop_run places_get lat0 lon0 radius_m (Z.to_nat max_pages)
              max_pages [] 0%Z None None [])
    as (pages & Hlen & Hans & Hrun).
  { f_equal. lia. }
  destruct (pages_loop places_get lat0 lon0 radius_m max_pages [] 0 None None [])
    as [[found|e] trace]; cbn [fst snd].
  - destruct Hrun as (-> & -> & _). cbn [app truthy_opt].
    rewrite protocol_requests, protocol_slept.
    split; [exact Hlen|]. split.
    + destruct pages; simpl; lia.
    + pose proof (@answered_sizes k pages Hk _ _ Hans) as Hs.
      cbn [truthy_opt] in Hs. nia.
  - destruct Hrun as (Hlt & _ & ->). cbn [app truthy_opt].
    rewrite !requests_made_app, !seconds_slept_app.
    rewrite protocol_requests, protocol_slept.
    destruct pages as [|p ps]; simpl in *; repeat split; lia.
Qed.

End PageBounds.

(** X22: what a places search can cost.  With a page limit it makes at
    most that many requests and waits two seconds between consecutive
    requests, so with the limit of three the page uses it waits at most
    four seconds; and when the service returns at most [k] places a page,
    the search returns at most the page limit times [k] places (sixty for
    pages of twenty). *)
Theorem places_search_cost_is_bounded
  (places_get : Z -> pyfloat -> pyfloat -> Z -> option string
                -> outcome LabsNearby.PlacesResponse)
  (lat0 lon0 : pyfloat) (radius_m max_pages : Z) (k : nat) :
  (forall page lat lon r tok resp,
     places_get page lat lon r tok = Return resp ->
     (List.length (Spec.page_items resp) <= k)%nat) ->
  let run :=
    LabsNearby.places_nearby_labs places_get lat0 lon0 radius_m max_pages in
  (LabsSpec.requests_made (snd run) <= Z.to_nat max_pages)%nat
  /\ LabsSpec.seconds_slept (snd run)
     = (2 * (LabsSpec.requests_made (snd run) - 1))%nat
  /\ match fst run with
     | Return found => (List.length found <= Z.to_nat max_pages * k)%nat
     | Raise _ => True
     end.
Proof. apply places_search_cost. Qed.

Lemma places_search_cost_is_bounded_witness :
  let run :=
    LabsNearby.places_nearby_labs Demo.endless_places (Finite 26) (Finite (-80))
      16093 3 in
  (LabsSpec.requests_made (snd run) <= 3)%nat
  /\ LabsSpec.seconds_slept (snd run)
     = (2 * (LabsSpec.requests_made (snd run) - 1))%nat
  /\ match fst run with
     | Return found => (List.length found <= 3 * 1)%nat
     | Raise _ => True
     end.
Proof.
  apply (@places_search_cost_is_bounded Demo.endless_places (Finite 26)
           (Finite (-80)) 16093%Z 3%Z 1%nat).
  intros page lat lon r tok resp H. unfold Demo.endless_places in H.
  injection H as <-. simpl. lia.
Defined.

(** ** The list of labs *)

Section LabsComplete.

Import LabsNearby.

Variable haversine_fp : pyfloat -> pyfloat -> pyfloat -> pyfloat -> Q.
Variable quote_plus : string -> string.

Lemma located_places (raw : list RawPlace) (user_lat user_lon : pyfloat) :
  filter (fun x => match distance_mi x with Some _ => true | None => false end)
    (map (fun el => normalize_google_place haversine_fp quote_plus el
                      user_lat user_lon) raw)
  = map (fun el => normalize_google_place haversine_fp quote_plus el
                     user_lat user_lon)
      (filter (fun p => match lat p, lng p with
                        | Some _, Some _ => true
                        | _, _ => false
                        end) raw).
Proof.
  induction raw as [|p raw IH]; [reflexivity|].
  cbn [map filter]. rewrite IH.
  unfold normalize_google_place at 1. cbn [distance_mi].
  destruct (lat p), (lng p); reflexivity.
Qed.

Lemma base_items_complete (raw : list RawPlace) (user_lat user_lon : pyfloat) :
  Permutation (base_items haversine_fp quote_plus raw user_lat user_lon)
    (map (fun el => normalize_google_place haversine_fp quote_plus el
                      user_lat user_lon)
       (filter (fun p => match lat p, lng p with
                         | Some _, Some _ => true
                         | _, _ => false
                         end) raw)).
Proof.
  unfold base_items. cbv zeta. rewrite <- located_places.
  apply sort_by_key_perm.
Qed.

End LabsComplete.

(** X23: the list of labs is the located places, nearest first.  The
    sorted list holds one item for each place of the search that has both
    coordinates, and no other; it is in ascending order of distance, the
    name breaking ties; and each of its items has a distance and a name
    that is not empty. *)
Theorem labs_list_is_located_places_nearest_first
  (haversine_fp : pyfloat -> pyfloat -> pyfloat -> pyfloat -> Q)
  (quote_plus : string -> string)
  (raw : list LabsNearby.RawPlace) (user_lat user_lon : pyfloat) :
  let base :=
    LabsNearby.base_items haversine_fp quote_plus raw user_lat user_lon in
  Spec.ranked LabsNearby.item_key base = true
  /\ Permutation base
       (map (fun el => LabsNearby.normalize_google_place haversine_fp quote_plus
                         el user_lat user_lon)
          (filter (fun p => match LabsNearby.lat p, LabsNearby.lng p with
                            | Some _, Some _ => true
                            | _, _ => false
                            end) raw))
  /\ forall x, In x base ->
               LabsNearby.distance_mi x <> None
               /\ LabsNearby.name x <> ""%string.
Proof.
  intros base. split; [apply base_items_ranked|].
  split; [apply base_items_complete|].
  intros x Hx. split; [now apply (base_items_ranked haversine_fp quote_plus raw
                                    user_lat user_lon)|].
  apply (Permutation_in _ (base_items_complete haversine_fp quote_plus raw
                             user_lat user_lon)) in Hx.
  apply in_map_iff in Hx. destruct Hx as (p & <- & _).
  apply lab_name_nonempty.
Qed.

(** ** The symptom page: suggested specialties *)

Section Suggestions.

Import Symptoms.
Local Open Scope string_scope.

Lemma mem_In (s : string) (l : list string) : mem s l = true <-> In s l.
Proof.
  unfold mem. rewrite existsb_exists. split.
  - intros (x & Hx & E). apply String.eqb_eq in E. now subst.
  - intros H. exists s. split; [exact H|apply String.eqb_refl].
Qed.

(** What line 182 adds is new and only new. *)
Lemma add_specs_in (suggestions specs : list string) (x : string) :
  In x (suggestions ++ filter (fun s => negb (mem s suggestions)) specs)%list
  <-> In x suggestions \/ In x specs.
Proof.
  rewrite in_app_iff, filter_In. split.
  - intros [H|[H _]]; auto.
  - intros [H|H]; [now left|].
    destruct (mem x suggestions) eqn:M.
    + left. now apply mem_In.
    + right. split; [exact H|reflexivity].
Qed.

Lemma add_specs_nodup (suggestions specs : list string) :
  NoDup suggestions -> NoDup specs ->
  NoDup (suggestions ++ filter (fun s => negb (mem s suggestions)) specs)%list.
Proof.
  intros H1 H2. apply NoDup_app; [exact H1|now apply NoDup_filter|].
  intros a Ha Hf. apply filter_In in Hf. destruct Hf as [_ Hf].
  apply mem_In in Ha. rewrite Ha in Hf. discriminate.
Qed.

Variable text : string.

Lemma groups_loop_nodup (table : list (list string * list string)) :
  (forall g, In g table -> NoDup (snd g)) ->
  forall suggestions,
    NoDup suggestions -> NoDup (groups_loop text table suggestions).
Proof.
  induction table as [|[keywords specs] rest IH]; intros Ht suggestions Hs;
    [exact Hs|].
  cbn [groups_loop]. apply IH; [intros g Hg; apply Ht; now right|].
  destruct (any_keyword text keywords); [|exact Hs].
  apply add_specs_nodup; [exact Hs|].
  apply (Ht (keywords, specs)). now left.
Qed.

(** The specialties after the loop over the table: those before it and
    those of the groups a keyword of which occurs in the text. *)
Lemma groups_loop_in (table : list (list string * list string)) (x : string) :
  forall suggestions,
    In x (groups_loop text table suggestions)
    <-> In x suggestions
        \/ exists g, In g table /\ any_keyword text (fst g) = true
                     /\ In x (snd g).
Proof.
  induction table as [|[keywords specs] rest IH]; intros suggestions.
  - cbn [groups_loop]. split; [auto|].
    intros [H|(g & [] & _)]. exact H.
  - cbn [groups_loop]. rewrite IH. split.
    + intros [H|(g & Hg & Hk & Hx)].
      * destruct (any_keyword text keywords) eqn:K; [|now left].
        apply add_specs_in in H. destruct H as [H|H]; [now left|].
        right. exists (keywords, specs). split; [now left|]. auto.
      * right. exists g. split; [now right|]. auto.
    + intros [H|(g & [<-|Hg] & Hk & Hx)].
      * left. destruct (any_keyword text keywords); [|exact H].
        apply add_specs_in. now left.
      * left. cbn [fst snd] in Hk, Hx. rewrite Hk.
        apply add_specs_in. now right.
      * right. exists g. auto.
Qed.

Lemma generalists_loop_nodup (gens : list string) :
  forall suggestions,
    NoDup suggestions -> NoDup (generalists_loop gens suggestions).
Proof.
  induction gens as [|gen rest IH]; intros suggestions Hs; [exact Hs|].
  cbn [generalists_loop]. apply IH.
  destruct (mem gen suggestions) eqn:M; cbn [negb]; [exact Hs|].
  apply NoDup_app; [exact Hs|repeat constructor; intros []|].
  intros a Ha [<-|[]]. apply mem_In in Ha. congruence.
Qed.

Lemma generalists_loop_in (gens : list string) (x : string) :
  forall suggestions,
    In x (generalists_loop gens suggestions)
    <-> In x suggestions \/ In x gens.
Proof.
  induction gens as [|gen rest IH]; intros suggestions.
  - cbn [generalists_loop]. split; [auto|]. intros [H|[]]. exact H.
  - cbn [generalists_loop]. rewrite IH.
    destruct (mem gen suggestions) eqn:M; cbn [negb].
    + apply mem_In in M. split.
      * intros [H|H]; [now left|right; now right].
      * intros [H|[<-|H]]; [now left|now left|now right].
    + rewrite in_app_iff. split.
      * intros [[H|[<-|[]]]|H]; [now left|right; now left|right; now right].
      * intros [H|[<-|H]]; [left; now left|left; right; now left|now right].
Qed.

(** Both loops only append. *)
Lemma groups_loop_head (table : list (list string * list string))
  (x : string) :
  forall suggestions,
    hd_error (groups_loop text table (x :: suggestions)) = Some x.
Proof.
  induction table as [|[keywords specs] rest IH]; intros suggestions;
    [reflexivity|].
  cbn [groups_loop]. destruct (any_keyword text keywords); apply IH.
Qed.

Lemma generalists_loop_head (gens : list string) (x : string) :
  forall suggestions,
    hd_error (generalists_loop gens (x :: suggestions)) = Some x.
Proof.
  induction gens as [|gen rest IH]; intros suggestions; [reflexivity|].
  cbn [generalists_loop]. destruct (negb (mem gen (x :: suggestions))); apply IH.
Qed.

Lemma filter_not_mem_nil (specs : list string) :
  filter (fun s => negb (mem s [])) specs = specs.
Proof.
  induction specs as [|s specs IH]; [reflexivity|].
  cbn [filter]. change (negb (mem s [])) with true. cbv iota. now rewrite IH.
Qed.

(** From the empty list, the first group with a keyword in the text
    gives the head. *)
Lemma groups_loop_first (table : list (list string * list string)) :
  (forall g, In g table -> snd g <> []) ->
  match find (fun g => any_keyword text (fst g)) table with
  | Some g => hd_error (groups_loop text table []) = hd_error (snd g)
  | None => groups_loop text table [] = []
  end.
Proof.
  induction table as [|[keywords specs] rest IH]; intros Hne; [reflexivity|].
  cbn [find fst groups_loop].
  destruct (any_keyword text keywords) eqn:K.
  - cbn [app snd]. rewrite filter_not_mem_nil.
    destruct specs as [|s specs].
    + exfalso. apply (Hne (keywords, [])); [now left|reflexivity].
    + apply groups_loop_head.
  - apply IH. intros g Hg. apply Hne. now right.
Qed.

End Suggestions.

Section Substrings.

Local Open Scope string_scope.

Lemma starts_with_iff (p s : string) :
  Text.starts_with p s = true <-> exists rest, s = p ++ rest.
Proof.
  revert s. induction p as [|a p IH]; intros s.
  - cbn [Text.starts_with]. split; [intros _; now exists s|reflexivity].
  - destruct s as [|b s]; cbn [Text.starts_with].
    + split; [discriminate|]. intros (rest & H). discriminate H.
    + rewrite andb_true_iff, Ascii.eqb_eq, IH. split.
      * intros (-> & rest & ->). now exists rest.
      * intros (rest & H). injection H as -> ->. split; [reflexivity|].
        now exists rest.
Qed.

Lemma contains_unfold (needle hay : string) :
  Text.contains needle hay
  = Text.starts_with needle hay
    || match hay with
       | EmptyString => false
       | String _ hay' => Text.contains needle hay'
       end.
Proof. destruct hay; reflexivity. Qed.

(** [needle in hay] says that [hay] has [needle] somewhere. *)
Lemma contains_iff (needle hay : string) :
  Text.contains needle hay = true <-> exists a b, hay = a ++ needle ++ b.
Proof.
  split.
  - induction hay as [|c hay IH]; rewrite contains_unfold; intros H;
      apply orb_prop in H; destruct H as [H|H]; try discriminate H.
    + apply starts_with_iff in H. destruct H as (rest & ->). now exists "", rest.
    + apply starts_with_iff in H. destruct H as (rest & ->). now exists "", rest.
    + destruct (IH H) as (a & b & ->). now exists (String c a), b.
  - intros (a & b & ->). induction a as [|c a IH]; rewrite contains_unfold.
    + assert (S : Text.starts_with needle ("" ++ needle ++ b) = true).
      { apply starts_with_iff. now exists b. }
      now rewrite S.
    + cbn [append]. rewrite IH. apply orb_true_r.
Qed.

Lemma lower_app (s t : string) : lower (s ++ t) = lower s ++ lower t.
Proof. induction s as [|c s IH]; simpl; [reflexivity|now rewrite IH]. Qed.

End Substrings.

Section PrimarySpecialty.

Import Symptoms.
Local Open Scope string_scope.

Lemma table_facts (g : list string * list string) :
  In g CONDITION_TO_SPECIALTIES ->
  NoDup (snd g) /\ snd g <> [] /\ truthy (hd "" (snd g)) = true
  /\ incl (snd g)
       ["Family Medicine"; "Internal Medicine"; "General Practice";
        "Cardiology"; "Emergency Medicine"; "Pulmonary Disease";
        "Infectious Disease"; "Neurology"; "Psychiatry"; "Psychology";
        "Dermatology"; "Gastroenterology"; "Urology"].
Proof.
  unfold CONDITION_TO_SPECIALTIES. intros H.
  repeat (destruct H as [<-|H]);
    try (cbn [snd hd]; split; [|split; [discriminate|split; [reflexivity|]]];
         [repeat constructor; cbn [In]; intros K;
          repeat (destruct K as [K|K]; try discriminate K); exact K
         |intros x Hx; cbn [In] in Hx |- *;
          repeat (destruct Hx as [<-|Hx]; [tauto|]); contradiction]).
  contradiction.
Qed.

(** The head of the suggestions, by cases on the first group a keyword
    of which occurs in the text. *)
Lemma suggestions_head (summary : option string) :
  let text := lower (match summary with
                     | Some s => or_str s ""
                     | None => ""
                     end) in
  match find (fun g => any_keyword text (fst g)) CONDITION_TO_SPECIALTIES with
  | Some g =>
      In g CONDITION_TO_SPECIALTIES
      /\ hd_error (suggest_specialties summary) = Some (hd "" (snd g))
  | None =>
      suggest_specialties summary
      = ["Family Medicine"; "Internal Medicine"; "General Practice"]
  end.
Proof.
  intros text. unfold suggest_specialties. fold text.
  pose proof (groups_loop_first text CONDITION_TO_SPECIALTIES) as F.
  destruct (find (fun g => any_keyword text (fst g)) CONDITION_TO_SPECIALTIES)
    as [g|] eqn:E.
  - apply find_some in E. destruct E as [Hg _]. split; [exact Hg|].
    destruct (table_facts Hg) as (_ & Hne & _).
    assert (F' := F (fun g' Hg' => proj1 (proj2 (table_facts Hg')))).
    destruct (snd g) as [|x specs]; [now contradiction Hne|].
    destruct (groups_loop text CONDITION_TO_SPECIALTIES []) as [|y rest];
      [discriminate F'|].
    injection F' as ->. apply generalists_loop_head.
  - rewrite (F (fun g' Hg' => proj1 (proj2 (table_facts Hg')))).
    reflexivity.
Qed.

Lemma primary_specialty_truthy (summary : option string) :
  exists p, hd_error (suggest_specialties summary) = Some p
            /\ truthy p = true.
Proof.
  pose proof (suggestions_head summary) as H. cbv zeta in H.
  destruct (find _ CONDITION_TO_SPECIALTIES) as [g|].
  - destruct H as [Hg H]. exists (hd "" (snd g)). split; [exact H|].
    apply (table_facts Hg).
  - rewrite H. now exists "Family Medicine".
Qed.

Lemma suggest_specialties_nodup (summary : option string) :
  NoDup (suggest_specialties summary).
Proof.
  unfold suggest_specialties. apply generalists_loop_nodup.
  apply groups_loop_nodup; [|constructor].
  intros g Hg. apply (table_facts Hg).
Qed.

Lemma suggest_specialties_in (summary : option string) (s : string) :
  In s (suggest_specialties summary)
  <-> In s ["Family Medicine"; "Internal Medicine"; "General Practice"]
      \/ exists g, In g CONDITION_TO_SPECIALTIES
                   /\ any_keyword
                        (lower (match summary with
                                | Some s => or_str s ""
                                | None => ""
                                end)) (fst g) = true
                   /\ In s (snd g).
Proof.
  unfold suggest_specialties.
  rewrite generalists_loop_in, groups_loop_in. split.
  - intros [[[]|H]|H]; auto.
  - intros [H|H]; auto.
Qed.

End PrimarySpecialty.

(** X24: the suggested specialties are well formed.  Whatever the
    summary, the list has no duplicate; it holds the three generalists,
    the specialties of every group of the table one of whose keywords
    occurs in the summary in lower case, and nothing else; so it has
    between three and thirteen entries. *)
Theorem suggestions_are_well_formed (summary : option string) :
  let text := lower (match summary with
                     | Some s => or_str s ""%string
                     | None => ""%string
                     end) in
  NoDup (Symptoms.suggest_specialties summary)
  /\ (forall s,
        In s (Symptoms.suggest_specialties summary)
        <-> In s ["Family Medicine"; "Internal Medicine"; "General Practice"]%string
            \/ exists g, In g Symptoms.CONDITION_TO_SPECIALTIES
                         /\ Symptoms.any_keyword text (fst g) = true
                         /\ In s (snd g))
  /\ (3 <= List.length (Symptoms.suggest_specialties summary) <= 13)%nat.
Proof.
  intros text.
  pose proof (suggest_specialties_nodup summary) as Hnd.
  pose proof (suggest_specialties_in summary) as Hin. fold text in Hin.
  split; [exact Hnd|]. split; [exact Hin|]. split.
  - apply (@NoDup_incl_length _
             ["Family Medicine"; "Internal Medicine"; "General Practice"]%string).
    + repeat constructor; cbn [In]; intros K;
        repeat (destruct K as [K|K]; try discriminate K); exact K.
    + intros s Hs. apply Hin. now left.
  - apply (@NoDup_incl_length _ _
             ["Family Medicine"; "Internal Medicine"; "General Practice";
              "Cardiology"; "Emergency Medicine"; "Pulmonary Disease";
              "Infectious Disease"; "Neurology"; "Psychiatry"; "Psychology";
              "Dermatology"; "Gastroenterology"; "Urology"]%string Hnd).
    intros s Hs. destruct (proj1 (Hin s) Hs) as [Hs'|(g & Hg & _ & Hs')];
      clear Hs; rename Hs' into Hs.
    + cbn [In] in Hs |- *. tauto.
    + now apply (table_facts Hg).
Qed.

(** X25: a keyword anywhere in the summary, in any letter case, brings
    the specialties of its group: the match is on substrings of the
    lower-cased summary, not on words. *)
Theorem keyword_brings_its_specialties
  (summary before word after : string) (keywords specs : list string)
  (s : string) :
  Re.ascii_text summary = true ->
  In (keywords, specs) Symptoms.CONDITION_TO_SPECIALTIES ->
  In (lower word) keywords ->
  summary = (before ++ word ++ after)%string ->
  In s specs ->
  In s (Symptoms.suggest_specialties (Some summary)).
Proof.
  intros _ Hg Hk -> Hs.
  apply suggest_specialties_in. right.
  exists (keywords, specs). split; [exact Hg|]. split; [|exact Hs].
  cbn [fst]. unfold Symptoms.any_keyword. apply existsb_exists.
  exists (lower word). split; [exact Hk|].
  apply contains_iff. unfold or_str.
  destruct (truthy (before ++ word ++ after)) eqn:T.
  - exists (lower before), (lower after). now rewrite !lower_app.
  - destruct before; [|discriminate T]. destruct word; [|discriminate T].
    now exists ""%string, ""%string.
Qed.

Lemma keyword_brings_its_specialties_witness :
  In "Cardiology"%string
     (Symptoms.suggest_specialties (Some "Possible Angina."%string)).
Proof.
  apply (@keyword_brings_its_specialties "Possible Angina." "Possible "
           "Angina" "."
           ["heart"; "chest pain"; "arrhythmia"; "angina"]%string
           ["Cardiology"; "Emergency Medicine"; "Internal Medicine"]%string
           "Cardiology").
  - reflexivity.
  - simpl. auto.
  - simpl. auto.
  - reflexivity.
  - simpl. auto.
Defined.

(** X26: the primary specialty handed to the other pages is always
    defined.  It is the first specialty of the first group of the table
    one of whose keywords occurs in the summary; when no keyword occurs
    it is Family Medicine, and the suggestions are the three generalists
    and nothing else. *)
Theorem primary_specialty_is_first_match (summary : option string) :
  let text := lower (match summary with
                     | Some s => or_str s ""%string
                     | None => ""%string
                     end) in
  hd_error (Symptoms.suggest_specialties summary)
  = Some (match find (fun g => Symptoms.any_keyword text (fst g))
                     Symptoms.CONDITION_TO_SPECIALTIES with
          | Some g => hd ""%string (snd g)
          | None => "Family Medicine"%string
          end)
  /\ (find (fun g => Symptoms.any_keyword text (fst g))
           Symptoms.CONDITION_TO_SPECIALTIES = None ->
      Symptoms.suggest_specialties summary
      = ["Family Medicine"; "Internal Medicine"; "General Practice"]%string).
Proof.
  intros text. pose proof (suggestions_head summary) as H.
  cbv zeta in H. fold text in H.
  destruct (find (fun g => Symptoms.any_keyword text (fst g))
                 Symptoms.CONDITION_TO_SPECIALTIES) as [g|].
  - split; [apply H|discriminate].
  - split; [now rewrite H|intros _; exact H].
Qed.


(** ** From the symptom page to the other pages *)

Section AfterAnalysis.

Import Symptoms.
Local Open Scope string_scope.

Variable get_conditions_from_gpt :
  list string -> option N -> option string -> string -> outcome Analysis.

(** What a click on Analyze stores, read off the handler. *)
Lemma analyze_stored (symptoms_text age_input sex_input days_input : string)
  (stored : Stored) :
  analyze get_conditions_from_gpt symptoms_text age_input sex_input days_input
  = Analyzed stored ->
  exists result,
    get_conditions_from_gpt (symptoms_list_of symptoms_text)
      (int_if_digits age_input)
      (if truthy sex_input then Some sex_input else None)
      (if truthy_int (int_if_digits days_input)
       then match int_if_digits days_input with
            | Some d => str_of_int d ++ " days"
            | None => ""
            end
       else "")
    = Return result
    /\ symptoms_input stored
       = constructed_symptoms symptoms_text sex_input
           (int_if_digits age_input) (int_if_digits days_input)
    /\ condition_summary stored = summary_markdown result
    /\ suggested_specialties stored
       = suggest_specialties (summary_markdown result)
    /\ primary_specialty stored
       = hd_error (suggest_specialties (summary_markdown result)).
Proof.
  unfold analyze. cbv zeta.
  destruct (negb _); [discriminate|].
  destruct (get_conditions_from_gpt _ _ _ _) as [result|e]; [|discriminate].
  intros H.
  match type of H with
  | Analyzed ?x = Analyzed stored =>
      assert (E : x = stored)
        by exact (f_equal (fun a => match a with
                                    | Analyzed st => st
                                    | _ => x
                                    end) H)
  end.
  clear H. subst stored. exists result.
  cbn [symptoms_input condition_summary suggested_specialties primary_specialty].
  repeat (split; [reflexivity|]). reflexivity.
Qed.

Lemma constructed_symptoms_truthy (symptoms_text sex_input : string)
  (age_val dur_val : option N) :
  truthy (constructed_symptoms symptoms_text sex_input age_val dur_val) = true.
Proof.
  unfold constructed_symptoms. cbv zeta.
  match goal with
  | |- truthy (or_str ?a ?b) = true =>
      unfold or_str at 1; destruct (truthy a) eqn:T; [exact T|reflexivity]
  end.
Qed.

End AfterAnalysis.

(** X27: after an analysis the doctor page starts from the primary
    specialty.  The analysis always stores a primary specialty that is
    not empty; the doctor page takes it whatever the URL says, puts it in
    the specialty box on the first visit and when the box was left empty,
    and never replaces a specialty the user typed. *)
Theorem doctor_page_starts_from_primary_specialty
  (get_conditions_from_gpt :
     list string -> option N -> option string -> string
     -> outcome Symptoms.Analysis)
  (symptoms_text age_input sex_input days_input : string)
  (stored : Symptoms.Stored) (qp_spec : FindADoctorPage.qp_value) :
  Symptoms.analyze get_conditions_from_gpt symptoms_text age_input sex_input
    days_input = Symptoms.Analyzed stored ->
  exists p,
    Symptoms.primary_specialty stored = Some p
    /\ hd_error (Symptoms.suggested_specialties stored) = Some p
    /\ truthy p = true
    /\ FindADoctorPage.primary_spec_of (Symptoms.primary_specialty stored) qp_spec
       = p
    /\ FindADoctorPage.prefill_specialty p None = p
    /\ FindADoctorPage.prefill_specialty p (Some ""%string) = p
    /\ forall typed, truthy typed = true ->
                     FindADoctorPage.prefill_specialty p (Some typed) = typed.
Proof.
  intros H. apply analyze_stored in H.
  destruct H as (result & _ & _ & _ & Hs & Hp).
  destruct (primary_specialty_truthy (Symptoms.summary_markdown result))
    as (p & Hhd & Ht).
  exists p. rewrite Hp, Hs, Hhd.
  split; [reflexivity|]. split; [reflexivity|]. split; [exact Ht|].
  unfold FindADoctorPage.primary_spec_of, FindADoctorPage.prefill_specialty.
  cbn [truthy_opt get_default]. rewrite Ht. unfold or_str. rewrite Ht.
  repeat (split; [reflexivity|]).
  intros typed Htyped. now rewrite Htyped.
Qed.

Lemma doctor_page_starts_from_primary_specialty_witness :
  exists p,
    Symptoms.primary_specialty
      (Symptoms.mkStored "chest pain"
         (Some "- **Angina**: Chest Pain on exertion.")
         [Symptoms.mkDiagnosis (Some "Angina") (Some "chest pain on exertion")]
         ["Cardiology"; "Emergency Medicine"; "Internal Medicine";
          "Family Medicine"; "General Practice"]
         (Some "Cardiology"))%string = Some p
    /\ FindADoctorPage.prefill_specialty p None = p.
Proof.
  destruct (@doctor_page_starts_from_primary_specialty
              DemoSymptoms.angina_model "chest pain" "" "" ""
              (Symptoms.mkStored "chest pain"
                 (Some "- **Angina**: Chest Pain on exertion.")
                 [Symptoms.mkDiagnosis (Some "Angina")
                    (Some "chest pain on exertion")]
                 ["Cardiology"; "Emergency Medicine"; "Internal Medicine";
                  "Family Medicine"; "General Practice"]
                 (Some "Cardiology"))%string
              FindADoctorPage.QAbsent eq_refl)
    as (p & Hp & _ & _ & _ & Hpre & _).
  exists p. split; [exact Hp|exact Hpre].
Defined.

(** X28: after an analysis the booking page never lacks the symptoms.
    The text the analysis stores for them is never empty, so with a
    provider selected the booking page asks for the symptom checker
    exactly when the model's summary is empty or null, and shows the
    booking otherwise. *)
Theorem booking_after_analysis
  (get_conditions_from_gpt :
     list string -> option N -> option string -> string
     -> outcome Symptoms.Analysis)
  (symptoms_text age_input sex_input days_input : string)
  (stored : Symptoms.Stored) (s : FindADoctor.Session)
  (d : FindADoctor.Candidate) :
  Symptoms.analyze get_conditions_from_gpt symptoms_text age_input sex_input
    days_input = Symptoms.Analyzed stored ->
  FindADoctor.selected_doctor s = Some d ->
  FindADoctor.symptoms_input s = Some (Symptoms.symptoms_input stored) ->
  FindADoctor.condition_summary s = Symptoms.condition_summary stored ->
  truthy (Symptoms.symptoms_input stored) = true
  /\ (BookAppointment.book_appointment s = BookAppointment.NeedSymptoms
      <-> truthy_opt (Symptoms.condition_summary stored) = false)
  /\ (truthy_opt (Symptoms.condition_summary stored) = true ->
      exists h, BookAppointment.book_appointment s = BookAppointment.Booking d h).
Proof.
  intros H Hd Hsym Hsum. apply analyze_stored in H.
  destruct H as (result & _ & Hin & _).
  assert (T : truthy (Symptoms.symptoms_input stored) = true).
  { rewrite Hin. apply constructed_symptoms_truthy. }
  split; [exact T|].
  unfold BookAppointment.book_appointment. rewrite Hd, Hsym, Hsum.
  cbn [truthy_opt]. rewrite T. cbn [negb]. rewrite orb_false_r.
  destruct (truthy_opt (Symptoms.condition_summary stored)); cbn [negb].
  - split; [split; discriminate|]. intros _. eexists. reflexivity.
  - split; [split; reflexivity|discriminate].
Qed.

Lemma booking_after_analysis_witness :
  exists h,
    BookAppointment.book_appointment
      (FindADoctor.mkSession None None None None None None (Some Demo.cand_A)
         (Some "chest pain"%string)
         (Some "- **Angina**: Chest Pain on exertion."%string))
    = BookAppointment.Booking Demo.cand_A h.
Proof.
  apply (@booking_after_analysis DemoSymptoms.angina_model
           "chest pain" "" "" ""
           (Symptoms.mkStored "chest pain"
              (Some "- **Angina**: Chest Pain on exertion.")
              [Symptoms.mkDiagnosis (Some "Angina")
                 (Some "chest pain on exertion")]
              ["Cardiology"; "Emergency Medicine"; "Internal Medicine";
               "Family Medicine"; "General Practice"]
              (Some "Cardiology"))%string
           (FindADoctor.mkSession None None None None None None
              (Some Demo.cand_A) (Some "chest pain"%string)
              (Some "- **Angina**: Chest Pain on exertion."%string))
           Demo.cand_A eq_refl eq_refl eq_refl eq_refl).
  reflexivity.
Defined.

(** ** E-mail addresses *)

Section Emails.

Import Re.
Import Symptoms.
Local Open Scope string_scope.

Lemma lang_plus_cls (p : ascii -> bool) (s : string) :
  lang (plus (Cls p)) s <-> s <> "" /\ all_chars p s = true.
Proof.
  unfold plus. split.
  - intros H. inversion H as [| |? ? s1 s2 H1 H2| | | |]; subst.
    inversion H1 as [|? c Hc| | | | |]; subst.
    apply lang_star_cls in H2. split; [discriminate|].
    cbn [append all_chars]. now rewrite Hc, H2.
  - intros [Hne Hp]. destruct s as [|c s]; [now contradiction Hne|].
    cbn [all_chars] in Hp. apply andb_prop in Hp. destruct Hp as [Hc Hs].
    change (String c s) with (String c "" ++ s).
    constructor; [now constructor|now apply lang_star_cls].
Qed.

Lemma split_at (n : nat) (s : string) :
  (n <= String.length s)%nat ->
  exists s1 s2, s = s1 ++ s2 /\ String.length s1 = n.
Proof.
  revert s. induction n as [|n IH]; intros s H.
  - now exists "", s.
  - destruct s as [|c s]; [simpl in H; lia|].
    simpl in H. destruct (IH s) as (s1 & s2 & -> & Hl); [lia|].
    exists (String c s1), s2. simpl. auto.
Qed.

Lemma lang_at_least_cls (p : ascii -> bool) (n : nat) (s : string) :
  lang (at_least n (Cls p)) s
  <-> (n <= String.length s)%nat /\ all_chars p s = true.
Proof.
  unfold at_least. split.
  - intros H. inversion H as [| |? ? s1 s2 H1 H2| | | |]; subst.
    apply lang_times_cls in H1. destruct H1 as [Hl Hp].
    apply lang_star_cls in H2.
    rewrite length_app, all_chars_app, Hp, H2. split; [lia|reflexivity].
  - intros [Hl Hp]. destruct (@split_at n s Hl) as (s1 & s2 & -> & Hl1).
    rewrite all_chars_app in Hp. apply andb_prop in Hp. destruct Hp as [Hp1 Hp2].
    constructor; [apply lang_times_cls; auto|now apply lang_star_cls].
Qed.

(** The words of the e-mail pattern. *)
Lemma email_pattern_lang (s : string) :
  lang email_pattern s
  <-> exists name domain tld nl,
        s = name ++ "@" ++ domain ++ "." ++ tld ++ nl
        /\ name <> "" /\ all_chars local_char name = true
        /\ domain <> "" /\ all_chars domain_char domain = true
        /\ (2 <= String.length tld)%nat /\ all_chars letter tld = true
        /\ (nl = "" \/ nl = String "010" "").
Proof.
  unfold email_pattern, dollar, opt. split.
  - intros H.
    inversion H as [| |? ? name r1 Hname H1| | | |]; subst. clear H.
    inversion H1 as [| |? ? at_ r2 Hat H2| | | |]; subst. clear H1.
    inversion H2 as [| |? ? domain r3 Hdom H3| | | |]; subst. clear H2.
    inversion H3 as [| |? ? dot r4 Hdot H4| | | |]; subst. clear H3.
    inversion H4 as [| |? ? tld nl Htld Hnl| | | |]; subst. clear H4.
    apply lang_plus_cls in Hname, Hdom.
    apply lang_at_least_cls in Htld.
    inversion Hat as [|? c Hc| | | | |]; subst.
    unfold chr in Hc. apply Ascii.eqb_eq in Hc. subst c.
    inversion Hdot as [|? c Hc| | | | |]; subst.
    unfold chr in Hc. apply Ascii.eqb_eq in Hc. subst c.
    exists name, domain, tld, nl.
    destruct Hname, Hdom, Htld. repeat (split; [auto|]).
    inversion Hnl as [| | |? ? ? He|? ? ? Hc| |]; subst.
    + inversion He. now left.
    + inversion Hc as [|? c Hcc| | | | |]; subst.
      unfold chr in Hcc. apply Ascii.eqb_eq in Hcc. subst. now right.
  - intros (name & domain & tld & nl & -> & Hn1 & Hn2 & Hd1 & Hd2 & Ht1 & Ht2
            & Hnl).
    constructor; [apply lang_plus_cls; auto|].
    change ("@" ++ domain ++ "." ++ tld ++ nl)
      with (String "@" "" ++ (domain ++ "." ++ tld ++ nl)).
    constructor; [constructor; reflexivity|].
    constructor; [apply lang_plus_cls; auto|].
    change ("." ++ tld ++ nl) with (String "." "" ++ (tld ++ nl)).
    constructor; [constructor; reflexivity|].
    constructor; [apply lang_at_least_cls; auto|].
    destruct Hnl as [->| ->].
    + apply lang_alt_l. constructor.
    + apply lang_alt_r. constructor. reflexivity.
Qed.

Lemma valid_email_iff (s : string) :
  _valid_email s = true
  <-> exists name domain tld nl,
        s = name ++ "@" ++ domain ++ "." ++ tld ++ nl
        /\ name <> "" /\ all_chars local_char name = true
        /\ domain <> "" /\ all_chars domain_char domain = true
        /\ (2 <= String.length tld)%nat /\ all_chars letter tld = true
        /\ (nl = "" \/ nl = String "010" "").
Proof.
  unfold _valid_email. rewrite <- email_pattern_lang, <- matches_lang.
  split.
  - intros H. apply andb_prop in H. apply H.
  - intros H. rewrite H, andb_true_r.
    destruct s as [|c s]; [discriminate H|reflexivity].
Qed.

End Emails.

(** X29: what [_valid_email] accepts.  On ASCII input it accepts exactly
    the texts made of a name, an at sign, a domain, a dot and a
    top-level part: the name is not empty and made of letters, digits
    and [._%+-]; the domain is not empty and made of letters, digits,
    dots and hyphens; the top-level part is two or more letters.  One
    newline after the address is accepted too; the empty text is not. *)
Theorem valid_email_accepts_exactly (s : string) :
  Re.ascii_text s = true ->
  (Symptoms._valid_email s = true
   <-> exists name domain tld nl,
         s = (name ++ "@" ++ domain ++ "." ++ tld ++ nl)%string
         /\ name <> ""%string
         /\ Re.all_chars Symptoms.local_char name = true
         /\ domain <> ""%string
         /\ Re.all_chars Symptoms.domain_char domain = true
         /\ (2 <= String.length tld)%nat
         /\ Re.all_chars Re.letter tld = true
         /\ (nl = ""%string \/ nl = String "010" ""%string)).
Proof. intros _. apply valid_email_iff. Qed.

Lemma valid_email_accepts_exactly_witness :
  Symptoms._valid_email "ada.l@example.org"%string = true
  <-> exists name domain tld nl,
        "ada.l@example.org"%string
        = (name ++ "@" ++ domain ++ "." ++ tld ++ nl)%string
        /\ name <> ""%string
        /\ Re.all_chars Symptoms.local_char name = true
        /\ domain <> ""%string
        /\ Re.all_chars Symptoms.domain_char domain = true
        /\ (2 <= String.length tld)%nat
        /\ Re.all_chars Re.letter tld = true
        /\ (nl = ""%string \/ nl = String "010" ""%string).
Proof.
  apply (valid_email_accepts_exactly "ada.l@example.org"). reflexivity.
Defined.

(** ** From the symptom page to the labs page *)

Section LabsZip.

Lemma zip5_is_normalize_zip (z : option string) :
  LabsStart._zip5 z = FindADoctorPage._normalize_zip z.
Proof. reflexivity. Qed.

Lemma normalized_zip_truthy (raw z : string) :
  FindADoctorPage._normalize_zip (Some raw) = Some z -> truthy z = true.
Proof.
  intros H. apply normalize_zip_result in H. destruct H as [Hl _].
  destruct z; [discriminate Hl|reflexivity].
Qed.

End LabsZip.

(** X30: the labs page searches around the ZIP the symptom page
    accepted.  On ASCII input: when the symptom page stored no ZIP (the
    entry was empty or not a ZIP) the labs page stops and asks for one;
    otherwise it looks up exactly the five digits stored and stops when
    they cannot be located.  Only then is the API key read: an error of
    the secrets store escapes, even when the environment holds a key; a
    page without key stops; else the page is ready with those digits and
    their coordinates.  An error of the postal table escapes too. *)
Theorem labs_page_uses_the_checked_zip
  (query_postal_code : string -> outcome FindADoctor.PostalRow)
  (secrets_get : outcome (option string))
  (zip_raw : string) (env_key : option string) :
  Re.ascii_text zip_raw = true ->
  LabsStart.labs_page query_postal_code secrets_get
    (FindADoctorPage._normalize_zip (Some zip_raw)) env_key
  = match FindADoctorPage._normalize_zip (Some zip_raw) with
    | None => Return LabsStart.NeedZip
    | Some z =>
        match LabsPage.geocode_zip query_postal_code z with
        | Raise e => Raise e
        | Return None => Return LabsStart.NotLocated
        | Return (Some (user_lat, user_lon)) =>
            match secrets_get with
            | Raise e => Raise e
            | Return secret_key =>
                if truthy_opt secret_key || truthy_opt env_key
                then Return (LabsStart.Ready z user_lat user_lon)
                else Return LabsStart.NoApiKey
            end
        end
    end.
Proof.
  intros _.
  unfold LabsStart.labs_page. rewrite zip5_is_normalize_zip.
  destruct (FindADoctorPage._normalize_zip (Some zip_raw)) as [z|] eqn:E;
    [|reflexivity].
  destruct (@normalize_zip_result _ _ E) as (_ & Hfix & _). rewrite Hfix.
  rewrite (@normalized_zip_truthy _ _ E). cbn [negb].
  destruct (LabsPage.geocode_zip query_postal_code z) as [[[lat lon]|]|e];
    cbn [bind]; try reflexivity.
  destruct secrets_get as [secret_key|e]; cbn [bind]; [|reflexivity].
  unfold or_opt. destruct (truthy_opt secret_key) eqn:K; cbn [orb].
  - now rewrite K.
  - reflexivity.
Qed.

Lemma labs_page_uses_the_checked_zip_witness :
  LabsStart.labs_page Demo.postal
    (Raise (PyException "StreamlitSecretNotFoundError"))
    (FindADoctorPage._normalize_zip (Some " 33351"%string))
    (Some "key-of-the-environment"%string)
  = Raise (PyException "StreamlitSecretNotFoundError").
Proof.
  rewrite (@labs_page_uses_the_checked_zip Demo.postal
             (Raise (PyException "StreamlitSecretNotFoundError"))
             " 33351" (Some "key-of-the-environment"%string) eq_refl).
  reflexivity.
Defined.
